(** * The Villain order ledger: utils/blockchain.py

    A shallow embedding of [VillainBlockchain] (utils/blockchain.py) with the
    parts of the Python runtime it calls: [hashlib.sha256], [json.dumps],
    [json.loads], the [dict] operations on a block, and the
    [blockchain_records] table of utils/database.py with the rewriting its
    cursor wrapper applies to every statement.

    Conventions.
    - A Python [str] is a Rocq [string]; each character stands for the code
      point of the same number (0..255).
    - A Python [int] is a [Z].
    - A Python [dict] is an association list in insertion order.
    - Python floats are left out: payloads range over float-free JSON
      documents.
    - An int stays below the number of digits the interpreter agrees to
      print or parse (4300 from CPython 3.11 on).
    - A raised exception is a value of [exn]; an unbounded [while] loop takes
      fuel. *)

From Stdlib Require Import ZArith List String Ascii Bool Lia.
From Stdlib Require Import DecimalString Permutation Sorted.
From Stdlib Require DecimalPos.
Import ListNotations.

Local Open Scope string_scope.
Local Open Scope list_scope.
Local Open Scope Z_scope.

(** ** hashlib.sha256 (FIPS 180-4) *)

Module SHA256.

Definition word_mask : Z := 4294967295.

Definition wrap (x : Z) : Z := Z.land x word_mask.

Definition plus32 (x y : Z) : Z := wrap (x + y).

Definition rotr (n x : Z) : Z :=
  Z.lor (Z.shiftr x n) (wrap (Z.shiftl x (32 - n))).

Definition choose (e f g : Z) : Z :=
  Z.lxor (Z.land e f) (Z.land (Z.lxor e word_mask) g).

Definition majority (a b c : Z) : Z :=
  Z.lxor (Z.lxor (Z.land a b) (Z.land a c)) (Z.land b c).

Definition big_sigma0 (a : Z) : Z :=
  Z.lxor (Z.lxor (rotr 2 a) (rotr 13 a)) (rotr 22 a).

Definition big_sigma1 (e : Z) : Z :=
  Z.lxor (Z.lxor (rotr 6 e) (rotr 11 e)) (rotr 25 e).

Definition small_sigma0 (w : Z) : Z :=
  Z.lxor (Z.lxor (rotr 7 w) (rotr 18 w)) (Z.shiftr w 3).

Definition small_sigma1 (w : Z) : Z :=
  Z.lxor (Z.lxor (rotr 17 w) (rotr 19 w)) (Z.shiftr w 10).

(** The sixty-four round constants, in decimal. *)
Definition round_constants : list Z :=
  [ 1116352408; 1899447441; 3049323471; 3921009573;
    961987163; 1508970993; 2453635748; 2870763221;
    3624381080; 310598401; 607225278; 1426881987;
    1925078388; 2162078206; 2614888103; 3248222580;
    3835390401; 4022224774; 264347078; 604807628;
    770255983; 1249150122; 1555081692; 1996064986;
    2554220882; 2821834349; 2952996808; 3210313671;
    3336571891; 3584528711; 113926993; 338241895;
    666307205; 773529912; 1294757372; 1396182291;
    1695183700; 1986661051; 2177026350; 2456956037;
    2730485921; 2820302411; 3259730800; 3345764771;
    3516065817; 3600352804; 4094571909; 275423344;
    430227734; 506948616; 659060556; 883997877;
    958139571; 1322822218; 1537002063; 1747873779;
    1955562222; 2024104815; 2227730452; 2361852424;
    2428436474; 2756734187; 3204031479; 3329325298 ].

Record regs := Regs {
  ra : Z; rb : Z; rc : Z; rd : Z; re : Z; rf : Z; rg : Z; rh : Z }.

Definition initial_regs : regs :=
  Regs 1779033703 3144134277 1013904242 2773480762
       1359893119 2600822924 528734635 1541459225.

(** The message schedule is kept as a sliding window of the last sixteen
    words, oldest first. *)
Definition next_word (window : list Z) : Z :=
  plus32 (plus32 (small_sigma1 (nth 14 window 0)) (nth 9 window 0))
         (plus32 (small_sigma0 (nth 1 window 0)) (nth 0 window 0)).

Definition round (s : regs) (k w : Z) : regs :=
  let t1 := plus32 (plus32 (plus32 (rh s) (big_sigma1 (re s)))
                           (plus32 (choose (re s) (rf s) (rg s)) k)) w in
  let t2 := plus32 (big_sigma0 (ra s)) (majority (ra s) (rb s) (rc s)) in
  Regs (plus32 t1 t2) (ra s) (rb s) (rc s) (plus32 (rd s) t1) (re s) (rf s) (rg s).

Fixpoint rounds (ks : list Z) (window : list Z) (s : regs) : regs :=
  match ks with
  | [] => s
  | k :: ks' =>
      let w := nth 0 window 0 in
      rounds ks' (tl window ++ [next_word window]) (round s k w)
  end.

Definition compress (s : regs) (chunk : list Z) : regs :=
  let t := rounds round_constants chunk s in
  Regs (plus32 (ra s) (ra t)) (plus32 (rb s) (rb t))
       (plus32 (rc s) (rc t)) (plus32 (rd s) (rd t))
       (plus32 (re s) (re t)) (plus32 (rf s) (rf t))
       (plus32 (rg s) (rg t)) (plus32 (rh s) (rh t)).

(** Big-endian bytes of a number, [n] of them. *)
Fixpoint be_bytes (n : nat) (x : Z) : list Z :=
  match n with
  | O => []
  | S m => Z.land (Z.shiftr x (8 * Z.of_nat m)) 255 :: be_bytes m x
  end.

Definition pad (msg : list Z) : list Z :=
  let len := Z.of_nat (List.length msg) in
  let zeros := Z.to_nat ((55 - len) mod 64) in
  msg ++ 128 :: repeat 0 zeros ++ be_bytes 8 (8 * len).

Fixpoint words_of_bytes (bs : list Z) : list Z :=
  match bs with
  | b0 :: b1 :: b2 :: b3 :: rest =>
      (Z.shiftl b0 24 + Z.shiftl b1 16 + Z.shiftl b2 8 + b3) :: words_of_bytes rest
  | _ => []
  end.

Fixpoint absorb (fuel : nat) (ws : list Z) (s : regs) : regs :=
  match fuel, ws with
  | S fuel', _ :: _ => absorb fuel' (skipn 16 ws) (compress s (firstn 16 ws))
  | _, _ => s
  end.

Definition digest_words (msg : list Z) : list Z :=
  let ws := words_of_bytes (pad msg) in
  let s := absorb (List.length ws) ws initial_regs in
  [ra s; rb s; rc s; rd s; re s; rf s; rg s; rh s].

Definition hex_digit (d : Z) : ascii :=
  if d <? 10 then ascii_of_N (Z.to_N (48 + d)) else ascii_of_N (Z.to_N (87 + d)).

Fixpoint hex_of (n : nat) (x : Z) : string :=
  match n with
  | O => EmptyString
  | S m => String (hex_digit (Z.land (Z.shiftr x (4 * Z.of_nat m)) 15)) (hex_of m x)
  end.

Definition bytes_of_string (s : string) : list Z :=
  map (fun c => Z.of_N (N_of_ascii c)) (list_ascii_of_string s).

(** [hashlib.sha256(s.encode()).hexdigest()] for an ASCII string [s]. *)
Definition hexdigest (s : string) : string :=
  String.concat "" (map (hex_of 8) (digest_words (bytes_of_string s))).

End SHA256.

(** ** Python values, exceptions and dicts *)

(** The JSON documents the ledger handles: what [json.loads] returns and
    what [json.dumps] accepts, without floats. A [dict] keeps its items in
    insertion order; its keys are strings. *)
#[local] Unset Elimination Schemes.
Inductive json : Type :=
| JNull
| JBool (b : bool)
| JInt (z : Z)
| JStr (s : string)
| JList (l : list json)
| JDict (d : list (string * json)).
#[local] Set Elimination Schemes.

Definition pydict : Type := list (string * json).

(** The exceptions the modelled code can raise. [ProgrammingError] is the
    one sqlite3 raises for a parameter it cannot bind (under the name
    InterfaceError before CPython 3.11); [OperationalError] and
    [DatabaseError] are what a statement raises on a file that opens but
    cannot be read. [NotModelled] is not a Python exception: [json_loads]
    answers it on a text that Python decodes to a value outside [json] (a
    float literal, a [\u] escape above 00ff). Python raises nothing there:
    what the code does with such a text is not what the model does with
    [Raise NotModelled], and the statements about stored text leave it
    out. *)
Inductive exn : Type :=
| KeyError (key : string)
| TypeError
| AttributeError
| OverflowError
| ProgrammingError
| OperationalError
| DatabaseError
| RecursionError
| JSONDecodeError
| NotModelled.

(** The outcome of a call that may raise. *)
Inductive res (A : Type) : Type :=
| Ok (a : A)
| Raise (e : exn).
Arguments Ok {A} a.
Arguments Raise {A} e.

Definition bind {A B : Type} (m : res A) (k : A -> res B) : res B :=
  match m with
  | Ok a => k a
  | Raise e => Raise e
  end.

Notation "x <- m ;; k" := (bind m (fun x => k))
  (at level 61, m at next level, right associativity).
Notation "' p <- m ;; k" := (bind m (fun x => match x with p => k end))
  (at level 61, p pattern, m at next level, right associativity).

(** [d.get(key)] as an option, [d[key]], [d[key] = v] and [key in d]. *)
Fixpoint dict_get (key : string) (d : pydict) : option json :=
  match d with
  | [] => None
  | (k, v) :: rest => if String.eqb k key then Some v else dict_get key rest
  end.

Definition dict_item (key : string) (d : pydict) : res json :=
  match dict_get key d with
  | Some v => Ok v
  | None => Raise (KeyError key)
  end.

Fixpoint dict_mem (key : string) (d : pydict) : bool :=
  match d with
  | [] => false
  | (k, _) :: rest => String.eqb k key || dict_mem key rest
  end.

Fixpoint dict_replace (key : string) (v : json) (d : pydict) : pydict :=
  match d with
  | [] => []
  | (k, x) :: rest =>
      if String.eqb k key then (k, v) :: rest else (k, x) :: dict_replace key v rest
  end.

(** A new key goes last; an existing key keeps its place. *)
Definition dict_set (key : string) (v : json) (d : pydict) : pydict :=
  if dict_mem key d then dict_replace key v d else d ++ [(key, v)].

(** [s[:n]] and ['0' * n] for a Python int [n]. *)
Definition py_slice_to (s : string) (n : Z) : string :=
  if 0 <=? n then String.substring 0 (Z.to_nat n) s
  else String.substring 0 (Z.to_nat (Z.of_nat (String.length s) + n)) s.

Fixpoint repeat_string (s : string) (n : nat) : string :=
  match n with
  | O => ""
  | S m => (s ++ repeat_string s m)%string
  end.

Definition py_repeat (s : string) (n : Z) : string := repeat_string s (Z.to_nat n).

(** ** json.dumps *)

Definition string_of_Z (z : Z) : string :=
  DecimalString.NilZero.string_of_int (Z.to_int z).

Definition quote_char : ascii := "034"%char.

Definition escape_char (c : ascii) : string :=
  let n := Z.of_N (N_of_ascii c) in
  if n =? 34 then String "\" (String quote_char "")
  else if n =? 92 then "\\"
  else if n =? 8 then "\b"
  else if n =? 12 then "\f"
  else if n =? 10 then "\n"
  else if n =? 13 then "\r"
  else if n =? 9 then "\t"
  else if (32 <=? n) && (n <=? 126) then String c ""
  else ("\u" ++ SHA256.hex_of 4 n)%string.

(** [py_encode_basestring_ascii]: the quoted, ASCII-only form of a str. *)
Fixpoint escape_body (s : string) : string :=
  match s with
  | EmptyString => ""
  | String c rest => (escape_char c ++ escape_body rest)%string
  end.

Definition encode_str (s : string) : string :=
  String quote_char (escape_body s ++ String quote_char "")%string.

(** [sorted(dct.items())]: keys are distinct, so the order is the order of
    the keys, compared by code point. Insertion sort on the key. *)
Fixpoint insert_item {A : Type} (kv : string * A) (l : list (string * A)) : list (string * A) :=
  match l with
  | [] => [kv]
  | kv' :: rest =>
      if String.leb (fst kv) (fst kv') then kv :: l else kv' :: insert_item kv rest
  end.

Fixpoint sort_items {A : Type} (l : list (string * A)) : list (string * A) :=
  match l with
  | [] => []
  | kv :: rest => insert_item kv (sort_items rest)
  end.

Definition newline_indent (indent : option nat) (level : nat) : string :=
  match indent with
  | None => ""
  | Some n => (String (ascii_of_nat 10) "" ++ repeat_string " " (n * level))%string
  end.

Definition item_separator (indent : option nat) (level : nat) : string :=
  match indent with
  | None => ", "
  | Some _ => ("," ++ newline_indent indent level)%string
  end.

(** The encoder at nesting depth [level]. The items of a dict are rendered
    in place and then ordered by key when [sort_keys] is set: the order
    depends on the keys alone. *)
Fixpoint encode (sort_keys : bool) (indent : option nat) (level : nat) (v : json) : string :=
  match v with
  | JNull => "null"
  | JBool true => "true"
  | JBool false => "false"
  | JInt z => string_of_Z z
  | JStr s => encode_str s
  | JList [] => "[]"
  | JList l =>
      ("[" ++ newline_indent indent (S level)
           ++ String.concat (item_separator indent (S level))
                (map (encode sort_keys indent (S level)) l)
           ++ newline_indent indent level ++ "]")%string
  | JDict [] => "{}"
  | JDict d =>
      let rendered := map (fun kv => (fst kv, encode sort_keys indent (S level) (snd kv))) d in
      let items := if sort_keys then sort_items rendered else rendered in
      ("{" ++ newline_indent indent (S level)
           ++ String.concat (item_separator indent (S level))
                (map (fun kv => encode_str (fst kv) ++ ": " ++ snd kv) items)
           ++ newline_indent indent level ++ "}")%string
  end.

(** [json.dumps(v, sort_keys=..., indent=...)]. *)
Definition json_dumps (sort_keys : bool) (indent : option nat) (v : json) : string :=
  encode sort_keys indent 0 v.

(** ** json.loads *)

Definition code (c : ascii) : Z := Z.of_N (N_of_ascii c).

Definition is_ws (c : ascii) : bool :=
  (code c =? 32) || (code c =? 9) || (code c =? 10) || (code c =? 13).

Definition is_digit (c : ascii) : bool := (48 <=? code c) && (code c <=? 57).

Fixpoint skip_ws (s : string) : string :=
  match s with
  | String c rest => if is_ws c then skip_ws rest else s
  | EmptyString => s
  end.

Definition hex_value (c : ascii) : option Z :=
  let n := code c in
  if (48 <=? n) && (n <=? 57) then Some (n - 48)
  else if (97 <=? n) && (n <=? 102) then Some (n - 87)
  else if (65 <=? n) && (n <=? 70) then Some (n - 55)
  else None.

Definition hex4 (a b c d : ascii) : option Z :=
  match hex_value a, hex_value b, hex_value c, hex_value d with
  | Some x, Some y, Some z, Some w => Some (4096 * x + 256 * y + 16 * z + w)
  | _, _, _, _ => None
  end.

(** The character a backslash escape other than [\u] stands for. *)
Definition simple_escape (c : ascii) : option ascii :=
  let n := code c in
  if n =? 34 then Some quote_char
  else if n =? 92 then Some "\"%char
  else if n =? 47 then Some "/"%char
  else if n =? 98 then Some "008"%char
  else if n =? 102 then Some "012"%char
  else if n =? 110 then Some "010"%char
  else if n =? 114 then Some "013"%char
  else if n =? 116 then Some "009"%char
  else None.

(** [scanstring], strict: the input starts just after the opening quote;
    the result is the decoded str and the input after the closing quote. *)
Fixpoint scanstring (s : string) : res (string * string) :=
  match s with
  | EmptyString => Raise JSONDecodeError
  | String c rest =>
      if code c =? 34 then Ok (EmptyString, rest)
      else if code c =? 92 then
        match rest with
        | EmptyString => Raise JSONDecodeError
        | String e rest' =>
            if code e =? 117 then
              match rest' with
              | String h1 (String h2 (String h3 (String h4 rest''))) =>
                  match hex4 h1 h2 h3 h4 with
                  | None => Raise JSONDecodeError
                  | Some n =>
                      if n <? 256 then
                        '(body, r) <- scanstring rest'' ;;
                        Ok (String (ascii_of_N (Z.to_N n)) body, r)
                      else Raise NotModelled
                  end
              | _ => Raise JSONDecodeError
              end
            else
              match simple_escape e with
              | None => Raise JSONDecodeError
              | Some c' => '(body, r) <- scanstring rest' ;; Ok (String c' body, r)
              end
        end
      else if code c <? 32 then Raise JSONDecodeError
      else '(body, r) <- scanstring rest ;; Ok (String c body, r)
  end.

(** The longest run of digits at the head of the input, read as a number
    that continues [acc], and what follows it. *)
Fixpoint take_digits (acc : Z) (s : string) : Z * string :=
  match s with
  | String c rest => if is_digit c then take_digits (10 * acc + (code c - 48)) rest else (acc, s)
  | EmptyString => (acc, s)
  end.

Definition starts_with_digit (s : string) : bool :=
  match s with
  | String c _ => is_digit c
  | EmptyString => false
  end.

(** Does [(\.[0-9]+)] or [([eE][-+]?[0-9]+)] match here? Then Python reads
    a float. *)
Definition float_tail (s : string) : bool :=
  match s with
  | String c rest =>
      if code c =? 46 then starts_with_digit rest
      else if (code c =? 101) || (code c =? 69) then
        match rest with
        | String sg rest' =>
            if (code sg =? 43) || (code sg =? 45) then starts_with_digit rest'
            else is_digit sg
        | EmptyString => false
        end
      else false
  | EmptyString => false
  end.

(** [NUMBER_RE.match]: [None] when the input does not start with a number. *)
Definition match_number (s : string) : option (res (json * string)) :=
  let (negative, body) :=
    match s with
    | String c rest => if code c =? 45 then (true, rest) else (false, s)
    | EmptyString => (false, s)
    end in
  match body with
  | String c rest =>
      if is_digit c then
        let (magnitude, after) :=
          if code c =? 48 then (0, rest) else take_digits 0 body in
        if float_tail after then Some (Raise NotModelled)
        else Some (Ok (JInt (if negative then - magnitude else magnitude), after))
      else None
  | EmptyString => None
  end.

Fixpoint drop (n : nat) (s : string) : string :=
  match n, s with
  | S m, String _ rest => drop m rest
  | _, _ => s
  end.

(** [dict(pairs)]: a repeated key keeps its first place and its last value. *)
Definition dict_of_pairs (pairs : list (string * json)) : pydict :=
  fold_left (fun d kv => dict_set (fst kv) (snd kv) d) pairs [].

(** [scan_once] with the array and object loops of the decoder.
    [scan_array] starts at an element; [scan_object] starts just after the
    opening quote of a key. Each call takes at least one character off the
    input for every two units of fuel, so [json_loads] gives enough; the
    interpreter's own recursion limit on deeply nested text is not
    modelled. *)
Fixpoint scan_once (fuel : nat) (s : string) {struct fuel} : res (json * string) :=
  match fuel with
  | O => Raise RecursionError
  | S fuel' =>
      match s with
      | EmptyString => Raise JSONDecodeError
      | String c rest =>
          if code c =? 34 then
            '(str, r) <- scanstring rest ;; Ok (JStr str, r)
          else if code c =? 123 then
            match skip_ws rest with
            | String c' r =>
                if code c' =? 125 then Ok (JDict [], r)
                else if code c' =? 34 then scan_object fuel' r []
                else Raise JSONDecodeError
            | EmptyString => Raise JSONDecodeError
            end
          else if code c =? 91 then
            match skip_ws rest with
            | String c' r =>
                if code c' =? 93 then Ok (JList [], r)
                else scan_array fuel' (String c' r) []
            | EmptyString => Raise JSONDecodeError
            end
          else if String.prefix "null" s then Ok (JNull, drop 4 s)
          else if String.prefix "true" s then Ok (JBool true, drop 4 s)
          else if String.prefix "false" s then Ok (JBool false, drop 5 s)
          else
            match match_number s with
            | Some r => r
            | None =>
                if String.prefix "NaN" s || String.prefix "Infinity" s
                   || String.prefix "-Infinity" s
                then Raise NotModelled
                else Raise JSONDecodeError
            end
      end
  end
with scan_array (fuel : nat) (s : string) (acc : list json) {struct fuel}
  : res (json * string) :=
  match fuel with
  | O => Raise RecursionError
  | S fuel' =>
      '(v, r) <- scan_once fuel' s ;;
      match skip_ws r with
      | String c r' =>
          if code c =? 93 then Ok (JList (rev (v :: acc)), r')
          else if code c =? 44 then scan_array fuel' (skip_ws r') (v :: acc)
          else Raise JSONDecodeError
      | EmptyString => Raise JSONDecodeError
      end
  end
with scan_object (fuel : nat) (s : string) (acc : list (string * json)) {struct fuel}
  : res (json * string) :=
  match fuel with
  | O => Raise RecursionError
  | S fuel' =>
      '(key, r) <- scanstring s ;;
      match skip_ws r with
      | String c r' =>
          if code c =? 58 then
            '(v, r2) <- scan_once fuel' (skip_ws r') ;;
            match skip_ws r2 with
            | String c2 r3 =>
                if code c2 =? 125 then
                  Ok (JDict (dict_of_pairs (rev ((key, v) :: acc))), r3)
                else if code c2 =? 44 then
                  match skip_ws r3 with
                  | String c3 r4 =>
                      if code c3 =? 34 then scan_object fuel' r4 ((key, v) :: acc)
                      else Raise JSONDecodeError
                  | EmptyString => Raise JSONDecodeError
                  end
                else Raise JSONDecodeError
            | EmptyString => Raise JSONDecodeError
            end
          else Raise JSONDecodeError
      | EmptyString => Raise JSONDecodeError
      end
  end.

(** [json.loads(s)]: one value, white space around it, nothing else. *)
Definition json_loads (s : string) : res json :=
  '(v, r) <- scan_once (2 * String.length s + 2) (skip_ws s) ;;
  match skip_ws r with
  | EmptyString => Ok v
  | String _ _ => Raise JSONDecodeError
  end.

(** ** The blockchain_records table (utils/database.py) *)

(** A value of the [order_id] column, kept as it was bound: None, an int,
    or a str. The column has INTEGER affinity, so for a str that reads as a
    number SQLite stores and returns that number, not the str: [SqlText s]
    stands for what the column makes of [s]. No definition looks inside
    it. *)
Inductive sqlvalue : Type :=
| SqlNull
| SqlInteger (z : Z)
| SqlText (s : string).

(** One row, as [dict(row)] hands it to the ledger. The four TEXT columns
    hold text. *)
Record Row : Type := mkRow {
  id : Z;
  order_id : sqlvalue;
  previous_hash : string;
  current_hash : string;
  block_data : string;
  timestamp : string }.

(** The database file: whether [get_db_connection] succeeds, the rows of
    the table, and the largest id AUTOINCREMENT has handed out. The
    statements of the ledger run on it. A file that opens and on which they
    raise is not a [Database]: see [verify_blockchain_integrity_over]. *)
Record Database : Type := mkDatabase {
  available : bool;
  table : list Row;
  sequence : Z }.

(** What the two clocks read during one call: [str(datetime.now())] and
    SQLite's CURRENT_TIMESTAMP. *)
Record Clock : Type := mkClock {
  py_now : string;
  sql_now : string }.

(** A controller instance ([self.chain]) and the database it talks to. *)
Record State : Type := mkState {
  chain : list pydict;
  db : Database }.

(** How sqlite3 binds a Python value to the [order_id] parameter: the
    value as bound, see [sqlvalue]. *)
Definition sql_bind (v : json) : res sqlvalue :=
  match v with
  | JNull => Ok SqlNull
  | JBool b => Ok (SqlInteger (if b then 1 else 0))
  | JInt z =>
      if (- 9223372036854775808 <=? z) && (z <=? 9223372036854775807)
      then Ok (SqlInteger z) else Raise OverflowError
  | JStr s => Ok (SqlText s)
  | JList _ | JDict _ => Raise ProgrammingError
  end.

(** A str bound to a TEXT column; other values are outside the model. *)
Definition text_param (v : json) : res string :=
  match v with
  | JStr s => Ok s
  | _ => Raise NotModelled
  end.

Definition max_id (rows : list Row) : Z :=
  fold_right (fun r m => Z.max (id r) m) 0 rows.

(** INSERT with AUTOINCREMENT and the default timestamp. *)
Definition insert_row (sql_time : string) (oid : sqlvalue) (prev cur data : string)
  (d : Database) : Database :=
  let new_id := Z.max (sequence d) (max_id (table d)) + 1 in
  mkDatabase (available d)
             (table d ++ [mkRow new_id oid prev cur data sql_time])
             new_id.

Fixpoint insert_by_id (r : Row) (rows : list Row) : list Row :=
  match rows with
  | [] => [r]
  | r' :: rest => if id r <=? id r' then r :: rows else r' :: insert_by_id r rest
  end.

(** SELECT * FROM blockchain_records ORDER BY id *)
Fixpoint order_by_id (rows : list Row) : list Row :=
  match rows with
  | [] => []
  | r :: rest => insert_by_id r (order_by_id rest)
  end.

(** ** SQLiteCursorWrapper._normalize_query (utils/database.py) *)

(** [new.join(s)] with [new] at both ends: what [s.replace('', new)]
    gives. *)
Fixpoint interleave (new s : string) : string :=
  match s with
  | EmptyString => new
  | String c rest => (new ++ String c (interleave new rest))%string
  end.

(** The scan of [s.replace(old, new)] for a non-empty [old]: the
    occurrences of [old] are found from the left and do not overlap. One
    unit of fuel for each character is enough. *)
Fixpoint replace_loop (fuel : nat) (old new s : string) : string :=
  match fuel with
  | O => s
  | S fuel' =>
      match s with
      | EmptyString => EmptyString
      | String c rest =>
          if String.prefix old s
          then (new ++ replace_loop fuel' old new (drop (String.length old) s))%string
          else String c (replace_loop fuel' old new rest)
      end
  end.

(** [s.replace(old, new)] *)
Definition py_replace (old new s : string) : string :=
  match old with
  | EmptyString => interleave new s
  | String _ _ => replace_loop (String.length s) old new s
  end.

(** [_normalize_query(self, query)] *)
Definition _normalize_query (query : string) : string :=
  let sql := py_replace "%s" "?" query in
  let sql := py_replace "FALSE" "0" (py_replace "TRUE" "1" sql) in
  let sql := py_replace "NOW()" "CURRENT_TIMESTAMP" sql in
  let sql := py_replace "CURDATE()" "DATE('now')" sql in
  sql.

(** [p in s] *)
Fixpoint contains (p s : string) : bool :=
  String.prefix p s
  || match s with
     | EmptyString => false
     | String _ rest => contains p rest
     end.

(** The three statements of the ledger, as the source writes them: the
    INSERT is a triple-quoted text of five lines. *)
Definition select_latest : string :=
  "SELECT * FROM blockchain_records ORDER BY id DESC LIMIT 1".

Definition select_all : string := "SELECT * FROM blockchain_records ORDER BY id".

Definition line_feed : string := String (ascii_of_nat 10) "".

Definition insert_block : string :=
  (line_feed ++ "                INSERT INTO blockchain_records "
   ++ line_feed ++ "                (order_id, previous_hash, current_hash, block_data)"
   ++ line_feed ++ "                VALUES (?, ?, ?, ?)"
   ++ line_feed ++ "            ")%string.

(** ** class VillainBlockchain (utils/blockchain.py) *)

Definition zero_hash : string := py_repeat "0" 64.

(** [calculate_hash(self, block)] *)
Definition calculate_hash (block : json) : string :=
  SHA256.hexdigest (json_dumps true (Some 2%nat) block).

(** The dict literal of a block, keys in the order the source writes them. *)
Definition make_block (index : Z) (time : string) (data : json) (prev : string) : pydict :=
  [ ("index", JInt index);
    ("timestamp", JStr time);
    ("data", data);
    ("previous_hash", JStr prev);
    ("nonce", JInt 0) ].

Definition genesis_data : json :=
  JDict [ ("message", JStr "Genesis Block - The Villain Food-App Blockchain");
          ("order_id", JInt 0) ].

(** The block [create_genesis_block] builds, its hash taken before the
    ['hash'] key is set. *)
Definition genesis_block (now : string) : pydict :=
  let block := make_block 0 now genesis_data zero_hash in
  dict_set "hash" (JStr (calculate_hash (JDict block))) block.

(** [create_genesis_block(self)] *)
Definition create_genesis_block (now : string) (st : State) : State :=
  mkState (chain st ++ [genesis_block now]) (db st).

(** [__init__(self)]: a new controller over the database. *)
Definition init (now : string) (d : Database) : State :=
  create_genesis_block now (mkState [] d).

(** [get_latest_block(self)]: SELECT ... ORDER BY id DESC LIMIT 1 *)
Definition get_latest_block (d : Database) : option Row :=
  if available d then
    match rev (order_by_id (table d)) with
    | [] => None
    | r :: _ => Some r
    end
  else None.

(** [x + 1] for the value under ['nonce']. *)
Definition add_one (v : json) : res json :=
  match v with
  | JInt n => Ok (JInt (n + 1))
  | JBool b => Ok (JInt ((if b then 1 else 0) + 1))
  | _ => Raise TypeError
  end.

(** The [while True] loop of [mine_block] on [block_copy]; [None] when it
    is still running after [fuel] iterations. *)
Fixpoint mine_loop (fuel : nat) (difficulty : Z) (prefix : string) (block_copy : pydict)
  : option (res string) :=
  match fuel with
  | O => None
  | S fuel' =>
      let hash_result := calculate_hash (JDict block_copy) in
      if String.eqb (py_slice_to hash_result difficulty) prefix then Some (Ok hash_result)
      else
        match bind (dict_item "nonce" block_copy) add_one with
        | Raise e => Some (Raise e)
        | Ok n => mine_loop fuel' difficulty prefix (dict_set "nonce" n block_copy)
        end
  end.

(** [mine_block(self, block, difficulty=2)]. The loop works on a copy:
    [block] itself is not changed. *)
Definition mine_block (fuel : nat) (block : pydict) (difficulty : Z) : option (res string) :=
  let prefix := py_repeat "0" difficulty in
  let block_copy := block in
  mine_loop fuel difficulty prefix block_copy.

Definition default_difficulty : Z := 2.

(** [block['data'].get('order_id', 0)] *)
Definition data_order_id (block : pydict) : res json :=
  data <- dict_item "data" block ;;
  match data with
  | JDict d =>
      match dict_get "order_id" d with
      | Some v => Ok v
      | None => Ok (JInt 0)
      end
  | _ => Raise AttributeError
  end.

(** [store_block_in_db(self, block)]: the returned bool and the database
    after the call. *)
Definition store_block_in_db (clock : Clock) (block : pydict) (d : Database)
  : res (bool * Database) :=
  if available d then
    oid_value <- data_order_id block ;;
    prev_value <- dict_item "previous_hash" block ;;
    hash_value <- dict_item "hash" block ;;
    data <- dict_item "data" block ;;
    oid <- sql_bind oid_value ;;
    prev <- text_param prev_value ;;
    cur <- text_param hash_value ;;
    Ok (true, insert_row (sql_now clock) oid prev cur (json_dumps false None data) d)
  else Ok (false, d).

(** The body of the [try] in [add_order_to_blockchain]; [None] while the
    mining loop has not ended. *)
Definition add_order_body (fuel : nat) (clock : Clock) (order_data : json) (st : State)
  : option (res (pydict * State)) :=
  let latest_block := get_latest_block (db st) in
  let previous_hash :=
    match latest_block with
    | Some row => current_hash row
    | None => zero_hash
    end in
  let new_block :=
    make_block (match latest_block with Some row => id row + 1 | None => 1 end)
               (py_now clock) order_data previous_hash in
  match mine_block fuel new_block default_difficulty with
  | None => None
  | Some mined =>
      Some (h <- mined ;;
            let new_block := dict_set "hash" (JStr h) new_block in
            '(_, d) <- store_block_in_db clock new_block (db st) ;;
            Ok (new_block, mkState (chain st ++ [new_block]) d))
  end.

(** [add_order_to_blockchain(self, order_data)]: the block, or Python's
    [None] after an exception, which leaves the state as it was (every
    statement that can raise comes before the first write). *)
Definition add_order_to_blockchain (fuel : nat) (clock : Clock) (order_data : json)
  (st : State) : option (option pydict * State) :=
  match add_order_body fuel clock order_data st with
  | None => None
  | Some (Ok (new_block, st')) => Some (Some new_block, st')
  | Some (Raise _) => Some (None, st)
  end.

(** *** verify_blockchain_integrity *)

Inductive status : Type := VALID | TAMPERED.

(** The three messages appended to ['issues'], by their parts. *)
Inductive issue : Type :=
| PreviousHashMismatch (expected got : string)
| HashMismatch (expected got : string)
| BlockDataParsingError (e : exn).

Record block_status : Type := mkStatus {
  block_id : Z;
  status_order_id : sqlvalue;
  block_state : status;
  issues : list issue }.

(** The body of the [try]: the recomputed hash of the stored block. *)
Definition recompute_hash (block : Row) : res string :=
  block_data <- json_loads (block_data block) ;;
  let timestamp_str := timestamp block in
  let test_block :=
    make_block (id block) timestamp_str block_data (previous_hash block) in
  Ok (calculate_hash (JDict test_block)).

(** One pass of the [for] loop: the status of [block], given the running
    [previous_hash]. On stored text outside the model [recompute_hash]
    answers [Raise NotModelled] and the entry here is a parsing error, where
    Python decodes the text and goes on to hash it: statements about the
    entry of a row are made for text within the model. *)
Definition check_block (expected_previous : string) (block : Row) : block_status :=
  let s0 := mkStatus (id block) (order_id block) VALID [] in
  let s1 :=
    if negb (String.eqb (previous_hash block) expected_previous)
    then mkStatus (block_id s0) (status_order_id s0) TAMPERED
           (issues s0 ++ [PreviousHashMismatch expected_previous (previous_hash block)])
    else s0 in
  match recompute_hash block with
  | Ok calculated_hash =>
      if negb (String.eqb calculated_hash (current_hash block))
      then mkStatus (block_id s1) (status_order_id s1) TAMPERED
             (issues s1 ++ [HashMismatch calculated_hash (current_hash block)])
      else s1
  | Raise e =>
      mkStatus (block_id s1) (status_order_id s1) TAMPERED
        (issues s1 ++ [BlockDataParsingError e])
  end.

(** The [for] loop over the fetched rows, with its two running variables. *)
Fixpoint scan_blocks (blocks : list Row) (previous_hash_var : string)
  (integrity_report : list block_status) : list block_status :=
  match blocks with
  | [] => integrity_report
  | block :: rest =>
      scan_blocks rest (current_hash block)
        (integrity_report ++ [check_block previous_hash_var block])
  end.

(** The report the loop builds for a table that can be read. *)
Definition integrity_report (d : Database) : list block_status :=
  scan_blocks (order_by_id (table d)) zero_hash [].

Definition is_tampered (s : block_status) : bool :=
  match block_state s with
  | TAMPERED => true
  | VALID => false
  end.

(** [verify_blockchain_integrity(self)] on a [Database]: no connection,
    or a table the SELECT reads. *)
Definition verify_blockchain_integrity (d : Database) : bool * string :=
  if negb (available d) then (false, "Database connection failed")
  else
    let tampered_blocks := filter is_tampered (integrity_report d) in
    match tampered_blocks with
    | _ :: _ =>
        (false,
         ("Blockchain integrity compromised. "
            ++ string_of_Z (Z.of_nat (List.length tampered_blocks))
            ++ " blocks tampered.")%string)
    | [] => (true, "Blockchain integrity verified successfully.")
    end.

(** [verify_blockchain_integrity(self)] with its two calls into the
    database made explicit: [connected] is whether [get_db_connection]
    hands out a connection, [fetched] what [cursor.execute] and [fetchall]
    then give, the rows in id order or the sqlite3 error they raise
    (sqlite3.connect opens lazily: a file that is not a database, a missing
    table or a stored text that is not UTF-8 shows at the SELECT). No [try]
    is around them. *)
Definition verify_blockchain_integrity_over (connected : bool) (fetched : res (list Row))
  : res (bool * string) :=
  if negb connected then Ok (false, "Database connection failed")
  else
    blocks <- fetched ;;
    let integrity_report := scan_blocks blocks zero_hash [] in
    let tampered_blocks := filter is_tampered integrity_report in
    match tampered_blocks with
    | _ :: _ =>
        Ok (false,
            ("Blockchain integrity compromised. "
               ++ string_of_Z (Z.of_nat (List.length tampered_blocks))
               ++ " blocks tampered.")%string)
    | [] => Ok (true, "Blockchain integrity verified successfully.")
    end.

(** ** Tampering with the table

    UPDATE blockchain_records SET block_data = text, timestamp = time
    WHERE id = k: the payload and the timestamp of block [k] rewritten in
    place, its hashes left as stored. To rewrite one of the two, pass the
    other as it stands. *)
Definition overwrite (text time : string) (r : Row) : Row :=
  mkRow (id r) (order_id r) (previous_hash r) (current_hash r) text time.

Definition rewrite_row (k : Z) (text time : string) (r : Row) : Row :=
  if id r =? k then overwrite text time r else r.

Definition tamper (k : Z) (text time : string) (d : Database) : Database :=
  mkDatabase (available d) (map (rewrite_row k text time) (table d)) (sequence d).

(** ** Equal content

    Python's [==] on the values of [json]: two dicts are equal when they
    have the same keys with equal values, in whatever order the keys were
    inserted. *)
#[local] Unset Elimination Schemes.
Inductive same_content : json -> json -> Prop :=
| same_null : same_content JNull JNull
| same_bool b : same_content (JBool b) (JBool b)
| same_int z : same_content (JInt z) (JInt z)
| same_str s : same_content (JStr s) (JStr s)
| same_list l1 l2 :
    Forall2 same_content l1 l2 -> same_content (JList l1) (JList l2)
| same_dict d1 d2 :
    (forall key v1, dict_get key d1 = Some v1 ->
       exists v2, dict_get key d2 = Some v2 /\ same_content v1 v2) ->
    (forall key, dict_get key d1 = None -> dict_get key d2 = None) ->
    same_content (JDict d1) (JDict d2).

(** The invariant of a Python dict: no key occurs twice, at any depth. *)
Inductive well_formed : json -> Prop :=
| wf_null : well_formed JNull
| wf_bool b : well_formed (JBool b)
| wf_int z : well_formed (JInt z)
| wf_str s : well_formed (JStr s)
| wf_list l : Forall well_formed l -> well_formed (JList l)
| wf_dict d :
    NoDup (map fst d) ->
    Forall (fun kv => well_formed (snd kv)) d ->
    well_formed (JDict d).
#[local] Set Elimination Schemes.

(** ** Notions used in the statements *)

(** The block under construction, with its nonce at [k]. *)
Definition block_at (index : Z) (time : string) (data : json) (prev : string) (k : Z)
  : pydict :=
  [ ("index", JInt index);
    ("timestamp", JStr time);
    ("data", data);
    ("previous_hash", JStr prev);
    ("nonce", JInt k) ].

(** Does the block hash to [d] leading zeros with its nonce at [k]? *)
Definition nonce_wins (index : Z) (time : string) (data : json) (prev : string)
  (d : Z) (k : Z) : bool :=
  String.eqb (py_slice_to (calculate_hash (JDict (block_at index time data prev k))) d)
             (py_repeat "0" d).

(** The hash and index [add_order_to_blockchain] reads off the tip. *)
Definition tip_hash (d : Database) : string :=
  match get_latest_block d with
  | Some row => current_hash row
  | None => zero_hash
  end.

Definition next_index (d : Database) : Z :=
  match get_latest_block d with
  | Some row => id row + 1
  | None => 1
  end.

(** The block a call builds before it mines. *)
Definition candidate (clock : Clock) (order_data : json) (d : Database) : pydict :=
  make_block (next_index d) (py_now clock) order_data (tip_hash d).

(** The straight-line form of the loop of [verify_blockchain_integrity]. *)
Fixpoint report_from (expected_previous : string) (blocks : list Row) : list block_status :=
  match blocks with
  | [] => []
  | block :: rest =>
      check_block expected_previous block :: report_from (current_hash block) rest
  end.

(** The issues of a report entry that come from the link check. *)
Definition is_link_issue (i : issue) : bool :=
  match i with
  | PreviousHashMismatch _ _ => true
  | _ => false
  end.

Definition link_issues (s : block_status) : list issue := filter is_link_issue (issues s).


(** Text within the model: [json.loads] raises on it or decodes it to a
    value of [json]. Outside are a float literal and a [\u] escape above
    00ff, which Python decodes to values [json] does not have. *)
Definition text_within_model (text : string) : Prop := json_loads text <> Raise NotModelled.

Definition within_model (d : Database) : Prop :=
  forall r, In r (table d) -> text_within_model (block_data r).


(** Rows in id order, items in key order. *)
Definition id_le (a b : Row) : Prop := id a <= id b.

Definition key_le {A : Type} (a b : string * A) : Prop := String.leb (fst a) (fst b) = true.

(** Lookup in a list of rendered items. *)
Fixpoint assoc {A : Type} (key : string) (l : list (string * A)) : option A :=
  match l with
  | [] => None
  | (k, v) :: rest => if String.eqb k key then Some v else assoc key rest
  end.

(** ** Sample runs

    The inputs the examples below are evaluated at. Payloads carry whole
    amounts. *)

Definition empty_database : Database := mkDatabase true [] 0.

(** A database file that cannot be opened. *)
Definition offline_database : Database := mkDatabase false [] 0.

Definition started : State := init "2024-05-01 11:59:00" empty_database.

Definition started_offline : State := init "2024-05-01 11:59:00" offline_database.

(** The host clock as it usually reads, local time with microseconds,
    against SQLite's seconds. *)
Definition lunchtime : Clock := mkClock "2024-05-01 12:00:00.123456" "2024-05-01 12:00:00".

(** Clocks whose two readings print alike: no microseconds, host in UTC. *)
Definition noon : Clock := mkClock "2024-05-01 12:00:00" "2024-05-01 12:00:00".

Definition five_past : Clock := mkClock "2024-05-01 12:05:00" "2024-05-01 12:05:00".

Definition order_2 : json := JDict [("order_id", JInt 2); ("total_amount", JInt 25)].

Definition order_61 : json := JDict [("order_id", JInt 61); ("total_amount", JInt 25)].

Definition order_571 : json := JDict [("order_id", JInt 571); ("total_amount", JInt 25)].

Definition order_750 : json := JDict [("order_id", JInt 750); ("total_amount", JInt 40)].

Definition anonymous_order : pydict := [("customer_id", JInt 132)].

Definition listed_order : json := JList [JInt 47].

(** Order 2 at lunchtime: mined at nonce 3. *)
Definition run_2 : option (option pydict * State) :=
  Eval vm_compute in add_order_to_blockchain 4 lunchtime order_2 started.

Definition block_2 : pydict :=
  Eval vm_compute in match run_2 with Some (Some b, _) => b | _ => [] end.

Definition after_2 : State :=
  Eval vm_compute in match run_2 with Some (_, st) => st | None => started end.

(** The same block with its fields inserted in the opposite order, and its
    data likewise. *)
Definition block_2_reversed : json :=
  JDict [ ("nonce", JInt 0);
          ("previous_hash", JStr zero_hash);
          ("data", JDict [("total_amount", JInt 25); ("order_id", JInt 2)]);
          ("timestamp", JStr "2024-05-01 12:00:00.123456");
          ("index", JInt 1) ].

(** Order 61 at noon: mined at nonce 3. *)
Definition run_61 : option (option pydict * State) :=
  Eval vm_compute in add_order_to_blockchain 4 noon order_61 started.

Definition after_61 : State :=
  Eval vm_compute in match run_61 with Some (_, st) => st | None => started end.

(** Orders 571 and 750, one after the other: both win at nonce 0. *)
Definition run_571 : option (option pydict * State) :=
  Eval vm_compute in add_order_to_blockchain 1 noon order_571 started.

Definition block_571 : pydict :=
  Eval vm_compute in match run_571 with Some (Some b, _) => b | _ => [] end.

Definition after_571 : State :=
  Eval vm_compute in match run_571 with Some (_, st) => st | None => started end.

Definition run_750 : option (option pydict * State) :=
  Eval vm_compute in add_order_to_blockchain 1 five_past order_750 after_571.

Definition block_750 : pydict :=
  Eval vm_compute in match run_750 with Some (Some b, _) => b | _ => [] end.

Definition after_750 : State :=
  Eval vm_compute in match run_750 with Some (_, st) => st | None => after_571 end.

(** That chain with the payload of block 1 replaced by text that is not
    JSON, and with the same payload laid out over several lines. *)
Definition broken_database : Database :=
  tamper 1 "{" "2024-05-01 12:00:00" (db after_750).

Definition reformatted_database : Database :=
  tamper 1 (json_dumps false (Some 2%nat) order_571) "2024-05-01 12:00:00" (db after_750).








(** ** Notions used in the further properties *)

(** The rows are linked from [expected_previous] on and each of them
    rehashes to its stored hash. *)
Fixpoint intact (expected_previous : string) (blocks : list Row) : Prop :=
  match blocks with
  | [] => True
  | block :: rest =>
      previous_hash block = expected_previous
      /\ recompute_hash block = Ok (current_hash block)
      /\ intact (current_hash block) rest
  end.

(** The link check alone: what the loop appends for the first test. *)
Definition link_verdict (expected_previous : string) (block : Row) : list issue :=
  if String.eqb (previous_hash block) expected_previous then []
  else [PreviousHashMismatch expected_previous (previous_hash block)].

(** Any block with its nonce set to [k], and whether it hashes to [d]
    leading zeros then. *)
Definition with_nonce (block : pydict) (k : Z) : pydict := dict_set "nonce" (JInt k) block.

Definition wins (block : pydict) (d : Z) (k : Z) : bool :=
  String.eqb (py_slice_to (calculate_hash (JDict (with_nonce block k))) d)
             (py_repeat "0" d).

(** Can [store_block_in_db] bind the order id of this payload? *)
Definition storable (order_data : json) : bool :=
  match order_data with
  | JDict d =>
      match dict_get "order_id" d with
      | None => true
      | Some v => match sql_bind v with Ok _ => true | Raise _ => false end
      end
  | _ => false
  end.

(** UPDATE blockchain_records SET order_id = oid WHERE id = k *)
Definition relabel_row (k : Z) (oid : sqlvalue) (r : Row) : Row :=
  if id r =? k
  then mkRow (id r) oid (previous_hash r) (current_hash r) (block_data r) (timestamp r)
  else r.

Definition relabel (k : Z) (oid : sqlvalue) (d : Database) : Database :=
  mkDatabase (available d) (map (relabel_row k oid) (table d)) (sequence d).

(** The databases a controller can build: the empty table, and whatever
    calls of [add_order_to_blockchain] make of it, through any number of
    controllers. *)
Inductive built : Database -> Prop :=
| built_empty : built (mkDatabase true [] 0)
| built_append fuel clock order_data chain_before d result st' :
    built d ->
    add_order_to_blockchain fuel clock order_data (mkState chain_before d)
      = Some (result, st') ->
    built (db st').

(** DELETE FROM blockchain_records WHERE id >= k: the newest rows gone.
    The AUTOINCREMENT counter stays. *)
Definition delete_from (k : Z) (d : Database) : Database :=
  mkDatabase (available d) (filter (fun r => id r <? k) (table d)) (sequence d).

(** Every row names the stored hash of the row before it. *)
Fixpoint linked (expected_previous : string) (blocks : list Row) : Prop :=
  match blocks with
  | [] => True
  | block :: rest =>
      previous_hash block = expected_previous /\ linked (current_hash block) rest
  end.

(** The stored hash of the last row, [fallback] for no row. *)
Definition last_hash (fallback : string) (blocks : list Row) : string :=
  match rev blocks with
  | [] => fallback
  | block :: _ => current_hash block
  end.

(** UPDATE blockchain_records SET previous_hash = text WHERE id = k *)
Definition relink_row (k : Z) (text : string) (r : Row) : Row :=
  if id r =? k
  then mkRow (id r) (order_id r) text (current_hash r) (block_data r) (timestamp r)
  else r.

Definition relink (k : Z) (text : string) (d : Database) : Database :=
  mkDatabase (available d) (map (relink_row k text) (table d)) (sequence d).

(** What ends a value inside a document: nothing that continues a number. *)
Definition ends_value (rest : string) : Prop :=
  starts_with_digit rest = false /\ float_tail rest = false.

(** [scan_once] reads the value back from its text, whatever ends it, with
    fuel for the length of the text. *)
Definition decodes_back (v : json) : Prop :=
  forall (level fuel : nat) (rest : string),
    (String.length (encode false None level v) <= fuel)%nat ->
    ends_value rest ->
    scan_once fuel (encode false None level v ++ rest) = Ok (v, rest).

(** One item of a dict as [json.dumps] writes it. *)
Definition render_item (level : nat) (kv : string * json) : string :=
  (encode_str (fst kv) ++ ": " ++ encode false None level (snd kv))%string.

(** UPDATE blockchain_records SET previous_hash = ..., current_hash = ...
    on every row, in id order: each row is made to name the hash of the row
    before it and given the hash the check will compute for it. *)
Fixpoint reseal (expected_previous : string) (blocks : list Row) : list Row :=
  match blocks with
  | [] => []
  | block :: rest =>
      let relinked :=
        mkRow (id block) (order_id block) expected_previous (current_hash block)
              (block_data block) (timestamp block) in
      let h :=
        match recompute_hash relinked with
        | Ok calculated_hash => calculated_hash
        | Raise _ => current_hash block
        end in
      mkRow (id block) (order_id block) expected_previous h
            (block_data block) (timestamp block)
        :: reseal h rest
  end.

Definition resealed (d : Database) : Database :=
  mkDatabase (available d) (reseal zero_hash (table d)) (sequence d).

(** ** Further sample runs *)

(** The order without an order id, at lunchtime: mined at nonce 2. *)
Definition run_anonymous : option (option pydict * State) :=
  Eval vm_compute in add_order_to_blockchain 3 lunchtime (JDict anonymous_order) started.

Definition block_anonymous : pydict :=
  Eval vm_compute in match run_anonymous with Some (Some b, _) => b | _ => [] end.

Definition after_anonymous : State :=
  Eval vm_compute in match run_anonymous with Some (_, st) => st | None => started end.

(** The sample chain with block 2 pointed back at the zero digest. *)
Definition relinked_database : Database := relink 2 zero_hash (db after_750).

(** The chain of order 2 with its hash columns rewritten. *)
Definition resealed_after_2 : Database := Eval vm_compute in resealed (db after_2).

(** Order 571 once more, after the one row of its chain was deleted. *)
Definition run_again : option (option pydict * State) :=
  Eval vm_compute in
    add_order_to_blockchain 1 noon order_571 (mkState [] (delete_from 1 (db after_571))).

Definition block_again : pydict :=
  Eval vm_compute in match run_again with Some (Some b, _) => b | _ => [] end.

Definition after_again : State :=
  Eval vm_compute in match run_again with Some (_, st) => st | None => started end.

(** Order 61 at noon on top of the chain of order 2: mined at nonce 4. *)
Definition run_61_after_2 : option (option pydict * State) :=
  Eval vm_compute in add_order_to_blockchain 5 noon order_61 after_2.

Definition after_61_after_2 : State :=
  Eval vm_compute in match run_61_after_2 with Some (_, st) => st | None => after_2 end.

(** ** Proof automation *)

(** Closed goals are settled by evaluation. *)
Ltac evaluate := vm_compute; reflexivity.

Ltac evaluate_each :=
  repeat match goal with |- _ /\ _ => split end; evaluate.

Ltac distinct_keys :=
  cbn [map fst];
  repeat (apply NoDup_cons; [cbn [In]; intuition discriminate|]);
  apply NoDup_nil.

Ltac well_formed_value :=
  repeat first
    [ apply wf_null | apply wf_bool | apply wf_int | apply wf_str
    | apply wf_list
    | apply wf_dict; [distinct_keys|]
    | apply Forall_nil
    | apply Forall_cons; [cbn [snd]|] ].

(** * Properties *)

(** ** The runtime model agrees with Python on known values *)

Example sha256_abc :
  SHA256.hexdigest "abc"
  = "ba7816bf8f01cfea414140de5dae2223b00361a396177a9cb410ff61f20015ad".
Proof. vm_compute. reflexivity. Qed.

Example sha256_empty :
  SHA256.hexdigest ""
  = "e3b0c44298fc1c149afbf4c8996fb92427ae41e4649b934ca495991b7852b855".
Proof. vm_compute. reflexivity. Qed.

Example zero_hash_is_64_zeros :
  zero_hash = "0000000000000000000000000000000000000000000000000000000000000000".
Proof. reflexivity. Qed.

(** ** Blocks as dicts *)

Lemma make_block_at index time data prev :
  make_block index time data prev = block_at index time data prev 0.
Proof. reflexivity. Qed.

Lemma block_at_nonce index time data prev k :
  dict_item "nonce" (block_at index time data prev k) = Ok (JInt k).
Proof. reflexivity. Qed.

Lemma block_at_bump index time data prev k n :
  dict_set "nonce" (JInt n) (block_at index time data prev k)
  = block_at index time data prev n.
Proof. reflexivity. Qed.

Lemma make_block_set_hash index time data prev h :
  dict_set "hash" (JStr h) (make_block index time data prev)
  = make_block index time data prev ++ [("hash", JStr h)].
Proof. reflexivity. Qed.

Lemma mine_loop_unfold fuel d prefix b :
  mine_loop (S fuel) d prefix b
  = if String.eqb (py_slice_to (calculate_hash (JDict b)) d) prefix
    then Some (Ok (calculate_hash (JDict b)))
    else match bind (dict_item "nonce" b) add_one with
         | Raise e => Some (Raise e)
         | Ok n => mine_loop fuel d prefix (dict_set "nonce" n b)
         end.
Proof. reflexivity. Qed.

(** ** Proof of work *)

Lemma repeat_string_zero_succ n :
  repeat_string "0" (S n) = String "0"%char (repeat_string "0" n).
Proof. reflexivity. Qed.

Lemma zero_run_get n : forall h,
  String.substring 0 n h = repeat_string "0" n ->
  forall i, (i < n)%nat -> String.get i h = Some "0"%char.
Proof.
  induction n as [|n IH]; intros h Hrun i Hi; [lia|].
  rewrite repeat_string_zero_succ in Hrun.
  destruct h as [|c h']; cbn [String.substring] in Hrun; [discriminate|].
  injection Hrun as Hc Hrest. subst c.
  destruct i as [|i]; cbn [String.get]; [reflexivity|].
  apply IH; [assumption | lia].
Qed.

Lemma slice_zero_run h d :
  py_slice_to h d = py_repeat "0" d ->
  forall i, 0 <= i < d -> String.get (Z.to_nat i) h = Some "0"%char.
Proof.
  intros Hrun i Hi. unfold py_slice_to, py_repeat in Hrun.
  destruct (0 <=? d) eqn:Hd; [|apply Z.leb_gt in Hd; lia].
  apply (zero_run_get (Z.to_nat d)); [assumption | lia].
Qed.

Lemma mine_loop_prefix fuel d prefix : forall b h,
  mine_loop fuel d prefix b = Some (Ok h) -> py_slice_to h d = prefix.
Proof.
  induction fuel as [|fuel IH]; intros b h Hrun; [discriminate|].
  rewrite mine_loop_unfold in Hrun.
  destruct (String.eqb (py_slice_to (calculate_hash (JDict b)) d) prefix) eqn:Htest.
  - injection Hrun as <-. now apply String.eqb_eq.
  - destruct (bind (dict_item "nonce" b) add_one) as [n|e]; [|discriminate].
    now apply IH in Hrun.
Qed.

(** C5. Whatever the block and the difficulty [d], a hash that [mine_block]
    returns has the character 0 at each of its first [d] positions; at the
    default difficulty 2 it starts with 00. *)
Theorem mine_block_leading_zeros (fuel : nat) (block : pydict) (d : Z) (h : string) :
  mine_block fuel block d = Some (Ok h) ->
  (forall i, 0 <= i < d -> String.get (Z.to_nat i) h = Some "0"%char)
  /\ (d = default_difficulty -> String.prefix "00" h = true).
Proof.
  intros Hrun. unfold mine_block in Hrun. apply mine_loop_prefix in Hrun.
  pose proof (slice_zero_run h d Hrun) as Hzeros.
  split; [exact Hzeros|].
  intros ->. unfold default_difficulty in Hzeros.
  pose proof (Hzeros 0 ltac:(lia)) as H0.
  pose proof (Hzeros 1 ltac:(lia)) as H1.
  destruct h as [|c0 [|c1 h']]; cbn in H0, H1; try discriminate.
  injection H0 as ->. injection H1 as ->.
  cbn. destruct h'; reflexivity.
Qed.

Lemma mine_block_leading_zeros_witness :
  mine_block 4 (make_block 1 (py_now lunchtime) order_2 zero_hash) default_difficulty
    = Some (Ok "007eb3ee0acfdd08a2cc20bbd7fd28830427b770b1387ce17b0ed37fe46d6e3e")
  /\ String.prefix "00" "007eb3ee0acfdd08a2cc20bbd7fd28830427b770b1387ce17b0ed37fe46d6e3e"
     = true
  /\ forall i, 0 <= i < default_difficulty ->
       String.get (Z.to_nat i)
         "007eb3ee0acfdd08a2cc20bbd7fd28830427b770b1387ce17b0ed37fe46d6e3e"
       = Some "0"%char.
Proof.
  assert (Hrun : mine_block 4 (make_block 1 (py_now lunchtime) order_2 zero_hash)
                   default_difficulty
                 = Some (Ok "007eb3ee0acfdd08a2cc20bbd7fd28830427b770b1387ce17b0ed37fe46d6e3e"))
    by (vm_compute; reflexivity).
  destruct (mine_block_leading_zeros _ _ _ _ Hrun) as [Hzeros Hprefix].
  split; [exact Hrun|]. split; [apply Hprefix; reflexivity | exact Hzeros].
Defined.

(** ** Reading the table in id order *)

Lemma insert_by_id_perm r : forall rows, Permutation (r :: rows) (insert_by_id r rows).
Proof.
  induction rows as [|r' rest IH]; cbn [insert_by_id]; [reflexivity|].
  destruct (id r <=? id r'); [reflexivity|].
  rewrite perm_swap. now apply perm_skip.
Qed.

Lemma order_by_id_perm : forall rows, Permutation rows (order_by_id rows).
Proof.
  induction rows as [|r rest IH]; cbn [order_by_id]; [reflexivity|].
  rewrite <- insert_by_id_perm. now apply perm_skip.
Qed.

Lemma insert_by_id_sorted r : forall rows,
  StronglySorted id_le rows -> StronglySorted id_le (insert_by_id r rows).
Proof.
  induction rows as [|r' rest IH]; intros Hs; cbn [insert_by_id].
  - repeat constructor.
  - inversion Hs as [|? ? Hrest Hall]; subst.
    destruct (id r <=? id r') eqn:Hle.
    + apply Z.leb_le in Hle. constructor; [assumption|].
      constructor; [exact Hle|].
      eapply Forall_impl; [|exact Hall]. unfold id_le. intros; lia.
    + apply Z.leb_gt in Hle. constructor; [now apply IH|].
      eapply Permutation_Forall; [apply insert_by_id_perm|].
      constructor; [unfold id_le; lia | assumption].
Qed.

Lemma order_by_id_sorted : forall rows, StronglySorted id_le (order_by_id rows).
Proof.
  induction rows as [|r rest IH]; cbn [order_by_id]; [constructor|].
  now apply insert_by_id_sorted.
Qed.

Lemma sorted_last_is_max : forall l r,
  StronglySorted id_le (l ++ [r]) -> Forall (fun a => id a <= id r) (l ++ [r]).
Proof.
  induction l as [|a l IH]; intros r Hs; cbn in *.
  - constructor; [lia | constructor].
  - inversion Hs as [|? ? Hrest Hall]; subst.
    constructor; [|now apply IH].
    apply Forall_app in Hall as [_ Hr]. now inversion Hr.
Qed.

(** The row [get_latest_block] returns is a row of the table with the
    greatest id. *)
Lemma get_latest_block_max d tip :
  get_latest_block d = Some tip ->
  In tip (table d) /\ forall r, In r (table d) -> id r <= id tip.
Proof.
  unfold get_latest_block. destruct (available d); [|discriminate].
  destruct (rev (order_by_id (table d))) as [|r l] eqn:Hrev; [discriminate|].
  intros [= ->].
  assert (Hsorted : order_by_id (table d) = rev l ++ [tip]).
  { rewrite <- (rev_involutive (order_by_id (table d))), Hrev. reflexivity. }
  pose proof (order_by_id_sorted (table d)) as Hs. rewrite Hsorted in Hs.
  apply sorted_last_is_max in Hs. rewrite <- Hsorted in Hs.
  pose proof (order_by_id_perm (table d)) as Hp.
  split.
  - eapply Permutation_in; [symmetry; exact Hp|].
    rewrite Hsorted. apply in_or_app. right. now left.
  - intros r Hr. rewrite Forall_forall in Hs. apply Hs.
    eapply Permutation_in; [exact Hp | exact Hr].
Qed.

Lemma get_latest_block_empty d : table d = [] -> get_latest_block d = None.
Proof. unfold get_latest_block. intros ->. now destruct (available d). Qed.

Lemma get_latest_block_nonempty d :
  available d = true -> table d <> [] -> exists tip, get_latest_block d = Some tip.
Proof.
  intros Ha Hne. unfold get_latest_block. rewrite Ha.
  destruct (rev (order_by_id (table d))) as [|r l] eqn:Hrev; [|now exists r].
  exfalso. apply Hne.
  assert (Hnil : order_by_id (table d) = []).
  { rewrite <- (rev_involutive (order_by_id (table d))), Hrev. reflexivity. }
  pose proof (order_by_id_perm (table d)) as Hp. rewrite Hnil in Hp.
  now apply Permutation_sym, Permutation_nil in Hp.
Qed.

Lemma max_id_bound : forall rows r, In r rows -> id r <= max_id rows.
Proof.
  induction rows as [|a rows IH]; intros r Hr; [contradiction|].
  destruct Hr as [-> | Hr]; cbn [max_id fold_right].
  - lia.
  - specialize (IH r Hr). unfold max_id in IH. lia.
Qed.

Lemma insert_by_id_snoc r x : forall l,
  id r <= id x -> insert_by_id r (l ++ [x]) = insert_by_id r l ++ [x].
Proof.
  intros l Hle. induction l as [|a l IH]; cbn [insert_by_id app].
  - apply Z.leb_le in Hle. now rewrite Hle.
  - destruct (id r <=? id a); [reflexivity|]. now rewrite IH.
Qed.

Lemma order_by_id_snoc x : forall rows,
  (forall r, In r rows -> id r <= id x) ->
  order_by_id (rows ++ [x]) = order_by_id rows ++ [x].
Proof.
  induction rows as [|a rows IH]; intros Hmax; cbn [order_by_id app]; [reflexivity|].
  rewrite IH by (intros r Hr; apply Hmax; now right).
  apply insert_by_id_snoc. apply Hmax. now left.
Qed.

(** After an INSERT the new row is the latest one. *)
Lemma get_latest_block_insert sql_time oid prev cur data d :
  available d = true ->
  get_latest_block (insert_row sql_time oid prev cur data d)
  = Some (mkRow (Z.max (sequence d) (max_id (table d)) + 1) oid prev cur data sql_time).
Proof.
  intros Ha. unfold get_latest_block, insert_row. cbn [available table]. rewrite Ha.
  rewrite order_by_id_snoc.
  - now rewrite rev_app_distr.
  - intros r Hr. apply max_id_bound in Hr. cbn [id]. lia.
Qed.

(** ** Appending *)

Lemma add_order_body_unfold fuel clock data st :
  add_order_body fuel clock data st
  = match mine_block fuel (candidate clock data (db st)) default_difficulty with
    | None => None
    | Some mined =>
        Some (h <- mined ;;
              '(_, d) <- store_block_in_db clock
                           (candidate clock data (db st) ++ [("hash", JStr h)]) (db st) ;;
              Ok (candidate clock data (db st) ++ [("hash", JStr h)],
                  mkState (chain st ++ [candidate clock data (db st) ++ [("hash", JStr h)]]) d))
    end.
Proof. reflexivity. Qed.

(** What a call that returned a block did. *)
Lemma add_order_returns fuel clock data st b st' :
  add_order_to_blockchain fuel clock data st = Some (Some b, st') ->
  exists h flag,
    mine_block fuel (candidate clock data (db st)) default_difficulty = Some (Ok h)
    /\ b = candidate clock data (db st) ++ [("hash", JStr h)]
    /\ store_block_in_db clock b (db st) = Ok (flag, db st')
    /\ chain st' = chain st ++ [b].
Proof.
  unfold add_order_to_blockchain. rewrite add_order_body_unfold.
  destruct (mine_block fuel (candidate clock data (db st)) default_difficulty)
    as [[h|e]|]; cbn [bind]; try discriminate.
  destruct (store_block_in_db clock (candidate clock data (db st) ++ [("hash", JStr h)]) (db st))
    as [[flag d]|e] eqn:Hstore; cbn [bind]; try discriminate.
  intros [= <- <-]. exists h, flag. cbn [db chain]. auto.
Qed.

(** What [store_block_in_db] writes for a block built by
    [add_order_to_blockchain], when the database can be reached. *)
Lemma store_block_available clock index time data prev h d flag d' :
  available d = true ->
  store_block_in_db clock (make_block index time data prev ++ [("hash", JStr h)]) d
  = Ok (flag, d') ->
  exists v oid,
    data_order_id (make_block index time data prev ++ [("hash", JStr h)]) = Ok v
    /\ sql_bind v = Ok oid
    /\ flag = true
    /\ d' = insert_row (sql_now clock) oid prev h (json_dumps false None data) d.
Proof.
  intros Ha. unfold store_block_in_db. rewrite Ha.
  destruct (data_order_id (make_block index time data prev ++ [("hash", JStr h)]))
    as [v|e]; cbn [bind]; [|discriminate].
  change (dict_item "previous_hash" (make_block index time data prev ++ [("hash", JStr h)]))
    with (@Ok json (JStr prev)).
  change (dict_item "hash" (make_block index time data prev ++ [("hash", JStr h)]))
    with (@Ok json (JStr h)).
  change (dict_item "data" (make_block index time data prev ++ [("hash", JStr h)]))
    with (@Ok json data).
  cbn [bind]. destruct (sql_bind v) as [oid|e] eqn:Hbind; cbn [bind text_param]; [|discriminate].
  intros [= <- <-]. exists v, oid. repeat split. exact Hbind.
Qed.

Lemma store_block_unavailable clock block d :
  available d = false -> store_block_in_db clock block d = Ok (false, d).
Proof. intros Ha. unfold store_block_in_db. now rewrite Ha. Qed.



(** Mining a block built by [add_order_to_blockchain] does not raise. *)
Lemma mine_loop_no_raise index time data prev d prefix : forall fuel k e,
  mine_loop fuel d prefix (block_at index time data prev k) <> Some (Raise e).
Proof.
  induction fuel as [|fuel IH]; intros k e; [discriminate|].
  rewrite mine_loop_unfold.
  destruct (String.eqb _ prefix); [discriminate|].
  rewrite block_at_nonce. cbn [bind add_one]. rewrite block_at_bump. apply IH.
Qed.

Lemma candidate_fields clock data d h :
  dict_get "previous_hash" (candidate clock data d ++ [("hash", JStr h)])
    = Some (JStr (tip_hash d))
  /\ dict_get "index" (candidate clock data d ++ [("hash", JStr h)])
    = Some (JInt (next_index d))
  /\ dict_get "hash" (candidate clock data d ++ [("hash", JStr h)]) = Some (JStr h)
  /\ dict_get "nonce" (candidate clock data d ++ [("hash", JStr h)]) = Some (JInt 0)
  /\ dict_get "data" (candidate clock data d ++ [("hash", JStr h)]) = Some data.
Proof. repeat split. Qed.

(** C6. A block returned by [add_order_to_blockchain] over a reachable
    database is linked to the tip: over an empty table its previous_hash is
    the 64-zero digest and its index is 1; otherwise they are the
    current_hash and the id + 1 of a row with the greatest id. A second
    append that returns a block has the first block's hash as its
    previous_hash. *)
Theorem append_links_to_tip (fuel : nat) (clock : Clock) (order_a : json)
  (st : State) (a : pydict) (st' : State) :
  available (db st) = true ->
  add_order_to_blockchain fuel clock order_a st = Some (Some a, st') ->
  (table (db st) = [] ->
     dict_get "previous_hash" a
       = Some (JStr "0000000000000000000000000000000000000000000000000000000000000000")
     /\ dict_get "index" a = Some (JInt 1))
  /\ (table (db st) <> [] ->
      exists tip,
        In tip (table (db st))
        /\ (forall r, In r (table (db st)) -> id r <= id tip)
        /\ dict_get "previous_hash" a = Some (JStr (current_hash tip))
        /\ dict_get "index" a = Some (JInt (id tip + 1)))
  /\ (forall fuel_b clock_b order_b b st'',
        add_order_to_blockchain fuel_b clock_b order_b st' = Some (Some b, st'') ->
        exists h,
          dict_get "hash" a = Some (JStr h)
          /\ dict_get "previous_hash" b = Some (JStr h)).
Proof.
  intros Ha Hrun.
  destruct (add_order_returns _ _ _ _ _ _ Hrun) as (h & flag & _ & -> & Hstore & _).
  destruct (candidate_fields clock order_a (db st) h) as (Hprev & Hidx & Hhash & _).
  rewrite Hprev, Hidx, Hhash.
  split; [|split].
  - intros Hempty. unfold tip_hash, next_index.
    now rewrite (get_latest_block_empty _ Hempty).
  - intros Hne.
    destruct (get_latest_block_nonempty _ Ha Hne) as [tip Htip].
    exists tip. destruct (get_latest_block_max _ _ Htip) as [Hin Hmax].
    unfold tip_hash, next_index. rewrite Htip. auto.
  - intros fuel_b clock_b order_b b st'' Hrun_b.
    destruct (add_order_returns _ _ _ _ _ _ Hrun_b) as (h' & _ & _ & -> & _ & _).
    exists h. split; [reflexivity|].
    destruct (candidate_fields clock_b order_b (db st') h') as (-> & _).
    unfold candidate in Hstore.
    destruct (store_block_available _ _ _ _ _ _ _ _ _ Ha Hstore)
      as (v & oid & _ & _ & _ & Hdb).
    unfold tip_hash. rewrite Hdb, (get_latest_block_insert _ _ _ _ _ _ Ha).
    reflexivity.
Qed.

Lemma append_links_to_tip_witness :
  available (db started) = true
  /\ add_order_to_blockchain 1 noon order_571 started = Some (Some block_571, after_571)
  /\ add_order_to_blockchain 1 five_past order_750 after_571 = Some (Some block_750, after_750)
  /\ dict_get "index" block_571 = Some (JInt 1)
  /\ exists h,
       dict_get "hash" block_571 = Some (JStr h)
       /\ dict_get "previous_hash" block_750 = Some (JStr h).
Proof.
  assert (Ha : available (db started) = true) by reflexivity.
  assert (Hrun : add_order_to_blockchain 1 noon order_571 started
                 = Some (Some block_571, after_571)) by (vm_compute; reflexivity).
  assert (Hrun' : add_order_to_blockchain 1 five_past order_750 after_571
                  = Some (Some block_750, after_750)) by (vm_compute; reflexivity).
  destruct (append_links_to_tip 1 noon order_571 started block_571 after_571 Ha Hrun)
    as (Hempty & _ & Hnext).
  split; [exact Ha|]. split; [exact Hrun|]. split; [exact Hrun'|].
  split.
  - exact (proj2 (Hempty eq_refl)).
  - exact (Hnext 1%nat five_past order_750 block_750 after_750 Hrun').
Defined.




(** A payload that is not a dict has no [get]: the call mines, raises
    inside the [try], and returns Python's [None] with nothing written. *)
Example append_list_payload :
  add_order_to_blockchain 3 lunchtime listed_order started = Some (None, started).
Proof. evaluate. Qed.

(** ** When the database cannot be opened *)

(** With no connection the tip reads as absent, the block is mined all
    the same, nothing is written, and the block is returned. *)
Lemma append_offline_general fuel clock order_data st h :
  available (db st) = false ->
  mine_block fuel (make_block 1 (py_now clock) order_data zero_hash) default_difficulty
    = Some (Ok h) ->
  add_order_to_blockchain fuel clock order_data st
  = Some (Some (make_block 1 (py_now clock) order_data zero_hash ++ [("hash", JStr h)]),
          mkState (chain st
                     ++ [make_block 1 (py_now clock) order_data zero_hash ++ [("hash", JStr h)]])
                  (db st)).
Proof.
  intros Ha Hmine. unfold add_order_to_blockchain. rewrite add_order_body_unfold.
  unfold candidate, next_index, tip_hash, get_latest_block. rewrite Ha.
  rewrite Hmine. cbn [bind]. rewrite (store_block_unavailable _ _ _ Ha). reflexivity.
Qed.

(** C2, evaluated: with the database unreachable, appending order 2
    returns a mined block although no row was written. *)
Theorem append_offline_fabricates_block :
  exists b st',
    add_order_to_blockchain 4 lunchtime order_2 started_offline = Some (Some b, st')
    /\ dict_get "hash" b
       = Some (JStr "007eb3ee0acfdd08a2cc20bbd7fd28830427b770b1387ce17b0ed37fe46d6e3e")
    /\ db st' = offline_database
    /\ table (db st') = []
    /\ store_block_in_db lunchtime b offline_database = Ok (false, offline_database).
Proof.
  eexists. eexists. split; [evaluate|].
  evaluate_each.
Qed.

(** ** The nonce of an appended block *)

(** Every block [add_order_to_blockchain] returns carries nonce 0. *)
Lemma appended_block_nonce fuel clock order_data st b st' :
  add_order_to_blockchain fuel clock order_data st = Some (Some b, st') ->
  dict_get "nonce" b = Some (JInt 0).
Proof.
  intros Hrun.
  destruct (add_order_returns _ _ _ _ _ _ Hrun) as (h & _ & _ & -> & _ & _).
  apply candidate_fields.
Qed.

(** Every block [add_order_to_blockchain] returns has a hash that starts
    with 00. *)
Lemma appended_block_hash fuel clock order_data st b st' :
  add_order_to_blockchain fuel clock order_data st = Some (Some b, st') ->
  exists h, dict_get "hash" b = Some (JStr h) /\ String.prefix "00" h = true.
Proof.
  intros Hrun.
  destruct (add_order_returns _ _ _ _ _ _ Hrun) as (h & _ & Hmine & -> & _ & _).
  exists h. split; [apply candidate_fields|].
  unfold mine_block in Hmine. apply mine_loop_prefix in Hmine.
  pose proof (slice_zero_run h default_difficulty Hmine) as Hzeros.
  unfold default_difficulty in Hzeros.
  pose proof (Hzeros 0 ltac:(lia)) as H0.
  pose proof (Hzeros 1 ltac:(lia)) as H1.
  destruct h as [|c0 [|c1 h']]; cbn in H0, H1; try discriminate.
  injection H0 as ->. injection H1 as ->.
  cbn. destruct h'; reflexivity.
Qed.

(** C4, evaluated: appending order 2 to the empty table mines up to nonce
    3, yet the returned block carries nonce 0, under which its content does
    not hash to its hash; the stored row has no nonce at all. *)
Theorem appended_block_loses_winning_nonce :
  add_order_to_blockchain 4 lunchtime order_2 started = Some (Some block_2, after_2)
  /\ dict_get "nonce" block_2 = Some (JInt 0)
  /\ dict_get "hash" block_2
     = Some (JStr "007eb3ee0acfdd08a2cc20bbd7fd28830427b770b1387ce17b0ed37fe46d6e3e")
  /\ calculate_hash (JDict (block_at 1 (py_now lunchtime) order_2 zero_hash 3))
     = "007eb3ee0acfdd08a2cc20bbd7fd28830427b770b1387ce17b0ed37fe46d6e3e"
  /\ calculate_hash (JDict (block_at 1 (py_now lunchtime) order_2 zero_hash 0))
     = "f0ef771dd990734544c0e8bba8b52e9013734e1a214ed776aff1ea19c60789c8"
  /\ nonce_wins 1 (py_now lunchtime) order_2 zero_hash default_difficulty 0 = false
  /\ table (db after_2)
     = [ mkRow 1 (SqlInteger 2) zero_hash
           "007eb3ee0acfdd08a2cc20bbd7fd28830427b770b1387ce17b0ed37fe46d6e3e"
           (json_dumps false None order_2) "2024-05-01 12:00:00" ].
Proof. evaluate_each. Qed.

(** ** Verifying what was just appended *)

(** C1, evaluated: one order appended to the empty table, nothing touched
    afterwards, and the check reports the block as tampered: the hash is
    recomputed with nonce 0 and the row's own timestamp. The same happens
    when both clocks print alike (order 61, mined at nonce 3). *)
Theorem fresh_chain_reported_tampered :
  add_order_to_blockchain 4 lunchtime order_2 started = Some (Some block_2, after_2)
  /\ verify_blockchain_integrity (db after_2)
     = (false, "Blockchain integrity compromised. 1 blocks tampered.")
  /\ integrity_report (db after_2)
     = [ mkStatus 1 (SqlInteger 2) TAMPERED
           [ HashMismatch
               "3e222dc8654f2abd2e5e8391216bfb4eecb92da9bff9c0d535849dc508274b51"
               "007eb3ee0acfdd08a2cc20bbd7fd28830427b770b1387ce17b0ed37fe46d6e3e" ] ]
  /\ (exists b, add_order_to_blockchain 4 noon order_61 started = Some (Some b, after_61))
  /\ verify_blockchain_integrity (db after_61)
     = (false, "Blockchain integrity compromised. 1 blocks tampered.")
  /\ integrity_report (db after_61)
     = [ mkStatus 1 (SqlInteger 61) TAMPERED
           [ HashMismatch
               "661c45025fb410508874441822a825271cdd98351e57ee930be7fa1eba6ac54b"
               "00c56fd0590adb6e3a5b88d3021061b5feabaf665ec1b355afae4c02525a6479" ] ].
Proof.
  split; [evaluate|].
  split; [evaluate|].
  split; [evaluate|].
  split; [eexists; evaluate|].
  split; evaluate.
Qed.

(** A chain can verify: two orders whose blocks happen to win at nonce 0,
    appended while both clocks print alike. *)
Example lucky_chain_verifies :
  add_order_to_blockchain 1 noon order_571 started = Some (Some block_571, after_571)
  /\ add_order_to_blockchain 1 five_past order_750 after_571 = Some (Some block_750, after_750)
  /\ verify_blockchain_integrity (db after_750)
     = (true, "Blockchain integrity verified successfully.")
  /\ map block_state (integrity_report (db after_750)) = [VALID; VALID].
Proof. evaluate_each. Qed.

(** ** The genesis block *)

(** The only row a call of [add_order_to_blockchain] writes is the row of
    the block it returns. *)
Lemma add_order_writes fuel clock order_data st r st' :
  add_order_to_blockchain fuel clock order_data st = Some (r, st') ->
  table (db st') = table (db st)
  \/ exists b row,
       r = Some b
       /\ table (db st') = table (db st) ++ [row]
       /\ block_data row = json_dumps false None order_data
       /\ dict_get "hash" b = Some (JStr (current_hash row))
       /\ dict_get "data" b = Some order_data.
Proof.
  unfold add_order_to_blockchain. rewrite add_order_body_unfold.
  destruct (mine_block fuel (candidate clock order_data (db st)) default_difficulty)
    as [[h|e]|]; cbn [bind]; try discriminate; [|intros [= <- <-]; now left].
  destruct (store_block_in_db clock (candidate clock order_data (db st) ++ [("hash", JStr h)])
              (db st)) as [[flag d]|e] eqn:Hstore; cbn [bind];
    [|intros [= <- <-]; now left].
  intros [= <- <-]. cbn [db].
  destruct (available (db st)) eqn:Ha.
  - unfold candidate in Hstore.
    destruct (store_block_available _ _ _ _ _ _ _ _ _ Ha Hstore) as (v & oid & _ & _ & _ & ->).
    right. eexists. eexists. split; [reflexivity|]. split; [reflexivity|].
    repeat split.
  - rewrite (store_block_unavailable _ _ _ Ha) in Hstore.
    injection Hstore as _ <-. now left.
Qed.

(** C9. Building the genesis block, and with it a controller, leaves the
    database as it was: the block goes to the in-memory chain only, and an
    append writes at most the row of the order it was given. The check over
    an empty table that can be read succeeds. *)
Theorem genesis_stays_in_memory :
  (forall now st,
     db (create_genesis_block now st) = db st
     /\ chain (create_genesis_block now st) = chain st ++ [genesis_block now])
  /\ (forall now d,
        db (init now d) = d
        /\ chain (init now d) = [genesis_block now]
        /\ dict_get "index" (genesis_block now) = Some (JInt 0))
  /\ (forall fuel clock order_data st r st',
        add_order_to_blockchain fuel clock order_data st = Some (r, st') ->
        table (db st') = table (db st)
        \/ exists b row,
             r = Some b
             /\ table (db st') = table (db st) ++ [row]
             /\ block_data row = json_dumps false None order_data
             /\ dict_get "hash" b = Some (JStr (current_hash row))
             /\ dict_get "data" b = Some order_data)
  /\ (forall seq,
        integrity_report (mkDatabase true [] seq) = []
        /\ verify_blockchain_integrity (mkDatabase true [] seq)
           = (true, "Blockchain integrity verified successfully."))
  /\ (forall now seq,
        verify_blockchain_integrity (db (init now (mkDatabase true [] seq)))
        = (true, "Blockchain integrity verified successfully.")).
Proof.
  split; [repeat split|]. split; [repeat split|].
  split; [exact add_order_writes|]. repeat split.
Qed.

Lemma genesis_stays_in_memory_witness :
  add_order_to_blockchain 1 noon order_571 started = Some (Some block_571, after_571)
  /\ db started = empty_database
  /\ chain started = [genesis_block "2024-05-01 11:59:00"]
  /\ verify_blockchain_integrity (db started)
     = (true, "Blockchain integrity verified successfully.")
  /\ exists row,
       table (db after_571) = table (db started) ++ [row]
       /\ block_data row = json_dumps false None order_571.
Proof.
  destruct genesis_stays_in_memory as (_ & Hinit & Hwrites & _ & Hverify).
  assert (Hrun : add_order_to_blockchain 1 noon order_571 started
                 = Some (Some block_571, after_571)) by (vm_compute; reflexivity).
  destruct (Hinit "2024-05-01 11:59:00" empty_database) as (Hdb & Hchain & _).
  split; [exact Hrun|]. split; [exact Hdb|]. split; [exact Hchain|].
  split; [exact (Hverify "2024-05-01 11:59:00" 0)|].
  destruct (Hwrites _ _ _ _ _ _ Hrun) as [Hsame | (b & row & _ & Htable & Hdata & _)].
  - vm_compute in Hsame. discriminate Hsame.
  - exists row. split; assumption.
Defined.

(** ** The scan of [verify_blockchain_integrity] *)

Lemma scan_blocks_report_from : forall blocks prev acc,
  scan_blocks blocks prev acc = acc ++ report_from prev blocks.
Proof.
  induction blocks as [|b rest IH]; intros prev acc; cbn [scan_blocks report_from].
  - now rewrite app_nil_r.
  - rewrite IH, <- app_assoc. reflexivity.
Qed.

Lemma integrity_report_unfold d :
  integrity_report d = report_from zero_hash (order_by_id (table d)).
Proof. unfold integrity_report. now rewrite scan_blocks_report_from. Qed.

(** What one pass of the loop records for a block. *)
Lemma check_block_spec prev block :
  block_id (check_block prev block) = id block
  /\ link_issues (check_block prev block)
     = (if negb (String.eqb (previous_hash block) prev)
        then [PreviousHashMismatch prev (previous_hash block)] else [])
  /\ match recompute_hash block with
     | Raise e =>
         block_state (check_block prev block) = TAMPERED
         /\ In (BlockDataParsingError e) (issues (check_block prev block))
         /\ forall x y, ~ In (HashMismatch x y) (issues (check_block prev block))
     | Ok h =>
         if String.eqb h (current_hash block)
         then forall i, In i (issues (check_block prev block)) -> is_link_issue i = true
         else block_state (check_block prev block) = TAMPERED
              /\ In (HashMismatch h (current_hash block)) (issues (check_block prev block))
     end.
Proof.
  unfold check_block, link_issues.
  destruct (recompute_hash block) as [h|e];
    [destruct (String.eqb h (current_hash block))|];
    destruct (String.eqb (previous_hash block) prev);
    cbn; repeat split; auto;
    match goal with
    | |- forall x y, ~ _ => intros x y Hin; cbn in Hin; intuition discriminate
    | |- forall i, _ -> is_link_issue i = true =>
        intros i Hin; cbn in Hin; intuition (subst; reflexivity)
    end.
Qed.

Lemma report_from_ids : forall blocks prev,
  map block_id (report_from prev blocks) = map id blocks.
Proof.
  induction blocks as [|b rest IH]; intros prev; cbn [report_from map]; [reflexivity|].
  rewrite IH. f_equal. apply check_block_spec.
Qed.

Lemma report_from_entry block : forall blocks prev,
  In block blocks -> exists prev', In (check_block prev' block) (report_from prev blocks).
Proof.
  induction blocks as [|b rest IH]; intros prev Hin; [contradiction|].
  destruct Hin as [-> | Hin]; cbn [report_from].
  - exists prev. now left.
  - destruct (IH (current_hash b) Hin) as [prev' H]. exists prev'. now right.
Qed.


Lemma recompute_hash_raise block e :
  json_loads (block_data block) = Raise e -> recompute_hash block = Raise e.
Proof. unfold recompute_hash. now intros ->. Qed.

(** Once the rows are read the scan leaves none out: the report has one
    entry for each stored row, in id order, a row whose block_data is not
    JSON is entered as TAMPERED with the parsing error and the scan goes on,
    and the verdict counts the tampered entries of the whole report. *)
Lemma scan_reports_every_block (d : Database) :
  (available d = false ->
     verify_blockchain_integrity d = (false, "Database connection failed"))
  /\ map block_id (integrity_report d) = map id (order_by_id (table d))
  /\ List.length (integrity_report d) = List.length (table d)
  /\ (forall block e,
        In block (table d) ->
        json_loads (block_data block) = Raise e ->
        e <> NotModelled ->
        exists s, In s (integrity_report d)
                  /\ block_id s = id block
                  /\ block_state s = TAMPERED
                  /\ In (BlockDataParsingError e) (issues s))
  /\ (available d = true ->
      verify_blockchain_integrity d
      = match List.length (filter is_tampered (integrity_report d)) with
        | O => (true, "Blockchain integrity verified successfully.")
        | S n => (false,
                  ("Blockchain integrity compromised. "
                     ++ string_of_Z (Z.of_nat (S n)) ++ " blocks tampered.")%string)
        end).
Proof.
  rewrite integrity_report_unfold.
  split; [|split; [|split; [|split]]].
  - intros Ha. unfold verify_blockchain_integrity. now rewrite Ha.
  - apply report_from_ids.
  - rewrite <- (length_map block_id), report_from_ids, length_map.
    symmetry. apply Permutation_length, order_by_id_perm.
  - intros block e Hin Hparse _.
    assert (Hsorted : In block (order_by_id (table d))).
    { eapply Permutation_in; [apply order_by_id_perm | exact Hin]. }
    destruct (report_from_entry _ _ zero_hash Hsorted) as [prev Hentry].
    exists (check_block prev block). split; [exact Hentry|].
    destruct (check_block_spec prev block) as (Hid & _ & Hcontent).
    rewrite (recompute_hash_raise _ _ Hparse) in Hcontent.
    destruct Hcontent as (Hstate & Hissue & _). auto.
  - intros Ha. unfold verify_blockchain_integrity. rewrite Ha. cbn [negb].
    rewrite integrity_report_unfold.
    destruct (filter is_tampered (report_from zero_hash (order_by_id (table d))));
      reflexivity.
Qed.

Example scan_of_a_broken_table :
  verify_blockchain_integrity offline_database = (false, "Database connection failed")
  /\ map block_id (integrity_report broken_database) = [1; 2]
  /\ verify_blockchain_integrity broken_database
     = (false, "Blockchain integrity compromised. 1 blocks tampered.").
Proof. evaluate_each. Qed.

(** The method on a [Database] is the method at the rows of its table. *)
Lemma verify_over_table d :
  verify_blockchain_integrity_over (available d) (Ok (order_by_id (table d)))
  = Ok (verify_blockchain_integrity d).
Proof.
  unfold verify_blockchain_integrity_over, verify_blockchain_integrity, integrity_report.
  destruct (negb (available d)); [reflexivity|]. cbn [bind].
  destruct (filter is_tampered (scan_blocks (order_by_id (table d)) zero_hash []));
    reflexivity.
Qed.

(** C8. The check does raise. With a connection at hand, whatever error
    the SELECT raises (on a file that is not a database, on a missing
    table, on a stored text that is not UTF-8) leaves the method as it is:
    no result is returned. That is the one way out of it: without a
    connection the result is a failure with its message, and once the rows
    are fetched a verdict is returned whatever they hold. *)
Theorem verify_aborts_when_select_raises :
  verify_blockchain_integrity_over true (Raise OperationalError) = Raise OperationalError
  /\ verify_blockchain_integrity_over true (Raise DatabaseError) = Raise DatabaseError
  /\ (forall e, verify_blockchain_integrity_over true (Raise e) = Raise e)
  /\ (forall fetched,
        verify_blockchain_integrity_over false fetched
        = Ok (false, "Database connection failed"))
  /\ (forall blocks,
        exists verdict message,
          verify_blockchain_integrity_over true (Ok blocks) = Ok (verdict, message))
  /\ (forall d,
        verify_blockchain_integrity_over (available d) (Ok (order_by_id (table d)))
        = Ok (verify_blockchain_integrity d)).
Proof.
  split; [reflexivity|]. split; [reflexivity|]. split; [reflexivity|].
  split; [reflexivity|]. split; [|exact verify_over_table].
  intros blocks. unfold verify_blockchain_integrity_over. cbn [negb bind].
  destruct (filter is_tampered (scan_blocks blocks zero_hash []));
    eexists; eexists; reflexivity.
Qed.

(** A tampered entry anywhere in the report makes the verdict false. *)
Lemma verify_false_of_tampered d s :
  available d = true ->
  In s (integrity_report d) ->
  block_state s = TAMPERED ->
  fst (verify_blockchain_integrity d) = false.
Proof.
  intros Ha Hin Hstate. unfold verify_blockchain_integrity. rewrite Ha. cbn [negb].
  destruct (filter is_tampered (integrity_report d)) as [|x l] eqn:Hfilter; [|reflexivity].
  exfalso. assert (Hs : In s (filter is_tampered (integrity_report d))).
  { apply filter_In. split; [exact Hin|]. unfold is_tampered. now rewrite Hstate. }
  rewrite Hfilter in Hs. contradiction.
Qed.

(** Why a fresh chain seldom verifies: the stored hash of an appended
    block starts with 00, and the check compares it with the hash of the
    row rebuilt at nonce 0 under the row's own timestamp. Unless that hash
    starts with 00 as well, the verdict is false. *)
Lemma fresh_block_needs_luck fuel clock order_data st b st' :
  available (db st) = true ->
  add_order_to_blockchain fuel clock order_data st = Some (Some b, st') ->
  exists row,
    table (db st') = table (db st) ++ [row]
    /\ dict_get "hash" b = Some (JStr (current_hash row))
    /\ String.prefix "00" (current_hash row) = true
    /\ timestamp row = sql_now clock
    /\ forall h,
         recompute_hash row = Ok h ->
         String.prefix "00" h = false ->
         fst (verify_blockchain_integrity (db st')) = false.
Proof.
  intros Ha Hrun.
  destruct (appended_block_hash _ _ _ _ _ _ Hrun) as (h0 & Hhash & Hprefix).
  destruct (add_order_returns _ _ _ _ _ _ Hrun) as (h & flag & _ & -> & Hstore & _).
  assert (h0 = h) as -> by (cbn in Hhash; congruence).
  unfold candidate in Hstore.
  destruct (store_block_available _ _ _ _ _ _ _ _ _ Ha Hstore) as (v & oid & _ & _ & _ & Hdb).
  eexists. rewrite Hdb. split; [reflexivity|]. split; [reflexivity|].
  split; [exact Hprefix|]. split; [reflexivity|].
  intros h' Hre Hno.
  set (row := mkRow (Z.max (sequence (db st)) (max_id (table (db st))) + 1) oid
                (tip_hash (db st)) h (json_dumps false None order_data) (sql_now clock)) in *.
  assert (Hin : In row (order_by_id (table (insert_row (sql_now clock) oid (tip_hash (db st)) h
                                          (json_dumps false None order_data) (db st))))).
  { eapply Permutation_in; [apply order_by_id_perm|].
    cbn [insert_row table]. apply in_or_app. right. now left. }
  destruct (report_from_entry _ _ zero_hash Hin) as [prev Hentry].
  rewrite <- integrity_report_unfold in Hentry.
  apply (verify_false_of_tampered _ (check_block prev row)); [exact Ha | exact Hentry |].
  destruct (check_block_spec prev row) as (_ & _ & Hcontent).
  rewrite Hre in Hcontent.
  destruct (String.eqb h' (current_hash row)) eqn:Heq; [|exact (proj1 Hcontent)].
  apply String.eqb_eq in Heq. cbn [row current_hash] in Heq. subst h'. congruence.
Qed.

(** ** Tampering with one stored block *)

Lemma Forall2_in_left {A B : Type} (R : A -> B -> Prop) : forall l l' x,
  Forall2 R l l' -> In x l -> exists y, In y l' /\ R x y.
Proof.
  intros l l' x Hall. induction Hall as [|a b l l' Hab Hall IH]; intros Hin; [contradiction|].
  destruct Hin as [<- | Hin].
  - exists b. split; [now left | exact Hab].
  - destruct (IH Hin) as (y & Hy & Hxy). exists y. split; [now right | exact Hxy].
Qed.

Lemma Forall2_in_right {A B : Type} (R : A -> B -> Prop) : forall l l' y,
  Forall2 R l l' -> In y l' -> exists x, In x l /\ R x y.
Proof.
  intros l l' y Hall. induction Hall as [|a b l l' Hab Hall IH]; intros Hin; [contradiction|].
  destruct Hin as [<- | Hin].
  - exists a. split; [now left | exact Hab].
  - destruct (IH Hin) as (x & Hx & Hxy). exists x. split; [now right | exact Hxy].
Qed.

Section Tamper.

Variables (k : Z) (text time : string).






End Tamper.






(** The hash covers the decoded payload, not its text: the same payload
    laid out over several lines is not flagged. *)
Example reformatted_payload_not_flagged :
  map block_data (table reformatted_database) <> map block_data (table (db after_750))
  /\ map block_state (integrity_report reformatted_database) = [VALID; VALID]
  /\ verify_blockchain_integrity reformatted_database
     = (true, "Blockchain integrity verified successfully.").
Proof.
  split; [vm_compute; discriminate|]. evaluate_each.
Qed.

(** ** Hashing does not depend on insertion order *)

Lemma json_induction (P : json -> Prop) :
  P JNull ->
  (forall b, P (JBool b)) ->
  (forall z, P (JInt z)) ->
  (forall s, P (JStr s)) ->
  (forall l, Forall P l -> P (JList l)) ->
  (forall d, Forall (fun kv => P (snd kv)) d -> P (JDict d)) ->
  forall v, P v.
Proof.
  intros Hnull Hbool Hint Hstr Hlist Hdict.
  fix F 1.
  intros [ | b | z | s | l | d ];
    [exact Hnull | apply Hbool | apply Hint | apply Hstr | | ].
  - apply Hlist. induction l as [|x l IH]; constructor; [apply F | exact IH].
  - apply Hdict. induction d as [|[key x] d IH]; constructor; [apply F | exact IH].
Qed.

(** *** The order on keys *)

Lemma leb_refl s : String.leb s s = true.
Proof. destruct (String.leb_total s s); assumption. Qed.

Lemma ascii_compare_trans c1 c2 c3 :
  Ascii.compare c1 c2 <> Gt -> Ascii.compare c2 c3 <> Gt ->
  Ascii.compare c1 c3 <> Gt
  /\ (Ascii.compare c1 c3 = Eq -> Ascii.compare c1 c2 = Eq /\ Ascii.compare c2 c3 = Eq).
Proof.
  unfold Ascii.compare. rewrite !N.compare_le_iff, !N.compare_eq_iff. lia.
Qed.

Lemma compare_trans : forall s1 s2 s3,
  String.compare s1 s2 <> Gt -> String.compare s2 s3 <> Gt -> String.compare s1 s3 <> Gt.
Proof.
  induction s1 as [|c1 s1 IH]; intros [|c2 s2] [|c3 s3]; cbn [String.compare];
    try congruence.
  intros H12 H23.
  destruct (Ascii.compare c1 c2) eqn:E12; try congruence;
  destruct (Ascii.compare c2 c3) eqn:E23; try congruence;
  destruct (ascii_compare_trans c1 c2 c3) as [Hle Heq];
    try (rewrite ?E12, ?E23; congruence);
  destruct (Ascii.compare c1 c3) eqn:E13; try congruence;
  try (destruct (Heq eq_refl); congruence).
  now apply (IH s2 s3).
Qed.

Lemma leb_trans s1 s2 s3 :
  String.leb s1 s2 = true -> String.leb s2 s3 = true -> String.leb s1 s3 = true.
Proof.
  unfold String.leb. intros H12 H23.
  pose proof (compare_trans s1 s2 s3) as Ht.
  destruct (String.compare s1 s2); try discriminate;
  destruct (String.compare s2 s3); try discriminate;
  destruct (String.compare s1 s3); try reflexivity;
  exfalso; apply Ht; congruence.
Qed.

(** *** Sorting items by key *)

Section Items.

Context {A : Type}.

Implicit Types (x : string * A) (l : list (string * A)).

Lemma insert_item_perm x : forall l, Permutation (x :: l) (insert_item x l).
Proof.
  induction l as [|y l IH]; cbn [insert_item]; [reflexivity|].
  destruct (String.leb (fst x) (fst y)); [reflexivity|].
  rewrite perm_swap. now apply perm_skip.
Qed.

Lemma sort_items_perm : forall l, Permutation l (sort_items l).
Proof.
  induction l as [|x l IH]; cbn [sort_items]; [reflexivity|].
  rewrite <- insert_item_perm. now apply perm_skip.
Qed.

Lemma insert_item_sorted x : forall l,
  StronglySorted key_le l -> StronglySorted key_le (insert_item x l).
Proof.
  induction l as [|y l IH]; intros Hs; cbn [insert_item].
  - repeat constructor.
  - inversion Hs as [|? ? Hrest Hall]; subst.
    destruct (String.leb (fst x) (fst y)) eqn:Hle.
    + constructor; [assumption|]. constructor; [exact Hle|].
      eapply Forall_impl; [|exact Hall].
      intros z Hz. unfold key_le in *. eapply leb_trans; eassumption.
    + constructor; [now apply IH|].
      eapply Permutation_Forall; [apply insert_item_perm|].
      constructor; [|assumption].
      unfold key_le. destruct (String.leb_total (fst x) (fst y)); congruence.
Qed.

Lemma sort_items_sorted : forall l, StronglySorted key_le (sort_items l).
Proof.
  induction l as [|x l IH]; cbn [sort_items]; [constructor|].
  now apply insert_item_sorted.
Qed.

Lemma same_key_same_item : forall l x y,
  NoDup (map fst l) -> In x l -> In y l -> fst x = fst y -> x = y.
Proof.
  induction l as [|z l IH]; intros x y Hnd Hx Hy Hkey; [contradiction|].
  cbn [map] in Hnd. inversion Hnd as [|? ? Hnotin Hnd']; subst.
  destruct Hx as [-> | Hx], Hy as [-> | Hy]; [reflexivity| | |now apply IH].
  - exfalso. apply Hnotin. rewrite Hkey. now apply in_map.
  - exfalso. apply Hnotin. rewrite <- Hkey. now apply in_map.
Qed.

(** Two sorted lists with the same items and no repeated key are the same
    list. *)
Lemma sorted_perm_unique : forall l1 l2,
  StronglySorted key_le l1 -> StronglySorted key_le l2 ->
  Permutation l1 l2 -> NoDup (map fst l1) -> l1 = l2.
Proof.
  induction l1 as [|a t1 IH]; intros l2 Hs1 Hs2 Hperm Hnd.
  - now apply Permutation_nil in Hperm.
  - destruct l2 as [|b t2]; [now apply Permutation_sym, Permutation_nil in Hperm|].
    inversion Hs1 as [|? ? Hs1' Hall1]; subst.
    inversion Hs2 as [|? ? Hs2' Hall2]; subst.
    assert (Hb : In b (a :: t1)).
    { eapply Permutation_in; [symmetry; exact Hperm | now left]. }
    assert (Ha : In a (b :: t2)).
    { eapply Permutation_in; [exact Hperm | now left]. }
    assert (Hab : key_le a b).
    { destruct Hb as [<- | Hb]; [apply leb_refl|].
      rewrite Forall_forall in Hall1. now apply Hall1. }
    assert (Hba : key_le b a).
    { destruct Ha as [<- | Ha]; [apply leb_refl|].
      rewrite Forall_forall in Hall2. now apply Hall2. }
    assert (Heq : a = b).
    { apply (same_key_same_item (a :: t1)); [assumption | now left | assumption |].
      now apply String.leb_antisym. }
    subst b. f_equal. apply IH; try assumption.
    + now apply Permutation_cons_inv in Hperm.
    + cbn [map] in Hnd. now inversion Hnd.
Qed.

Lemma assoc_in : forall l key v, assoc key l = Some v -> In (key, v) l.
Proof.
  induction l as [|[k w] l IH]; intros key v; cbn [assoc]; [discriminate|].
  destruct (String.eqb k key) eqn:Hk.
  - apply String.eqb_eq in Hk. intros [= ->]. subst. now left.
  - intros H. right. now apply IH.
Qed.

Lemma in_assoc : forall l key v,
  NoDup (map fst l) -> In (key, v) l -> assoc key l = Some v.
Proof.
  induction l as [|[k w] l IH]; intros key v Hnd Hin; [contradiction|].
  cbn [map fst] in Hnd. inversion Hnd as [|? ? Hnotin Hnd']; subst.
  cbn [assoc]. destruct Hin as [[= -> ->] | Hin].
  - now rewrite String.eqb_refl.
  - destruct (String.eqb k key) eqn:Hk; [|now apply IH].
    apply String.eqb_eq in Hk. subst. exfalso. apply Hnotin.
    change key with (fst (key, v)). now apply in_map.
Qed.

(** Items with distinct keys and the same lookups sort to the same list. *)
Lemma sort_items_ext l1 l2 :
  NoDup (map fst l1) -> NoDup (map fst l2) ->
  (forall key, assoc key l1 = assoc key l2) ->
  sort_items l1 = sort_items l2.
Proof.
  intros Hnd1 Hnd2 Hext.
  assert (Hperm : Permutation l1 l2).
  { apply NoDup_Permutation.
    - eapply NoDup_map_inv; exact Hnd1.
    - eapply NoDup_map_inv; exact Hnd2.
    - intros [key v]. split; intros Hin.
      + apply assoc_in. rewrite <- Hext. now apply in_assoc.
      + apply assoc_in. rewrite Hext. now apply in_assoc. }
  apply sorted_perm_unique; try apply sort_items_sorted.
  - rewrite <- (sort_items_perm l1), <- (sort_items_perm l2). exact Hperm.
  - eapply Permutation_NoDup; [|exact Hnd1].
    apply Permutation_map, sort_items_perm.
Qed.

End Items.

(** *** The encoder on equal content *)

Lemma encode_list_unfold sort_keys indent level l :
  encode sort_keys indent level (JList l)
  = match l with
    | [] => "[]"
    | _ =>
        ("[" ++ newline_indent indent (S level)
             ++ String.concat (item_separator indent (S level))
                  (map (encode sort_keys indent (S level)) l)
             ++ newline_indent indent level ++ "]")%string
    end.
Proof. destruct l; reflexivity. Qed.

Lemma encode_dict_unfold sort_keys indent level d :
  encode sort_keys indent level (JDict d)
  = match d with
    | [] => "{}"
    | _ =>
        let rendered :=
          map (fun kv => (fst kv, encode sort_keys indent (S level) (snd kv))) d in
        let items := if sort_keys then sort_items rendered else rendered in
        ("{" ++ newline_indent indent (S level)
             ++ String.concat (item_separator indent (S level))
                  (map (fun kv => encode_str (fst kv) ++ ": " ++ snd kv) items)
             ++ newline_indent indent level ++ "}")%string
    end.
Proof. destruct d; reflexivity. Qed.

Lemma dict_get_in : forall d key v, dict_get key d = Some v -> In (key, v) d.
Proof.
  induction d as [|[k w] d IH]; intros key v; cbn [dict_get]; [discriminate|].
  destruct (String.eqb k key) eqn:Hk.
  - apply String.eqb_eq in Hk. intros [= ->]. subst. now left.
  - intros H. right. now apply IH.
Qed.

Lemma assoc_rendered (f : json -> string) : forall d key,
  assoc key (map (fun kv => (fst kv, f (snd kv))) d) = option_map f (dict_get key d).
Proof.
  induction d as [|[k w] d IH]; intros key; cbn; [reflexivity|].
  destruct (String.eqb k key); [reflexivity | apply IH].
Qed.

Lemma rendered_keys (f : json -> string) (d : pydict) :
  map fst (map (fun kv => (fst kv, f (snd kv))) d) = map fst d.
Proof. rewrite map_map. reflexivity. Qed.

Lemma same_dict_empty d1 d2 :
  same_content (JDict d1) (JDict d2) -> (d1 = [] <-> d2 = []).
Proof.
  intros Hsame. inversion Hsame as [| | | | |? ? Hsome Hnone]; subst.
  split; intros ->.
  - destruct d2 as [|[k v] d2]; [reflexivity|].
    specialize (Hnone k eq_refl). cbn [dict_get] in Hnone.
    now rewrite String.eqb_refl in Hnone.
  - destruct d1 as [|[k v] d1]; [reflexivity|].
    destruct (Hsome k v) as (v2 & Hv2 & _); [|discriminate].
    cbn [dict_get]. now rewrite String.eqb_refl.
Qed.

Lemma encode_same_content indent : forall a b level,
  well_formed a -> well_formed b -> same_content a b ->
  encode true indent level a = encode true indent level b.
Proof.
  induction a as [ | b1 | z1 | s1 | l1 IH | d1 IH ] using json_induction;
    intros b level Hwa Hwb Hsame;
    inversion Hsame as [| | | | ? l2 Hall | ? d2 Hsome Hnone]; subst; try reflexivity.
  - (* lists *)
    rewrite !encode_list_unfold.
    assert (Hmap : map (encode true indent (S level)) l1
                   = map (encode true indent (S level)) l2).
    { inversion Hwa as [| | | | ? Hw1 |]; inversion Hwb as [| | | | ? Hw2 |]; subst.
      clear Hsame Hwa Hwb. revert IH Hw1 Hw2.
      induction Hall as [|x y l1 l2 Hxy Hall IHall]; intros IH Hw1 Hw2; [reflexivity|].
      inversion IH; inversion Hw1; inversion Hw2; subst. cbn [map]. f_equal; auto. }
    rewrite Hmap. destruct Hall; reflexivity.
  - (* dicts *)
    rewrite !encode_dict_unfold.
    pose proof (same_dict_empty _ _ Hsame) as Hempty.
    assert (Hitems :
      sort_items (map (fun kv => (fst kv, encode true indent (S level) (snd kv))) d1)
      = sort_items (map (fun kv => (fst kv, encode true indent (S level) (snd kv))) d2)).
    { inversion Hwa as [| | | | | ? Hnd1 Hw1]; inversion Hwb as [| | | | | ? Hnd2 Hw2]; subst.
      apply sort_items_ext; rewrite ?rendered_keys; try assumption.
      intros key. rewrite !assoc_rendered.
      destruct (dict_get key d1) as [v1|] eqn:Hget1.
      - destruct (Hsome key v1 Hget1) as (v2 & Hget2 & Hv).
        rewrite Hget2. cbn [option_map]. f_equal.
        rewrite Forall_forall in IH, Hw1, Hw2.
        apply (IH (key, v1) (dict_get_in _ _ _ Hget1)).
        + apply (Hw1 (key, v1)). now apply dict_get_in.
        + apply (Hw2 (key, v2)). now apply dict_get_in.
        + exact Hv.
      - now rewrite (Hnone key Hget1). }
    cbn zeta. rewrite Hitems.
    destruct d1, d2; try reflexivity.
    + destruct Hempty as [H _]. now specialize (H eq_refl).
    + destruct Hempty as [_ H]. now specialize (H eq_refl).
Qed.

Lemma dict_get_assoc : forall d key, dict_get key d = assoc key d.
Proof.
  induction d as [|[k w] d IH]; intros key; cbn [dict_get assoc]; [reflexivity|].
  now rewrite IH.
Qed.

Lemma same_content_refl : forall v, same_content v v.
Proof.
  induction v as [ | b | z | s | l IH | d IH ] using json_induction;
    try constructor.
  - induction IH; constructor; assumption.
  - intros key v1 Hget. exists v1. split; [exact Hget|].
    rewrite Forall_forall in IH. apply (IH (key, v1)). now apply dict_get_in.
  - auto.
Qed.

(** The same items inserted in another order, each value with equal
    content, make a dict of equal content. *)
Lemma same_content_permuted (d1 d2 reordered : pydict) :
  NoDup (map fst d1) ->
  Permutation d1 reordered ->
  Forall2 (fun x y => fst x = fst y /\ same_content (snd x) (snd y)) reordered d2 ->
  same_content (JDict d1) (JDict d2).
Proof.
  intros Hnd Hperm Hall.
  assert (Hkeys : map fst reordered = map fst d2).
  { clear Hperm. induction Hall as [|x y l l' [Hk _] _ IH]; cbn [map]; congruence. }
  assert (Hnd2 : NoDup (map fst d2)).
  { rewrite <- Hkeys. eapply Permutation_NoDup; [|exact Hnd]. now apply Permutation_map. }
  constructor.
  - intros key v1 Hget. apply dict_get_in in Hget.
    apply (Permutation_in _ Hperm) in Hget.
    destruct (Forall2_in_left _ _ _ _ Hall Hget) as ([k2 v2] & Hin2 & Hk & Hv).
    cbn [fst snd] in Hk, Hv. subst k2. exists v2. split; [|exact Hv].
    rewrite dict_get_assoc. now apply in_assoc.
  - intros key Hnone. destruct (dict_get key d2) as [v2|] eqn:Hget2; [|reflexivity].
    apply dict_get_in in Hget2.
    destruct (Forall2_in_right _ _ _ _ Hall Hget2) as ([k1 v1] & Hin1 & Hk & _).
    cbn [fst] in Hk. subst k1.
    apply (Permutation_in _ (Permutation_sym Hperm)) in Hin1.
    rewrite dict_get_assoc, (in_assoc _ _ _ Hnd Hin1) in Hnone. discriminate.
Qed.

(** C3. [calculate_hash] is a function of the content of the block: two
    dicts of equal content, their keys inserted in whatever order at
    whatever depth, hash to the same hex digest. *)
Theorem calculate_hash_deterministic (a b : json) :
  well_formed a -> well_formed b -> same_content a b ->
  calculate_hash a = calculate_hash b.
Proof.
  intros Hwa Hwb Hsame. unfold calculate_hash, json_dumps.
  now rewrite (encode_same_content (Some 2%nat) a b 0%nat Hwa Hwb Hsame).
Qed.

Lemma calculate_hash_deterministic_witness :
  JDict (make_block 1 (py_now lunchtime) order_2 zero_hash) <> block_2_reversed
  /\ calculate_hash (JDict (make_block 1 (py_now lunchtime) order_2 zero_hash))
     = calculate_hash block_2_reversed.
Proof.
  split; [discriminate|].
  apply calculate_hash_deterministic.
  - unfold make_block, order_2. well_formed_value.
  - unfold block_2_reversed. well_formed_value.
  - apply (same_content_permuted _ _ (rev (make_block 1 (py_now lunchtime) order_2 zero_hash))).
    + distinct_keys.
    + apply Permutation_rev.
    + cbn [rev make_block app].
      repeat (apply Forall2_cons; [split; [reflexivity|]; cbn [snd]; try apply same_content_refl|]);
        try apply Forall2_nil.
      apply (same_content_permuted _ _ [("total_amount", JInt 25); ("order_id", JInt 2)]).
      * distinct_keys.
      * apply perm_swap.
      * repeat (apply Forall2_cons; [split; [reflexivity|]; apply same_content_refl|]).
        apply Forall2_nil.
Defined.

Example reversed_block_same_digest :
  calculate_hash block_2_reversed
  = "f0ef771dd990734544c0e8bba8b52e9013734e1a214ed776aff1ea19c60789c8".
Proof. evaluate. Qed.

(** * Further properties *)

(** ** Strings *)

Lemma length_append (s1 s2 : string) :
  String.length (s1 ++ s2)%string = (String.length s1 + String.length s2)%nat.
Proof. induction s1 as [|c s1 IH]; cbn; [reflexivity | now rewrite IH]. Qed.

Lemma length_substring_le : forall n s, (String.length (String.substring 0 n s) <= n)%nat.
Proof.
  induction n as [|n IH]; intros [|c s]; cbn; try lia.
  specialize (IH s). lia.
Qed.

Lemma length_substring_le_length : forall n s,
  (String.length (String.substring 0 n s) <= String.length s)%nat.
Proof.
  induction n as [|n IH]; intros [|c s]; cbn; try lia.
  specialize (IH s). lia.
Qed.

Lemma length_substring_exact : forall n s,
  (n <= String.length s)%nat -> String.length (String.substring 0 n s) = n.
Proof.
  induction n as [|n IH]; intros [|c s] Hle; cbn in *; try lia.
  rewrite IH; lia.
Qed.

Lemma length_repeat_zero n : String.length (repeat_string "0" n) = n.
Proof. induction n as [|n IH]; cbn; [reflexivity | now rewrite IH]. Qed.

Lemma length_hex_of : forall n x, String.length (SHA256.hex_of n x) = n.
Proof. induction n as [|n IH]; intros x; cbn; [reflexivity | now rewrite IH]. Qed.

(** A digest is 64 characters long. *)
Lemma length_hexdigest s : String.length (SHA256.hexdigest s) = 64%nat.
Proof.
  unfold SHA256.hexdigest, SHA256.digest_words.
  cbn [map String.concat]. rewrite !length_append, !length_hex_of. reflexivity.
Qed.

Lemma length_calculate_hash block : String.length (calculate_hash block) = 64%nat.
Proof. apply length_hexdigest. Qed.

(** ** Mining any block *)

Lemma dict_mem_get key : forall d, dict_mem key d = true <-> dict_get key d <> None.
Proof.
  induction d as [|[k v] d IH]; cbn [dict_mem dict_get].
  - split; [discriminate | intros H; now contradiction H].
  - destruct (String.eqb k key); cbn [orb]; [split; [discriminate | reflexivity] | exact IH].
Qed.

Lemma dict_replace_get key v : forall d,
  dict_get key d <> None -> dict_get key (dict_replace key v d) = Some v.
Proof.
  induction d as [|[k w] d IH]; cbn [dict_get dict_replace]; [intros H; now contradiction H|].
  destruct (String.eqb k key) eqn:Hk; cbn [dict_get]; rewrite Hk; [reflexivity | exact IH].
Qed.

Lemma dict_replace_mem key v : forall d,
  dict_mem key (dict_replace key v d) = dict_mem key d.
Proof.
  induction d as [|[k w] d IH]; cbn [dict_mem dict_replace]; [reflexivity|].
  destruct (String.eqb k key) eqn:Hk; cbn [dict_mem]; rewrite Hk; cbn [orb];
    [reflexivity | exact IH].
Qed.

Lemma dict_replace_twice key v1 v2 : forall d,
  dict_replace key v2 (dict_replace key v1 d) = dict_replace key v2 d.
Proof.
  induction d as [|[k w] d IH]; cbn [dict_replace]; [reflexivity|].
  destruct (String.eqb k key) eqn:Hk; cbn [dict_replace]; rewrite Hk; [reflexivity|].
  now rewrite IH.
Qed.

Lemma dict_replace_same key v : forall d,
  dict_get key d = Some v -> dict_replace key v d = d.
Proof.
  induction d as [|[k w] d IH]; cbn [dict_get dict_replace]; [reflexivity|].
  destruct (String.eqb k key) eqn:Hk; [intros [= ->]; reflexivity|].
  intros H. now rewrite IH.
Qed.

(** Setting the nonce of a block that has one. *)
Lemma with_nonce_item block k :
  dict_get "nonce" block <> None -> dict_item "nonce" (with_nonce block k) = Ok (JInt k).
Proof.
  intros Hin. unfold with_nonce, dict_set, dict_item.
  rewrite (proj2 (dict_mem_get _ _) Hin). now rewrite dict_replace_get.
Qed.

Lemma with_nonce_again block k n :
  dict_get "nonce" block <> None ->
  dict_set "nonce" (JInt n) (with_nonce block k) = with_nonce block n.
Proof.
  intros Hin. unfold with_nonce, dict_set.
  rewrite (proj2 (dict_mem_get _ _) Hin), dict_replace_mem, (proj2 (dict_mem_get _ _) Hin).
  apply dict_replace_twice.
Qed.

Lemma with_nonce_same block k :
  dict_get "nonce" block = Some (JInt k) -> with_nonce block k = block.
Proof.
  intros Hget. unfold with_nonce, dict_set.
  rewrite (proj2 (dict_mem_get "nonce" block)) by congruence.
  now apply dict_replace_same.
Qed.

Lemma mine_loop_first_winner block d : forall fuel k h,
  dict_get "nonce" block <> None ->
  mine_loop fuel d (py_repeat "0" d) (with_nonce block k) = Some (Ok h) ->
  exists m : nat,
    (m < fuel)%nat
    /\ h = calculate_hash (JDict (with_nonce block (k + Z.of_nat m)))
    /\ wins block d (k + Z.of_nat m) = true
    /\ forall j : nat, (j < m)%nat -> wins block d (k + Z.of_nat j) = false.
Proof.
  induction fuel as [|fuel IH]; intros k h Hin Hrun; [discriminate|].
  rewrite mine_loop_unfold in Hrun.
  destruct (String.eqb (py_slice_to (calculate_hash (JDict (with_nonce block k))) d)
                       (py_repeat "0" d)) eqn:Htest.
  - injection Hrun as <-. exists 0%nat. rewrite Z.add_0_r.
    split; [lia|]. split; [reflexivity|]. split; [exact Htest|]. intros j Hj. lia.
  - rewrite (with_nonce_item _ _ Hin) in Hrun. cbn [bind add_one] in Hrun.
    rewrite (with_nonce_again _ _ _ Hin) in Hrun.
    destruct (IH _ _ Hin Hrun) as (m & Hm & Hh & Hwin & Hfirst).
    exists (S m). replace (k + Z.of_nat (S m)) with (k + 1 + Z.of_nat m) by lia.
    split; [lia|]. split; [exact Hh|]. split; [exact Hwin|].
    intros [|j] Hj.
    + rewrite Z.add_0_r. exact Htest.
    + replace (k + Z.of_nat (S j)) with (k + 1 + Z.of_nat j) by lia. apply Hfirst. lia.
Qed.

(** X1. Whatever the block, as long as its nonce is an int [k]: the hash
    [mine_block] returns is the hash of the block with its nonce at the
    first value from [k] on that wins; no smaller nonce does. *)
Theorem mine_block_first_winner (fuel : nat) (block : pydict) (d k : Z) (h : string) :
  dict_get "nonce" block = Some (JInt k) ->
  mine_block fuel block d = Some (Ok h) ->
  exists m : nat,
    (m < fuel)%nat
    /\ h = calculate_hash (JDict (with_nonce block (k + Z.of_nat m)))
    /\ wins block d (k + Z.of_nat m) = true
    /\ forall j : nat, (j < m)%nat -> wins block d (k + Z.of_nat j) = false.
Proof.
  intros Hget Hrun. unfold mine_block in Hrun.
  rewrite <- (with_nonce_same _ _ Hget) in Hrun at 1.
  apply (mine_loop_first_winner block d fuel k h); [congruence | exact Hrun].
Qed.

Lemma mine_block_first_winner_witness :
  dict_get "nonce" (make_block 1 (py_now lunchtime) order_2 zero_hash) = Some (JInt 0)
  /\ exists m : nat,
       (m < 4)%nat
       /\ "007eb3ee0acfdd08a2cc20bbd7fd28830427b770b1387ce17b0ed37fe46d6e3e"
          = calculate_hash
              (JDict (with_nonce (make_block 1 (py_now lunchtime) order_2 zero_hash)
                                 (0 + Z.of_nat m)))
       /\ forall j : nat, (j < m)%nat ->
            wins (make_block 1 (py_now lunchtime) order_2 zero_hash) default_difficulty
                 (0 + Z.of_nat j) = false.
Proof.
  split; [reflexivity|].
  destruct (mine_block_first_winner 4 (make_block 1 (py_now lunchtime) order_2 zero_hash)
              default_difficulty 0
              "007eb3ee0acfdd08a2cc20bbd7fd28830427b770b1387ce17b0ed37fe46d6e3e")
    as (m & Hm & Hh & _ & Hfirst).
  - reflexivity.
  - vm_compute. reflexivity.
  - exists m. auto.
Defined.

(** X2. A block without a nonce key is hashed once: [mine_block] returns
    that hash if it wins and raises KeyError otherwise; a nonce that is
    neither an int nor a bool raises TypeError in the same place. *)
Theorem mine_block_bad_nonce (fuel : nat) (block : pydict) (d : Z) :
  (dict_get "nonce" block = None ->
     mine_block (S fuel) block d
     = if String.eqb (py_slice_to (calculate_hash (JDict block)) d) (py_repeat "0" d)
       then Some (Ok (calculate_hash (JDict block)))
       else Some (Raise (KeyError "nonce")))
  /\ (forall v, dict_get "nonce" block = Some v ->
        add_one v = Raise TypeError ->
        mine_block (S fuel) block d
        = if String.eqb (py_slice_to (calculate_hash (JDict block)) d) (py_repeat "0" d)
          then Some (Ok (calculate_hash (JDict block)))
          else Some (Raise TypeError)).
Proof.
  split.
  - intros Hnone. unfold mine_block. rewrite mine_loop_unfold.
    unfold dict_item. rewrite Hnone. reflexivity.
  - intros v Hget Hbad. unfold mine_block. rewrite mine_loop_unfold.
    unfold dict_item. rewrite Hget. cbn [bind]. rewrite Hbad. reflexivity.
Qed.

Lemma mine_block_bad_nonce_witness :
  mine_block 1 [("index", JInt 1)] default_difficulty = Some (Raise (KeyError "nonce"))
  /\ mine_block 1 [("index", JInt 1); ("nonce", JStr "0")] default_difficulty
     = Some (Raise TypeError).
Proof.
  destruct (mine_block_bad_nonce 0 [("index", JInt 1)] default_difficulty) as [Hmissing _].
  destruct (mine_block_bad_nonce 0 [("index", JInt 1); ("nonce", JStr "0")] default_difficulty)
    as [_ Hbad].
  split.
  - rewrite (Hmissing eq_refl). vm_compute. reflexivity.
  - rewrite (Hbad (JStr "0") eq_refl eq_refl). vm_compute. reflexivity.
Defined.

Lemma wins_out_of_range block d k :
  64 < d \/ -64 < d < 0 -> wins block d k = false.
Proof.
  intros Hd. unfold wins. apply String.eqb_neq. intros Heq.
  apply (f_equal String.length) in Heq.
  unfold py_slice_to, py_repeat in Heq. rewrite length_repeat_zero in Heq.
  pose proof (length_calculate_hash (JDict (with_nonce block k))) as Hlen.
  destruct (0 <=? d) eqn:Hsign.
  - apply Z.leb_le in Hsign.
    pose proof (length_substring_le_length (Z.to_nat d)
                  (calculate_hash (JDict (with_nonce block k)))) as Hle.
    lia.
  - apply Z.leb_gt in Hsign. rewrite Hlen in Heq.
    rewrite length_substring_exact in Heq by lia. lia.
Qed.

Lemma wins_trivially block d k : d = 0 \/ d <= -64 -> wins block d k = true.
Proof.
  intros Hd. unfold wins. apply String.eqb_eq.
  unfold py_slice_to, py_repeat.
  rewrite (length_calculate_hash (JDict (with_nonce block k))).
  destruct (0 <=? d) eqn:Hsign.
  - apply Z.leb_le in Hsign. assert (d = 0) as -> by lia.
    destruct (calculate_hash (JDict (with_nonce block k))); reflexivity.
  - apply Z.leb_gt in Hsign.
    replace (Z.to_nat (Z.of_nat 64 + d)) with 0%nat by lia.
    replace (Z.to_nat d) with 0%nat by lia.
    destruct (calculate_hash (JDict (with_nonce block k))); reflexivity.
Qed.

Lemma mine_loop_spins block d : forall fuel k,
  dict_get "nonce" block <> None ->
  (forall n, wins block d n = false) ->
  mine_loop fuel d (py_repeat "0" d) (with_nonce block k) = None.
Proof.
  induction fuel as [|fuel IH]; intros k Hin Hnever; [reflexivity|].
  rewrite mine_loop_unfold. pose proof (Hnever k) as Hk. unfold wins in Hk. rewrite Hk.
  rewrite (with_nonce_item _ _ Hin). cbn [bind add_one].
  rewrite (with_nonce_again _ _ _ Hin). now apply IH.
Qed.

(** X3. The difficulty is any Python int. Above 64, the length of a
    digest, and from -63 to -1 no hash can match: on a block with an int
    nonce the loop of [mine_block] never ends. At 0 and from -64 down every
    hash matches: the first hash is returned, no work done. *)
Theorem mine_block_difficulty_range (block : pydict) (d k : Z) :
  dict_get "nonce" block = Some (JInt k) ->
  (64 < d \/ -64 < d < 0 -> forall fuel, mine_block fuel block d = None)
  /\ (d = 0 \/ d <= -64 ->
      forall fuel, mine_block (S fuel) block d = Some (Ok (calculate_hash (JDict block)))).
Proof.
  intros Hget. split.
  - intros Hd fuel. unfold mine_block. rewrite <- (with_nonce_same _ _ Hget).
    apply mine_loop_spins; [congruence|].
    intros n. now apply wins_out_of_range.
  - intros Hd fuel. unfold mine_block. rewrite mine_loop_unfold.
    pose proof (wins_trivially block d k Hd) as Hwin. unfold wins in Hwin.
    rewrite (with_nonce_same _ _ Hget) in Hwin. now rewrite Hwin.
Qed.

Lemma mine_block_difficulty_range_witness :
  mine_block 1000 (make_block 1 (py_now lunchtime) order_2 zero_hash) 65 = None
  /\ mine_block 1 (make_block 1 (py_now lunchtime) order_2 zero_hash) 0
     = Some (Ok "f0ef771dd990734544c0e8bba8b52e9013734e1a214ed776aff1ea19c60789c8").
Proof.
  destruct (mine_block_difficulty_range (make_block 1 (py_now lunchtime) order_2 zero_hash)
              65 0 eq_refl) as [Hspin _].
  destruct (mine_block_difficulty_range (make_block 1 (py_now lunchtime) order_2 zero_hash)
              0 0 eq_refl) as [_ Hfree].
  split.
  - apply Hspin. left. lia.
  - rewrite (Hfree (or_introl eq_refl) 0%nat). vm_compute. reflexivity.
Defined.

(** ** Which payloads can be appended *)

Lemma store_block_result clock index time data prev h d :
  available d = true ->
  (storable data = true ->
     exists oid,
       store_block_in_db clock (make_block index time data prev ++ [("hash", JStr h)]) d
       = Ok (true, insert_row (sql_now clock) oid prev h (json_dumps false None data) d))
  /\ (storable data = false ->
      exists e,
        store_block_in_db clock (make_block index time data prev ++ [("hash", JStr h)]) d
        = Raise e).
Proof.
  intros Ha. unfold store_block_in_db, data_order_id. rewrite Ha.
  change (dict_item "data" (make_block index time data prev ++ [("hash", JStr h)]))
    with (@Ok json data).
  change (dict_item "previous_hash" (make_block index time data prev ++ [("hash", JStr h)]))
    with (@Ok json (JStr prev)).
  change (dict_item "hash" (make_block index time data prev ++ [("hash", JStr h)]))
    with (@Ok json (JStr h)).
  cbn [bind]. unfold storable.
  destruct data as [ | b | z | s | l | payload ];
    try (split; [discriminate | intros _; eexists; reflexivity]).
  destruct (dict_get "order_id" payload) as [v|]; cbn [bind].
  - destruct (sql_bind v) as [oid|e]; cbn [bind text_param];
      (split; [intros H | intros H]); try discriminate; eexists; reflexivity.
  - split; [intros _; eexists; reflexivity | discriminate].
Qed.

(** X4. Over a database that can be reached, a call that returns has
    appended the order exactly when the payload is a dict whose order_id,
    if it has one, is None, a bool, a str or an int of 64 bits: then one row
    is added and the block returned. For any other payload (a list, a str,
    a dict whose order_id is a list or a dict or too large an int) the call
    mines all the same, returns None and leaves table and chain as they
    were. *)
Theorem append_needs_storable_payload (fuel : nat) (clock : Clock) (order_data : json)
  (st : State) (result : option pydict) (st' : State) :
  available (db st) = true ->
  add_order_to_blockchain fuel clock order_data st = Some (result, st') ->
  (storable order_data = true ->
     exists b row,
       result = Some b
       /\ table (db st') = table (db st) ++ [row]
       /\ chain st' = chain st ++ [b])
  /\ (storable order_data = false -> result = None /\ st' = st).
Proof.
  intros Ha. unfold add_order_to_blockchain. rewrite add_order_body_unfold.
  destruct (mine_block fuel (candidate clock order_data (db st)) default_difficulty)
    as [[h|e]|] eqn:Hmine; try discriminate.
  - cbn [bind]. unfold candidate at 1 2 3.
    destruct (store_block_result clock (next_index (db st)) (py_now clock) order_data
                (tip_hash (db st)) h (db st) Ha) as [Hyes Hno].
    destruct (storable order_data).
    + destruct (Hyes eq_refl) as [oid ->]. cbn [bind]. intros [= <- <-].
      split; [intros _ | discriminate].
      eexists. eexists. split; [reflexivity|]. split; reflexivity.
    + destruct (Hno eq_refl) as [e ->]. cbn [bind]. intros [= <- <-].
      split; [discriminate | auto].
  - exfalso. unfold mine_block, candidate in Hmine. rewrite make_block_at in Hmine.
    exact (mine_loop_no_raise _ _ _ _ _ _ _ _ _ Hmine).
Qed.

Lemma append_needs_storable_payload_witness :
  storable listed_order = false
  /\ storable (JDict anonymous_order) = true
  /\ add_order_to_blockchain 3 lunchtime listed_order started = Some (None, started)
  /\ exists b row,
       Some block_anonymous = Some b
       /\ table (db after_anonymous) = table (db started) ++ [row].
Proof.
  assert (Hlist : add_order_to_blockchain 3 lunchtime listed_order started
                  = Some (None, started)) by (vm_compute; reflexivity).
  assert (Hdict : add_order_to_blockchain 3 lunchtime (JDict anonymous_order) started
                  = Some (Some block_anonymous, after_anonymous)) by (vm_compute; reflexivity).
  split; [reflexivity|]. split; [reflexivity|]. split; [exact Hlist|].
  destruct (append_needs_storable_payload 3 lunchtime (JDict anonymous_order) started
              (Some block_anonymous) after_anonymous eq_refl Hdict) as [Hyes _].
  destruct (Hyes eq_refl) as (b & row & Hb & Htable & _).
  exists b, row. split; assumption.
Defined.

(** ** Several controllers over one table *)

(** X5. A controller reads nothing from its in-memory chain: what a call
    returns and what it leaves in the database are the same whatever the
    chain holds, and a block appended through one controller is linked to
    by the next block appended through any other. *)
Theorem controllers_share_the_table (fuel : nat) (clock : Clock) (order_a : json)
  (chain_a chain_b : list pydict) (d : Database)
  (result : option pydict) (st' : State) :
  add_order_to_blockchain fuel clock order_a (mkState chain_a d) = Some (result, st') ->
  (exists st'',
     add_order_to_blockchain fuel clock order_a (mkState chain_b d) = Some (result, st'')
     /\ db st'' = db st')
  /\ (available d = true ->
      forall a fuel_b clock_b order_b b st_b,
        result = Some a ->
        add_order_to_blockchain fuel_b clock_b order_b (mkState chain_b (db st'))
          = Some (Some b, st_b) ->
        exists h,
          dict_get "hash" a = Some (JStr h)
          /\ dict_get "previous_hash" b = Some (JStr h)).
Proof.
  intros Hrun. split.
  - revert Hrun. unfold add_order_to_blockchain. rewrite !add_order_body_unfold. cbn [db chain].
    destruct (mine_block fuel (candidate clock order_a d) default_difficulty)
      as [[h|e]|]; cbn [bind]; try discriminate.
    + destruct (store_block_in_db clock (candidate clock order_a d ++ [("hash", JStr h)]) d)
        as [[flag d']|e]; cbn [bind]; intros [= <- <-]; eexists; split; reflexivity.
    + intros [= <- <-]. eexists. split; reflexivity.
  - intros Ha a fuel_b clock_b order_b b st_b -> Hrun_b.
    destruct (add_order_returns _ _ _ _ _ _ Hrun) as (h & flag & _ & -> & Hstore & _).
    destruct (add_order_returns _ _ _ _ _ _ Hrun_b) as (h' & _ & _ & -> & _ & _).
    cbn [db] in *. exists h. split; [reflexivity|].
    destruct (candidate_fields clock_b order_b (db st') h') as (-> & _).
    unfold candidate in Hstore.
    destruct (store_block_available _ _ _ _ _ _ _ _ _ Ha Hstore) as (v & oid & _ & _ & _ & Hdb).
    unfold tip_hash. rewrite Hdb, (get_latest_block_insert _ _ _ _ _ _ Ha). reflexivity.
Qed.

Lemma controllers_share_the_table_witness :
  add_order_to_blockchain 1 noon order_571 started = Some (Some block_571, after_571)
  /\ (exists st'',
        add_order_to_blockchain 1 noon order_571 (mkState [] empty_database)
          = Some (Some block_571, st'')
        /\ db st'' = db after_571)
  /\ exists h,
       dict_get "hash" block_571 = Some (JStr h)
       /\ dict_get "previous_hash" block_750 = Some (JStr h).
Proof.
  assert (Hrun : add_order_to_blockchain 1 noon order_571 (mkState (chain started) empty_database)
                 = Some (Some block_571, after_571)) by (vm_compute; reflexivity).
  destruct (controllers_share_the_table 1 noon order_571 (chain started) [] empty_database
              (Some block_571) after_571 Hrun) as [Hsame Hlink].
  split; [exact Hrun|]. split; [exact Hsame|].
  apply (Hlink eq_refl block_571 1%nat five_past order_750 block_750
           (mkState [block_750] (db after_750)) eq_refl).
  vm_compute. reflexivity.
Defined.

(** ** What the check reads *)

Lemma report_from_combine : forall blocks prev,
  report_from prev blocks
  = map (fun pr => check_block (fst pr) (snd pr))
        (combine (prev :: map current_hash blocks) blocks).
Proof.
  induction blocks as [|b rest IH]; intros prev; [reflexivity|].
  cbn [report_from map combine fst snd]. now rewrite IH.
Qed.

Lemma link_issues_check_block prev block :
  link_issues (check_block prev block) = link_verdict prev block.
Proof.
  destruct (check_block_spec prev block) as (_ & -> & _). unfold link_verdict.
  now destruct (String.eqb (previous_hash block) prev).
Qed.

Lemma report_from_app : forall l1 l2 prev,
  report_from prev (l1 ++ l2)
  = report_from prev l1 ++ report_from (last_hash prev l1) l2.
Proof.
  induction l1 as [|b l1 IH]; intros l2 prev; [reflexivity|].
  cbn [app report_from]. rewrite IH. f_equal. f_equal.
  unfold last_hash. cbn [rev].
  destruct (rev l1) as [|x l] eqn:Hrev; [reflexivity|]. reflexivity.
Qed.

(** X6. The link check of each block compares its stored previous_hash
    with the stored current_hash of the row before it in id order, the
    64-zero digest for the first row, and with nothing else. So a row whose
    previous_hash is not its predecessor's current_hash is entered as
    TAMPERED with the two values, and the verdict is false. *)
Theorem link_checks_follow_stored_hashes (d : Database) :
  map link_issues (integrity_report d)
  = map (fun pr => link_verdict (fst pr) (snd pr))
        (combine (zero_hash :: map current_hash (order_by_id (table d)))
                 (order_by_id (table d)))
  /\ forall before r r' after,
       available d = true ->
       order_by_id (table d) = before ++ r :: r' :: after ->
       previous_hash r' <> current_hash r ->
       fst (verify_blockchain_integrity d) = false
       /\ exists s,
            In s (integrity_report d)
            /\ block_id s = id r'
            /\ block_state s = TAMPERED
            /\ In (PreviousHashMismatch (current_hash r) (previous_hash r')) (issues s).
Proof.
  rewrite integrity_report_unfold. split.
  - rewrite report_from_combine, map_map. apply map_ext.
    intros [prev block]. apply link_issues_check_block.
  - intros before r r' after Ha Hrows Hbroken.
    assert (Hin : In (check_block (current_hash r) r')
                     (report_from zero_hash (order_by_id (table d)))).
    { rewrite Hrows, report_from_app. apply in_or_app. right.
      cbn [report_from]. right. now left. }
    assert (Hissue : In (PreviousHashMismatch (current_hash r) (previous_hash r'))
                        (issues (check_block (current_hash r) r'))).
    { assert (Hl : In (PreviousHashMismatch (current_hash r) (previous_hash r'))
                      (link_issues (check_block (current_hash r) r'))).
      { rewrite link_issues_check_block. unfold link_verdict.
        destruct (String.eqb (previous_hash r') (current_hash r)) eqn:Heq;
          [apply String.eqb_eq in Heq; contradiction | now left]. }
      unfold link_issues in Hl. now apply filter_In in Hl. }
    assert (Hstate : block_state (check_block (current_hash r) r') = TAMPERED).
    { unfold check_block in *.
      destruct (String.eqb (previous_hash r') (current_hash r)) eqn:Heq;
        [apply String.eqb_eq in Heq; contradiction|].
      cbn [negb]. destruct (recompute_hash r') as [h|e]; [|reflexivity].
      destruct (negb (String.eqb h (current_hash r'))); reflexivity. }
    split.
    + apply (verify_false_of_tampered d (check_block (current_hash r) r') Ha);
        [now rewrite integrity_report_unfold | exact Hstate].
    + exists (check_block (current_hash r) r'). split; [exact Hin|].
      split; [apply check_block_spec|]. split; assumption.
Qed.

Lemma link_checks_follow_stored_hashes_witness :
  fst (verify_blockchain_integrity relinked_database) = false
  /\ exists s,
       In s (integrity_report relinked_database)
       /\ block_id s = 2
       /\ block_state s = TAMPERED
       /\ In (PreviousHashMismatch
                "00b6ff31ac8393f6dd0425c7d4b40b6e19c733bb37b4f26c55cc9cfa582cb286" zero_hash)
             (issues s).
Proof.
  destruct (link_checks_follow_stored_hashes relinked_database) as [_ Hbroken].
  apply (Hbroken []
           (mkRow 1 (SqlInteger 571) zero_hash
              "00b6ff31ac8393f6dd0425c7d4b40b6e19c733bb37b4f26c55cc9cfa582cb286"
              (json_dumps false None order_571) "2024-05-01 12:00:00")
           (mkRow 2 (SqlInteger 750) zero_hash
              "006144272c7fd3b6dfa28d8dffd670dbc7e9d1dfd0829c8ef16b3016f41f3364"
              (json_dumps false None order_750) "2024-05-01 12:05:00")
           []).
  - reflexivity.
  - vm_compute. reflexivity.
  - vm_compute. discriminate.
Defined.

(** ** When the verdict is true *)

Lemma check_block_valid prev block :
  block_state (check_block prev block) = VALID
  <-> previous_hash block = prev /\ recompute_hash block = Ok (current_hash block).
Proof.
  unfold check_block.
  destruct (String.eqb_spec (previous_hash block) prev) as [Hlink|Hlink]; cbn [negb];
    destruct (recompute_hash block) as [h|e]; cbn [block_state];
    try (destruct (String.eqb_spec h (current_hash block)) as [Hhash|Hhash];
         cbn [negb block_state]);
    split; intros H; try discriminate; try (split; congruence);
    destruct H as [H1 H2]; congruence.
Qed.

Lemma no_tampered_intact : forall blocks prev,
  filter is_tampered (report_from prev blocks) = [] <-> intact prev blocks.
Proof.
  induction blocks as [|b rest IH]; intros prev; cbn [report_from filter intact].
  - split; auto.
  - unfold is_tampered at 1.
    destruct (block_state (check_block prev b)) eqn:Hstate.
    + apply check_block_valid in Hstate. rewrite IH. tauto.
    + split; [discriminate|]. intros (Hl & Hh & _).
      assert (Hv : block_state (check_block prev b) = VALID)
        by (apply check_block_valid; auto).
      congruence.
Qed.

Lemma verify_true_when d :
  available d = true ->
  fst (verify_blockchain_integrity d) = true <-> intact zero_hash (order_by_id (table d)).
Proof.
  intros Ha. unfold verify_blockchain_integrity.
  rewrite integrity_report_unfold, Ha. cbn [negb].
  destruct (filter is_tampered (report_from zero_hash (order_by_id (table d))))
    as [|x l] eqn:Hfilter; cbn [fst].
  - apply no_tampered_intact in Hfilter. tauto.
  - split; [discriminate|]. intros Hintact.
    apply no_tampered_intact in Hintact. congruence.
Qed.

Lemma verified_available d :
  fst (verify_blockchain_integrity d) = true -> available d = true.
Proof.
  unfold verify_blockchain_integrity. destruct (available d); [reflexivity | discriminate].
Qed.

(** X7. Over a table whose stored payloads are text within the model, the
    verdict is true exactly when a connection can be had and, the rows taken
    in id order, every row names the stored hash of the row before it (the
    64-zero digest for the first) and its block_data decodes to a payload
    that, put in a block with the row's id, the row's timestamp and nonce 0,
    hashes to the row's current_hash. *)
Theorem verdict_true_iff_intact (d : Database) :
  within_model d ->
  fst (verify_blockchain_integrity d) = true
  <-> available d = true /\ intact zero_hash (order_by_id (table d)).
Proof.
  intros _. unfold verify_blockchain_integrity. rewrite integrity_report_unfold.
  destruct (available d); cbn [negb].
  - destruct (filter is_tampered (report_from zero_hash (order_by_id (table d))))
      as [|x l] eqn:Hfilter; cbn [fst].
    + apply no_tampered_intact in Hfilter. tauto.
    + split; [discriminate|]. intros [_ Hintact].
      apply no_tampered_intact in Hintact. congruence.
  - cbn [fst]. split; [discriminate | intros [H _]; discriminate].
Qed.

Lemma verdict_true_iff_intact_witness :
  within_model (db after_750)
  /\ within_model (db after_2)
  /\ intact zero_hash (order_by_id (table (db after_750)))
  /\ ~ intact zero_hash (order_by_id (table (db after_2))).
Proof.
  assert (Hlong : within_model (db after_750)).
  { intros r [<- | [<- | []]]; unfold text_within_model; vm_compute; discriminate. }
  assert (Hshort : within_model (db after_2)).
  { intros r [<- | []]; unfold text_within_model; vm_compute; discriminate. }
  split; [exact Hlong|]. split; [exact Hshort|]. split.
  - apply (proj1 (verdict_true_iff_intact (db after_750) Hlong)). vm_compute. reflexivity.
  - intros Hintact.
    assert (Htrue : fst (verify_blockchain_integrity (db after_2)) = true).
    { apply (proj2 (verdict_true_iff_intact (db after_2) Hshort)).
      split; [reflexivity | exact Hintact]. }
    vm_compute in Htrue. discriminate Htrue.
Defined.

(** ** What the check does not read *)

Lemma order_by_id_map (g : Row -> Row) :
  (forall r, id (g r) = id r) ->
  forall rows, order_by_id (map g rows) = map g (order_by_id rows).
Proof.
  intros Hid.
  assert (Hinsert : forall r rows,
            insert_by_id (g r) (map g rows) = map g (insert_by_id r rows)).
  { intros r. induction rows as [|a rows IH]; cbn [insert_by_id map]; [reflexivity|].
    rewrite !Hid. destruct (id r <=? id a); cbn [map]; [reflexivity|]. now rewrite IH. }
  induction rows as [|a rows IH]; cbn [order_by_id map]; [reflexivity|].
  rewrite IH. apply Hinsert.
Qed.

Lemma verify_by_count d :
  verify_blockchain_integrity d
  = if negb (available d) then (false, "Database connection failed")
    else match List.length (filter is_tampered (integrity_report d)) with
         | O => (true, "Blockchain integrity verified successfully.")
         | S n => (false,
                   ("Blockchain integrity compromised. "
                      ++ string_of_Z (Z.of_nat (S n)) ++ " blocks tampered.")%string)
         end.
Proof.
  unfold verify_blockchain_integrity. destruct (negb (available d)); [reflexivity|].
  destruct (filter is_tampered (integrity_report d)); reflexivity.
Qed.

Lemma tampered_count_by_state : forall l l',
  map block_state l = map block_state l' ->
  List.length (filter is_tampered l) = List.length (filter is_tampered l').
Proof.
  induction l as [|s l IH]; intros [|s' l'] Heq; try discriminate; [reflexivity|].
  cbn [map] in Heq. injection Heq as Hs Hl. cbn [filter].
  assert (Htest : is_tampered s = is_tampered s') by (unfold is_tampered; now rewrite Hs).
  rewrite Htest. destruct (is_tampered s'); cbn [List.length]; auto.
Qed.

Lemma relabel_row_keeps k oid r :
  id (relabel_row k oid r) = id r
  /\ current_hash (relabel_row k oid r) = current_hash r
  /\ forall prev,
       block_state (check_block prev (relabel_row k oid r)) = block_state (check_block prev r)
       /\ issues (check_block prev (relabel_row k oid r)) = issues (check_block prev r).
Proof.
  unfold relabel_row. destruct (id r =? k); [|repeat split].
  split; [reflexivity|]. split; [reflexivity|]. intros prev.
  unfold check_block, recompute_hash. cbn [id order_id previous_hash current_hash block_data timestamp].
  destruct (negb (String.eqb (previous_hash r) prev));
    destruct (json_loads (block_data r)) as [v|e]; cbn [bind];
    try destruct (negb (String.eqb _ (current_hash r))); split; reflexivity.
Qed.

(** X8. The order_id column is outside every check: rewriting it in any
    row to any value leaves the state and the issues of every entry, and
    the verdict with its message, as they were. Only the order_id inside
    block_data is hashed. *)
Theorem order_id_column_unchecked (k : Z) (oid : sqlvalue) (d : Database) :
  map block_state (integrity_report (relabel k oid d)) = map block_state (integrity_report d)
  /\ map issues (integrity_report (relabel k oid d)) = map issues (integrity_report d)
  /\ verify_blockchain_integrity (relabel k oid d) = verify_blockchain_integrity d.
Proof.
  assert (Hreport : forall blocks prev,
            map block_state (report_from prev (map (relabel_row k oid) blocks))
            = map block_state (report_from prev blocks)
            /\ map issues (report_from prev (map (relabel_row k oid) blocks))
               = map issues (report_from prev blocks)).
  { induction blocks as [|b rest IH]; intros prev; [split; reflexivity|].
    cbn [map report_from].
    destruct (relabel_row_keeps k oid b) as (_ & Hcur & Hcheck).
    destruct (Hcheck prev) as [-> ->]. rewrite Hcur.
    destruct (IH (current_hash b)) as [-> ->]. split; reflexivity. }
  assert (Hsorted : order_by_id (table (relabel k oid d))
                    = map (relabel_row k oid) (order_by_id (table d))).
  { unfold relabel. cbn [table]. apply order_by_id_map.
    intros r. apply relabel_row_keeps. }
  assert (Hstates : map block_state (integrity_report (relabel k oid d))
                    = map block_state (integrity_report d)).
  { rewrite !integrity_report_unfold, Hsorted. apply Hreport. }
  split; [exact Hstates|]. split.
  - rewrite !integrity_report_unfold, Hsorted. apply Hreport.
  - rewrite !verify_by_count. cbn [relabel available].
    now rewrite (tampered_count_by_state _ _ Hstates).
Qed.

(** ** Deleting the newest rows *)

Lemma insert_by_id_filter (keep : Row -> bool) r : forall rows,
  StronglySorted id_le rows ->
  insert_by_id r (filter keep rows)
  = if keep r then filter keep (insert_by_id r rows) else insert_by_id r (filter keep rows).
Proof.
  destruct (keep r) eqn:Hr; [|reflexivity].
  induction rows as [|a rows IH]; intros Hs; cbn [filter insert_by_id].
  - now rewrite Hr.
  - inversion Hs as [|? ? Hs' Hall]; subst.
    destruct (id r <=? id a) eqn:Hle.
    + cbn [filter]. rewrite Hr.
      destruct (keep a) eqn:Ha; cbn [insert_by_id]; [now rewrite Hle|].
      apply Z.leb_le in Hle.
      destruct (filter keep rows) as [|x l] eqn:Hf; [reflexivity|].
      cbn [insert_by_id].
      assert (Hx : In x rows).
      { assert (In x (filter keep rows)) by (rewrite Hf; now left).
        now apply filter_In in H. }
      rewrite Forall_forall in Hall. specialize (Hall x Hx). unfold id_le in Hall.
      replace (id r <=? id x) with true by (symmetry; apply Z.leb_le; lia). reflexivity.
    + cbn [filter]. destruct (keep a) eqn:Ha; cbn [insert_by_id].
      * rewrite Hle. now rewrite IH.
      * now apply IH.
Qed.

Lemma filter_insert_dropped (keep : Row -> bool) r : forall rows,
  keep r = false -> filter keep (insert_by_id r rows) = filter keep rows.
Proof.
  intros rows Hr. induction rows as [|a rows IH]; cbn [insert_by_id filter].
  - now rewrite Hr.
  - destruct (id r <=? id a); cbn [filter]; [now rewrite Hr|].
    now rewrite IH.
Qed.

Lemma order_by_id_filter (keep : Row -> bool) : forall rows,
  order_by_id (filter keep rows) = filter keep (order_by_id rows).
Proof.
  induction rows as [|a rows IH]; cbn [order_by_id filter]; [reflexivity|].
  destruct (keep a) eqn:Ha.
  - cbn [order_by_id]. rewrite IH.
    rewrite (insert_by_id_filter keep a _ (order_by_id_sorted rows)). now rewrite Ha.
  - rewrite IH. symmetry. now apply filter_insert_dropped.
Qed.

Lemma sorted_filter_prefix k : forall rows,
  StronglySorted id_le rows ->
  exists dropped, rows = filter (fun r => id r <? k) rows ++ dropped.
Proof.
  induction rows as [|a rows IH]; intros Hs; [now exists []|].
  inversion Hs as [|? ? Hs' Hall]; subst. cbn [filter].
  destruct (id a <? k) eqn:Ha.
  - destruct (IH Hs') as [dropped Hd]. exists dropped. cbn [app]. now rewrite <- Hd.
  - exists (a :: rows). apply Z.ltb_ge in Ha.
    assert (Hnone : filter (fun r => id r <? k) rows = []).
    { clear IH Hs Hs'. induction rows as [|b rows IH]; [reflexivity|].
      inversion Hall as [|? ? Hb Hall']; subst. cbn [filter]. unfold id_le in Hb.
      replace (id b <? k) with false by (symmetry; apply Z.ltb_ge; lia). now apply IH. }
    now rewrite Hnone.
Qed.

Lemma intact_prefix : forall l1 l2 prev, intact prev (l1 ++ l2) -> intact prev l1.
Proof.
  induction l1 as [|b l1 IH]; intros l2 prev H; cbn [app intact] in *; [exact I|].
  destruct H as (Hl & Hh & Hrest). eauto.
Qed.

(** X9. Nothing anchors the tip: when the newest rows are deleted, all
    those with an id from [k] on, a table that passed the check still
    passes it. *)
Theorem truncation_passes_the_check (k : Z) (d : Database) :
  fst (verify_blockchain_integrity d) = true ->
  fst (verify_blockchain_integrity (delete_from k d)) = true.
Proof.
  intros Htrue. pose proof (verified_available d Htrue) as Ha.
  apply (verify_true_when d Ha) in Htrue. rename Htrue into Hintact.
  apply (verify_true_when (delete_from k d) Ha).
  unfold delete_from. cbn [table]. rewrite order_by_id_filter.
  destruct (sorted_filter_prefix k _ (order_by_id_sorted (table d))) as [dropped Hsplit].
  rewrite Hsplit in Hintact. now apply intact_prefix in Hintact.
Qed.

Lemma truncation_passes_the_check_witness :
  fst (verify_blockchain_integrity (db after_750)) = true
  /\ table (delete_from 2 (db after_750)) = table (db after_571)
  /\ fst (verify_blockchain_integrity (delete_from 2 (db after_750))) = true.
Proof.
  assert (Htrue : fst (verify_blockchain_integrity (db after_750)) = true)
    by (vm_compute; reflexivity).
  split; [exact Htrue|]. split; [reflexivity|].
  exact (truncation_passes_the_check 2 (db after_750) Htrue).
Defined.

(** ** Chains built by appending *)

(** What a call does to a database that can be reached: nothing, or one
    INSERT of a row that names the tip. *)
Lemma add_order_database fuel clock order_data chain_before d result st' :
  available d = true ->
  add_order_to_blockchain fuel clock order_data (mkState chain_before d)
    = Some (result, st') ->
  db st' = d
  \/ exists h oid,
       result = Some (candidate clock order_data d ++ [("hash", JStr h)])
       /\ String.prefix "00" h = true
       /\ db st' = insert_row (sql_now clock) oid (tip_hash d) h
                     (json_dumps false None order_data) d.
Proof.
  intros Ha Hrun. destruct result as [b|].
  - right. destruct (appended_block_hash _ _ _ _ _ _ Hrun) as (h0 & Hhash & Hprefix).
    destruct (add_order_returns _ _ _ _ _ _ Hrun) as (h & flag & _ & -> & Hstore & _).
    cbn [db] in *. assert (h0 = h) as -> by (cbn in Hhash; congruence).
    unfold candidate in Hstore.
    destruct (store_block_available _ _ _ _ _ _ _ _ _ Ha Hstore) as (v & oid & _ & _ & _ & Hdb).
    exists h, oid. auto.
  - left. revert Hrun. unfold add_order_to_blockchain.
    destruct (add_order_body fuel clock order_data (mkState chain_before d))
      as [[[b st1]|e]|]; try discriminate. now intros [= <-].
Qed.

Lemma max_id_le n : forall rows,
  0 <= n -> (forall r, In r rows -> id r <= n) -> max_id rows <= n.
Proof.
  induction rows as [|a rows IH]; intros Hn Hall; cbn [max_id fold_right]; [exact Hn|].
  assert (Ha : id a <= n) by (apply Hall; now left).
  assert (Hrest : max_id rows <= n) by (apply IH; [exact Hn | intros r Hr; apply Hall; now right]).
  unfold max_id in Hrest. lia.
Qed.

Lemma linked_snoc : forall rows prev r,
  linked prev (rows ++ [r]) <-> linked prev rows /\ previous_hash r = last_hash prev rows.
Proof.
  induction rows as [|a rows IH]; intros prev r; cbn [app linked].
  - unfold last_hash. cbn [rev]. tauto.
  - rewrite IH.
    assert (Hlast : last_hash prev (a :: rows) = last_hash (current_hash a) rows).
    { unfold last_hash. cbn [rev]. destruct (rev rows) as [|x l]; reflexivity. }
    rewrite Hlast. tauto.
Qed.

Lemma tip_hash_sorted d :
  available d = true -> order_by_id (table d) = table d ->
  tip_hash d = last_hash zero_hash (table d)
  /\ next_index d = match rev (table d) with [] => 1 | r :: _ => id r + 1 end.
Proof.
  intros Ha Hs. unfold tip_hash, next_index, get_latest_block, last_hash.
  rewrite Ha, Hs. destruct (rev (table d)); split; reflexivity.
Qed.

Lemma linked_no_link_issue : forall rows prev s,
  linked prev rows -> In s (report_from prev rows) -> link_issues s = [].
Proof.
  induction rows as [|a rows IH]; intros prev s Hl Hin; [contradiction|].
  cbn [linked report_from] in *. destruct Hl as [Hprev Hrest]. destruct Hin as [<- | Hin].
  - rewrite link_issues_check_block. unfold link_verdict.
    now rewrite Hprev, String.eqb_refl.
  - eauto.
Qed.

(** The invariant of a table built by appends. *)
Lemma built_invariant d :
  built d ->
  available d = true
  /\ sequence d = Z.of_nat (List.length (table d))
  /\ map id (table d) = map Z.of_nat (seq 1 (List.length (table d)))
  /\ order_by_id (table d) = table d
  /\ linked zero_hash (table d)
  /\ Forall (fun r => String.prefix "00" (current_hash r) = true) (table d).
Proof.
  induction 1 as [|fuel clock order_data chain_before d result st' Hbuilt IH Hrun].
  - cbn. repeat split; constructor.
  - destruct IH as (Ha & Hseq & Hids & Hsorted & Hlinked & Hzeros).
    destruct (add_order_database _ _ _ _ _ _ _ Ha Hrun) as [-> | (h & oid & _ & Hprefix & ->)];
      [repeat split; assumption|].
    assert (Hbound : forall r, In r (table d) -> id r <= Z.of_nat (List.length (table d))).
    { intros r Hr. apply (in_map id) in Hr. rewrite Hids in Hr.
      apply in_map_iff in Hr as (n & <- & Hn). apply in_seq in Hn. lia. }
    assert (Hmax : Z.max (sequence d) (max_id (table d)) = Z.of_nat (List.length (table d))).
    { pose proof (max_id_le (Z.of_nat (List.length (table d))) (table d) ltac:(lia) Hbound).
      lia. }
    unfold insert_row. cbn [available table sequence]. rewrite Hmax.
    rewrite length_app. cbn [List.length].
    replace (List.length (table d) + 1)%nat with (S (List.length (table d))) by lia.
    split; [exact Ha|]. split; [lia|]. split; [|split; [|split]].
    + rewrite map_app, seq_S, map_app, Hids. cbn [map id]. f_equal. f_equal. lia.
    + rewrite order_by_id_snoc, Hsorted; [reflexivity|].
      intros r Hr. cbn [id]. specialize (Hbound r Hr). lia.
    + apply linked_snoc. split; [exact Hlinked|]. cbn [previous_hash].
      apply (tip_hash_sorted d Ha Hsorted).
    + apply Forall_app. split; [exact Hzeros|]. constructor; [exact Hprefix | constructor].
Qed.

(** X10. In a table built by calls of [add_order_to_blockchain] from the
    empty table, through any controllers, with any payloads and clocks:
    the ids are 1, 2, ... in insertion order, every stored hash starts with
    00, and the check finds no link mismatch at any block. *)
Theorem appends_keep_the_chain_linked (d : Database) :
  built d ->
  map id (table d) = map Z.of_nat (seq 1 (List.length (table d)))
  /\ Forall (fun r => String.prefix "00" (current_hash r) = true) (table d)
  /\ forall s, In s (integrity_report d) -> link_issues s = [].
Proof.
  intros Hbuilt.
  destruct (built_invariant d Hbuilt) as (_ & _ & Hids & Hsorted & Hlinked & Hzeros).
  split; [exact Hids|]. split; [exact Hzeros|].
  intros s Hin. rewrite integrity_report_unfold, Hsorted in Hin.
  exact (linked_no_link_issue _ _ _ Hlinked Hin).
Qed.

Lemma built_after_2 : built (db after_2).
Proof.
  apply (built_append 4 lunchtime order_2 (chain started) (mkDatabase true [] 0)
           (Some block_2) after_2 built_empty).
  vm_compute. reflexivity.
Qed.

Lemma appends_keep_the_chain_linked_witness :
  built (db after_2)
  /\ map id (table (db after_2)) = [1]
  /\ forall s, In s (integrity_report (db after_2)) -> link_issues s = [].
Proof.
  destruct (appends_keep_the_chain_linked (db after_2) built_after_2) as (Hids & _ & Hlinks).
  split; [exact built_after_2|]. split; [exact Hids | exact Hlinks].
Defined.

(** X11. The index in a block returned over a table built by appends is
    the id of the row stored for it, one more than the number of rows
    before: the check, which takes the index from the id, rebuilds that
    field as it was mined. *)
Theorem appended_index_is_row_id (fuel : nat) (clock : Clock) (order_data : json)
  (chain_before : list pydict) (d : Database) (b : pydict) (st' : State) :
  built d ->
  add_order_to_blockchain fuel clock order_data (mkState chain_before d)
    = Some (Some b, st') ->
  exists row,
    table (db st') = table d ++ [row]
    /\ id row = Z.of_nat (S (List.length (table d)))
    /\ dict_get "index" b = Some (JInt (id row))
    /\ dict_get "previous_hash" b = Some (JStr (previous_hash row))
    /\ dict_get "hash" b = Some (JStr (current_hash row)).
Proof.
  intros Hbuilt Hrun.
  destruct (built_invariant d Hbuilt) as (Ha & Hseq & Hids & Hsorted & _ & _).
  destruct (add_order_database _ _ _ _ _ _ _ Ha Hrun) as [Hsame | (h & oid & Hb & _ & Hdb)].
  - exfalso. destruct (add_order_returns _ _ _ _ _ _ Hrun) as (h & flag & _ & -> & Hstore & _).
    cbn [db] in Hstore. unfold candidate in Hstore.
    destruct (store_block_available _ _ _ _ _ _ _ _ _ Ha Hstore) as (v & oid & _ & _ & _ & Hdb).
    rewrite Hsame in Hdb. apply (f_equal table) in Hdb. unfold insert_row in Hdb.
    cbn [table] in Hdb. apply (f_equal (@List.length Row)) in Hdb.
    rewrite length_app in Hdb. cbn [List.length] in Hdb. lia.
  - injection Hb as ->. rewrite Hdb. unfold insert_row. cbn [table].
    assert (Hbound : forall r, In r (table d) -> id r <= Z.of_nat (List.length (table d))).
    { intros r Hr. apply (in_map id) in Hr. rewrite Hids in Hr.
      apply in_map_iff in Hr as (n & <- & Hn). apply in_seq in Hn. lia. }
    assert (Hmax : Z.max (sequence d) (max_id (table d)) = Z.of_nat (List.length (table d))).
    { pose proof (max_id_le (Z.of_nat (List.length (table d))) (table d) ltac:(lia) Hbound).
      lia. }
    eexists. split; [reflexivity|]. cbn [id previous_hash current_hash]. rewrite Hmax.
    split; [lia|].
    split; [|split; reflexivity].
    change (Some (JInt (next_index d)) = Some (JInt (Z.of_nat (List.length (table d)) + 1))).
    f_equal. f_equal.
    destruct (tip_hash_sorted d Ha Hsorted) as [_ ->].
    assert (Hlast : match rev (table d) with [] => 1 | r :: _ => id r + 1 end
                    = Z.of_nat (List.length (table d)) + 1).
    { destruct (table d) as [|a l] eqn:Htable using rev_ind; [reflexivity|].
      rewrite rev_app_distr. cbn [rev app].
      rewrite map_app, length_app in Hids. cbn [map List.length] in Hids.
      replace (List.length l + 1)%nat with (S (List.length l)) in Hids by lia.
      rewrite seq_S, map_app in Hids. cbn [map] in Hids.
      apply app_inj_tail in Hids as [_ Hid]. rewrite length_app. cbn [List.length]. lia. }
    lia.
Qed.

Lemma appended_index_is_row_id_witness :
  built (db after_2)
  /\ exists b st' row,
       add_order_to_blockchain 4 lunchtime order_2 (mkState [] (mkDatabase true [] 0))
         = Some (Some b, st')
       /\ table (db st') = [row]
       /\ id row = 1
       /\ dict_get "index" b = Some (JInt (id row)).
Proof.
  split; [exact built_after_2|].
  assert (Hrun : add_order_to_blockchain 4 lunchtime order_2 (mkState [] (mkDatabase true [] 0))
                 = Some (Some block_2, mkState [block_2] (db after_2)))
    by (vm_compute; reflexivity).
  destruct (appended_index_is_row_id 4 lunchtime order_2 [] (mkDatabase true [] 0) block_2
              (mkState [block_2] (db after_2)) built_empty Hrun)
    as (row & Htable & Hid & Hindex & _).
  exists block_2, (mkState [block_2] (db after_2)), row. auto.
Defined.

(** ** Decoding what was encoded *)

Lemma append_assoc (a b c : string) : ((a ++ b) ++ c = a ++ (b ++ c))%string.
Proof. induction a as [|x a IH]; cbn; [reflexivity | now rewrite IH]. Qed.

Lemma append_empty (a : string) : (a ++ "")%string = a.
Proof. induction a as [|x a IH]; cbn; [reflexivity | now rewrite IH]. Qed.

(** One escaped character is read back as that character. *)
Lemma scanstring_escape_char (c : ascii) (tail : string) :
  scanstring (escape_char c ++ tail)
  = '(body, r) <- scanstring tail ;; Ok (String c body, r).
Proof. destruct c as [[] [] [] [] [] [] [] []]; reflexivity. Qed.

Lemma scanstring_escape_body (s rest : string) :
  scanstring (escape_body s ++ String quote_char rest) = Ok (s, rest).
Proof.
  induction s as [|c s IH]; cbn [escape_body].
  - reflexivity.
  - rewrite append_assoc, scanstring_escape_char, IH. reflexivity.
Qed.

(** The decimal digits [json.dumps] prints for an int are read back as
    that int, when what follows does not continue the number. *)
Lemma take_digits_of_uint (d : Decimal.uint) : forall (acc : positive) (rest : string),
  starts_with_digit rest = false ->
  take_digits (Z.pos acc) (NilEmpty.string_of_uint d ++ rest)
  = (Z.pos (Pos.of_uint_acc d acc), rest).
Proof.
  induction d as [|d IH|d IH|d IH|d IH|d IH|d IH|d IH|d IH|d IH|d IH];
    intros acc rest Hrest;
    cbn [NilEmpty.string_of_uint Pos.of_uint_acc append].
  1: { destruct rest as [|c rest]; [reflexivity|].
       cbn [starts_with_digit] in Hrest. cbn [take_digits]. now rewrite Hrest. }
  all: rewrite <- (IH _ rest Hrest); cbn [take_digits];
    match goal with |- context [is_digit ?c] => change (is_digit c) with true end;
    cbn iota; f_equal;
    match goal with |- context [code ?c] =>
      let n := eval vm_compute in (code c) in change (code c) with n
    end; lia.
Qed.

Lemma nzhead_no_leading_zero (d d' : Decimal.uint) : Decimal.nzhead d <> Decimal.D0 d'.
Proof. induction d; cbn; try discriminate. exact IHd. Qed.

Lemma to_uint_no_leading_zero (p : positive) (d : Decimal.uint) :
  Pos.to_uint p <> Decimal.D0 d.
Proof.
  intros E.
  pose proof (DecimalPos.Unsigned.to_of (Pos.to_uint p)) as H.
  rewrite DecimalPos.Unsigned.of_to in H. cbn [N.to_uint] in H.
  unfold Decimal.unorm in H.
  destruct (Decimal.nzhead (Pos.to_uint p)) eqn:Hn;
    try (rewrite E in H; rewrite <- H in Hn; now apply nzhead_no_leading_zero in Hn).
  apply (DecimalPos.Unsigned.to_uint_nonzero p). exact H.
Qed.

(** The head of a printed positive number, and its reading. *)
Lemma digits_of_positive (p : positive) (rest : string) :
  starts_with_digit rest = false ->
  exists c tail,
    (NilZero.string_of_uint (Pos.to_uint p) ++ rest)%string = String c tail
    /\ is_digit c = true /\ code c <> 48
    /\ take_digits 0 (String c tail) = (Z.pos p, rest).
Proof.
  intros Hrest.
  pose proof (DecimalPos.Unsigned.of_to p) as Hp.
  pose proof (to_uint_no_leading_zero p) as Hz.
  pose proof (DecimalPos.Unsigned.to_uint_nonnil p) as Hnil.
  destruct (Pos.to_uint p) as [|d|d|d|d|d|d|d|d|d|d];
    [ now contradiction Hnil | now contradiction (Hz d) | .. ];
    cbn [Pos.of_uint] in Hp; injection Hp as Hp;
    cbn [NilZero.string_of_uint NilEmpty.string_of_uint append];
    eexists; eexists; (split; [reflexivity|]);
    (split; [reflexivity|]); (split; [discriminate|]);
    rewrite <- Hp; apply (take_digits_of_uint d _ rest Hrest).
Qed.

Lemma match_number_string_of_Z (z : Z) (rest : string) :
  starts_with_digit rest = false ->
  float_tail rest = false ->
  match_number (string_of_Z z ++ rest) = Some (Ok (JInt z, rest)).
Proof.
  intros Hdigit Hfloat. unfold string_of_Z.
  destruct z as [|p|p]; cbn [Z.to_int NilZero.string_of_int].
  - cbn. now rewrite Hfloat.
  - destruct (digits_of_positive p rest Hdigit) as (c & tail & Htext & Hc & H48 & Htake).
    rewrite Htext. unfold match_number.
    assert (H45 : (code c =? 45) = false).
    { unfold is_digit in Hc. apply andb_prop in Hc. lia. }
    rewrite H45, Hc.
    apply Z.eqb_neq in H48. rewrite H48, Htake, Hfloat. reflexivity.
  - destruct (digits_of_positive p rest Hdigit) as (c & tail & Htext & Hc & H48 & Htake).
    cbn [append]. rewrite Htext. unfold match_number.
    change (code "-" =? 45) with true. cbn iota.
    rewrite Hc. apply Z.eqb_neq in H48. rewrite H48, Htake, Hfloat. reflexivity.
Qed.

(** The text of a value starts with a character that is not white space
    and not a closing bracket; that of an int, with a digit or a minus. *)
Lemma string_of_Z_head (z : Z) :
  exists c tail, string_of_Z z = String c tail /\ (is_digit c = true \/ code c = 45).
Proof.
  unfold string_of_Z. destruct z as [|p|p]; cbn [Z.to_int NilZero.string_of_int].
  - eexists; eexists; split; [reflexivity | left; reflexivity].
  - destruct (digits_of_positive p "" eq_refl) as (c & tail & Htext & Hc & _).
    rewrite append_empty in Htext. rewrite Htext.
    eexists; eexists; split; [reflexivity | now left].
  - eexists; eexists; split; [reflexivity | right; reflexivity].
Qed.

Lemma encode_head (v : json) (level : nat) :
  exists c tail,
    encode false None level v = String c tail /\ is_ws c = false /\ code c <> 93.
Proof.
  destruct v as [ | [|] | z | s | [|x l] | [|kv d] ];
    try (eexists; eexists; split; [reflexivity | split; [reflexivity | discriminate]]).
  destruct (string_of_Z_head z) as (c & tail & Htext & Hc).
  exists c, tail. split; [exact Htext|].
  unfold is_ws, is_digit in *.
  destruct Hc as [Hc | Hc]; [apply andb_prop in Hc | rewrite Hc; cbn];
    (split; [|lia]); repeat (apply orb_false_iff; split); lia.
Qed.

Lemma skip_ws_encode (v : json) (level : nat) (rest : string) :
  skip_ws (encode false None level v ++ rest) = (encode false None level v ++ rest)%string.
Proof.
  destruct (encode_head v level) as (c & tail & Htext & Hws & _).
  rewrite Htext. cbn [append skip_ws]. now rewrite Hws.
Qed.

(** [scan_once] at the head of a number. *)
Lemma scan_once_number (fuel : nat) (z : Z) (rest : string) :
  ends_value rest ->
  scan_once (S fuel) (string_of_Z z ++ rest) = Ok (JInt z, rest).
Proof.
  intros [Hdigit Hfloat].
  pose proof (match_number_string_of_Z z rest Hdigit Hfloat) as Hnum.
  destruct (string_of_Z_head z) as (c & tail & Htext & Hc).
  rewrite Htext in *. cbn [append] in *.
  assert (Hcode : 48 <= code c <= 57 \/ code c = 45).
  { destruct Hc as [Hc | Hc]; [left | now right].
    unfold is_digit in Hc. apply andb_prop in Hc. lia. }
  cbn [scan_once].
  rewrite !(proj2 (Z.eqb_neq (code c) _)) by lia.
  assert (Hn : forall a s w, code a <> code c -> String.prefix (String a s) (String c w) = false).
  { intros a s w Ha. cbn [String.prefix]. destruct (ascii_dec a c) as [->|_]; [now contradiction Ha | reflexivity]. }
  assert (Hn110 : code "n" = 110) by reflexivity.
  assert (Ht116 : code "t" = 116) by reflexivity.
  assert (Hf102 : code "f" = 102) by reflexivity.
  rewrite !Hn by lia.
  now rewrite Hnum.
Qed.

Lemma ends_value_empty : ends_value "".
Proof. split; reflexivity. Qed.

Lemma ends_value_comma rest : ends_value (String "," rest).
Proof. split; reflexivity. Qed.

Lemma ends_value_bracket rest : ends_value (String "]" rest).
Proof. split; reflexivity. Qed.

Lemma ends_value_brace rest : ends_value (String "}" rest).
Proof. split; reflexivity. Qed.

Lemma scan_array_unfold fuel s acc :
  scan_array (S fuel) s acc
  = '(v, r) <- scan_once fuel s ;;
    match skip_ws r with
    | String c r' =>
        if code c =? 93 then Ok (JList (rev (v :: acc)), r')
        else if code c =? 44 then scan_array fuel (skip_ws r') (v :: acc)
        else Raise JSONDecodeError
    | EmptyString => Raise JSONDecodeError
    end.
Proof. reflexivity. Qed.

Lemma scan_object_unfold fuel s acc :
  scan_object (S fuel) s acc
  = '(key, r) <- scanstring s ;;
    match skip_ws r with
    | String c r' =>
        if code c =? 58 then
          '(v, r2) <- scan_once fuel (skip_ws r') ;;
          match skip_ws r2 with
          | String c2 r3 =>
              if code c2 =? 125 then
                Ok (JDict (dict_of_pairs (rev ((key, v) :: acc))), r3)
              else if code c2 =? 44 then
                match skip_ws r3 with
                | String c3 r4 =>
                    if code c3 =? 34 then scan_object fuel r4 ((key, v) :: acc)
                    else Raise JSONDecodeError
                | EmptyString => Raise JSONDecodeError
                end
              else Raise JSONDecodeError
          | EmptyString => Raise JSONDecodeError
          end
        else Raise JSONDecodeError
    | EmptyString => Raise JSONDecodeError
    end.
Proof. reflexivity. Qed.

Lemma scan_once_bracket fuel t :
  scan_once (S fuel) (String "[" t)
  = match skip_ws t with
    | String c r =>
        if code c =? 93 then Ok (JList [], r) else scan_array fuel (String c r) []
    | EmptyString => Raise JSONDecodeError
    end.
Proof. reflexivity. Qed.

Lemma scan_once_brace fuel t :
  scan_once (S fuel) (String "{" t)
  = match skip_ws t with
    | String c r =>
        if code c =? 125 then Ok (JDict [], r)
        else if code c =? 34 then scan_object fuel r []
        else Raise JSONDecodeError
    | EmptyString => Raise JSONDecodeError
    end.
Proof. reflexivity. Qed.

(** The elements of a list, from the first one to the closing bracket. *)
Lemma scan_array_elements (level : nat) : forall (l : list json) (acc : list json)
  (fuel : nat) (rest : string),
  l <> [] ->
  Forall decodes_back l ->
  (String.length (String.concat ", " (map (encode false None level) l)) < fuel)%nat ->
  scan_array fuel
    (String.concat ", " (map (encode false None level) l) ++ String "]" rest) acc
  = Ok (JList (rev acc ++ l), rest).
Proof.
  induction l as [|x l IH]; intros acc fuel rest Hne Hall Hfuel; [now contradiction Hne|].
  inversion Hall as [|? ? Hx Hl]; subst.
  destruct fuel as [|fuel]; [lia|].
  rewrite scan_array_unfold.
  destruct l as [|y l].
  - cbn [map String.concat] in *.
    rewrite (Hx level fuel _ ltac:(lia) (ends_value_bracket rest)).
    cbn [bind skip_ws]. change (is_ws "]") with false. cbn iota.
    change (code "]" =? 93) with true. cbn iota.
    cbn [rev]. reflexivity.
  - change (String.concat ", " (map (encode false None level) (x :: y :: l)))
      with (encode false None level x ++ ", "
              ++ String.concat ", " (map (encode false None level) (y :: l)))%string in *.
    rewrite !length_append in Hfuel. cbn [String.length] in Hfuel.
    rewrite !append_assoc. cbn [append].
    rewrite (Hx level fuel _ ltac:(lia) (ends_value_comma _)).
    cbn [bind skip_ws]. change (is_ws ",") with false. cbn iota.
    change (code "," =? 93) with false. change (code "," =? 44) with true. cbn iota.
    cbn [skip_ws]. change (is_ws " ") with true. cbn iota.
    assert (Hskip : forall t,
      skip_ws (String.concat ", " (map (encode false None level) (y :: l)) ++ t)
      = (String.concat ", " (map (encode false None level) (y :: l)) ++ t)%string).
    { intros t. destruct l as [|y' l]; cbn [map String.concat].
      - apply skip_ws_encode.
      - rewrite append_assoc. apply skip_ws_encode. }
    rewrite Hskip.
    rewrite (IH (x :: acc) fuel rest ltac:(discriminate) Hl ltac:(lia)).
    cbn [rev]. now rewrite <- app_assoc.
Qed.

Lemma render_item_text (level : nat) (k : string) (v : json) (t : string) :
  (render_item level (k, v) ++ t)%string
  = String quote_char
      (escape_body k
         ++ String quote_char (String ":" (String " " (encode false None level v ++ t)))).
Proof.
  unfold render_item, encode_str. cbn [fst snd append].
  rewrite !append_assoc. cbn [append]. reflexivity.
Qed.

Lemma items_text (level : nat) (k : string) (v : json) (d : list (string * json))
  (t : string) :
  exists tail,
    (String.concat ", " (map (render_item level) ((k, v) :: d)) ++ t)%string
    = String quote_char tail.
Proof.
  destruct d as [|kv d]; cbn [map String.concat].
  - rewrite render_item_text. eexists; reflexivity.
  - rewrite append_assoc, render_item_text. eexists; reflexivity.
Qed.

(** The items of a dict, from the first key to the closing brace. *)
Lemma scan_object_items (level : nat) : forall (d : list (string * json))
  (acc : list (string * json)) (fuel : nat) (rest tail : string),
  d <> [] ->
  Forall (fun kv => decodes_back (snd kv)) d ->
  (String.length (String.concat ", " (map (render_item level) d)) < fuel)%nat ->
  (String.concat ", " (map (render_item level) d) ++ String "}" rest)%string
  = String quote_char tail ->
  scan_object fuel tail acc = Ok (JDict (dict_of_pairs (rev acc ++ d)), rest).
Proof.
  induction d as [|[k v] d IH]; intros acc fuel rest tail Hne Hall Hfuel Htext;
    [now contradiction Hne|].
  inversion Hall as [|? ? Hv Hd]; subst. cbn [snd] in Hv.
  destruct fuel as [|fuel]; [lia|].
  rewrite scan_object_unfold.
  destruct d as [|[k' v'] d].
  - cbn [map String.concat] in *.
    rewrite render_item_text in Htext. injection Htext as <-.
    unfold render_item in Hfuel. cbn [fst snd] in Hfuel. rewrite !length_append in Hfuel.
    rewrite scanstring_escape_body.
    cbn [bind skip_ws]. change (is_ws ":") with false. cbn iota.
    change (code ":" =? 58) with true. cbn iota.
    cbn [skip_ws]. change (is_ws " ") with true. cbn iota.
    rewrite skip_ws_encode.
    rewrite (Hv level fuel _ ltac:(lia) (ends_value_brace rest)).
    cbn [bind skip_ws]. change (is_ws "}") with false. cbn iota.
    change (code "}" =? 125) with true. cbn iota.
    cbn [rev]. reflexivity.
  - change (String.concat ", " (map (render_item level) ((k, v) :: (k', v') :: d)))
      with (render_item level (k, v) ++ ", "
              ++ String.concat ", " (map (render_item level) ((k', v') :: d)))%string in *.
    remember (String.concat ", " (map (render_item level) ((k', v') :: d))) as items eqn:Hitems.
    rewrite !append_assoc, render_item_text in Htext. injection Htext as <-.
    unfold render_item at 1 in Hfuel. cbn [fst snd] in Hfuel.
    rewrite !length_append in Hfuel. cbn [String.length] in Hfuel.
    rewrite scanstring_escape_body.
    cbn [bind skip_ws]. change (is_ws ":") with false. cbn iota.
    change (code ":" =? 58) with true. cbn iota.
    cbn [skip_ws]. change (is_ws " ") with true. cbn iota.
    rewrite skip_ws_encode.
    cbn [append].
    rewrite (Hv level fuel _ ltac:(lia) (ends_value_comma _)).
    cbn [bind skip_ws]. change (is_ws ",") with false. cbn iota.
    change (code "," =? 125) with false. change (code "," =? 44) with true. cbn iota.
    cbn [skip_ws]. change (is_ws " ") with true. cbn iota.
    destruct (items_text level k' v' d (String "}" rest)) as [tail' Htail].
    rewrite <- Hitems in Htail. rewrite Htail. cbn [skip_ws]. change (is_ws quote_char) with false. cbn iota.
    change (code quote_char =? 34) with true. cbn iota.
    subst items.
    rewrite (IH ((k, v) :: acc) fuel rest tail' ltac:(discriminate) Hd ltac:(lia) Htail).
    cbn [rev]. now rewrite <- app_assoc.
Qed.

Lemma dict_mem_in (key : string) : forall d : pydict,
  dict_mem key d = true -> In key (map fst d).
Proof.
  induction d as [|[k v] d IH]; cbn [dict_mem map fst In]; [discriminate|].
  destruct (String.eqb_spec k key) as [->|_]; cbn [orb]; [now left | right; now apply IH].
Qed.

Lemma dict_set_fresh (key : string) (v : json) (d : pydict) :
  ~ In key (map fst d) -> dict_set key v d = d ++ [(key, v)].
Proof.
  intros Hfresh. unfold dict_set.
  destruct (dict_mem key d) eqn:Hmem; [|reflexivity].
  now apply dict_mem_in in Hmem.
Qed.

(** [dict(pairs)] of pairs with distinct keys is those pairs, in order. *)
Lemma dict_of_pairs_distinct : forall (pairs acc : list (string * json)),
  NoDup (map fst (acc ++ pairs)) ->
  fold_left (fun d kv => dict_set (fst kv) (snd kv) d) pairs acc = acc ++ pairs.
Proof.
  induction pairs as [|[k v] pairs IH]; intros acc Hdistinct; cbn [fold_left fst snd].
  - now rewrite app_nil_r.
  - rewrite dict_set_fresh.
    + rewrite IH; rewrite <- app_assoc; [reflexivity | exact Hdistinct].
    + rewrite map_app in Hdistinct. cbn [map fst] in Hdistinct.
      apply NoDup_remove_2 in Hdistinct.
      intros Hin. apply Hdistinct. apply in_or_app. now left.
Qed.

Lemma encode_list_text (level : nat) (x : json) (l : list json) (rest : string) :
  (encode false None level (JList (x :: l)) ++ rest)%string
  = String "[" (String.concat ", " (map (encode false None (S level)) (x :: l))
                  ++ String "]" rest).
Proof.
  change (encode false None level (JList (x :: l)))
    with ("[" ++ newline_indent None (S level)
              ++ String.concat (item_separator None (S level))
                   (map (encode false None (S level)) (x :: l))
              ++ newline_indent None level ++ "]")%string.
  cbn [newline_indent item_separator append].
  rewrite append_assoc. reflexivity.
Qed.

Lemma encode_dict_text (level : nat) (kv : string * json) (d : list (string * json))
  (rest : string) :
  (encode false None level (JDict (kv :: d)) ++ rest)%string
  = String "{" (String.concat ", " (map (render_item (S level)) (kv :: d))
                  ++ String "}" rest).
Proof.
  change (encode false None level (JDict (kv :: d)))
    with ("{" ++ newline_indent None (S level)
              ++ String.concat (item_separator None (S level))
                   (map (fun it : string * string => encode_str (fst it) ++ ": " ++ snd it)
                      (map (fun it : string * json =>
                              (fst it, encode false None (S level) (snd it))) (kv :: d)))
              ++ newline_indent None level ++ "}")%string.
  rewrite map_map. cbn [newline_indent item_separator append fst snd].
  rewrite append_assoc. reflexivity.
Qed.

Lemma elements_head (level : nat) (x : json) (l : list json) (t : string) :
  exists c r,
    (String.concat ", " (map (encode false None level) (x :: l)) ++ t)%string = String c r
    /\ is_ws c = false /\ code c <> 93.
Proof.
  destruct (encode_head x level) as (c & tail & Htext & Hws & Hc).
  destruct l as [|y l]; cbn [map String.concat]; rewrite ?append_assoc, Htext;
    cbn [append]; eexists; eexists; (split; [reflexivity | now split]).
Qed.

(** [json.loads] undoes [json.dumps]: every value is read back from its
    text, whatever follows it in a document. *)
Lemma encode_decodes_back (v : json) : well_formed v -> decodes_back v.
Proof.
  induction v as [ | b | z | s | l IH | d IH ] using json_induction;
    intros Hwf level fuel rest Hfuel Hends.
  - destruct fuel as [|fuel]; [cbn in Hfuel; lia|].
    destruct rest; reflexivity.
  - destruct b; (destruct fuel as [|fuel]; [cbn in Hfuel; lia|]);
      destruct rest; reflexivity.
  - cbn [encode] in *.
    destruct fuel as [|fuel].
    + destruct (string_of_Z_head z) as (c & tail & Htext & _).
      rewrite Htext in Hfuel. cbn in Hfuel. lia.
    + now apply scan_once_number.
  - cbn [encode] in *. unfold encode_str in *. cbn [append] in *.
    destruct fuel as [|fuel]; [cbn in Hfuel; lia|].
    rewrite append_assoc. cbn [append].
    change (scan_once (S fuel) (String quote_char (escape_body s ++ String quote_char rest)))
      with ('(str, r) <- scanstring (escape_body s ++ String quote_char rest) ;;
            Ok (JStr str, r)).
    now rewrite scanstring_escape_body.
  - inversion Hwf as [ | | | | ? Hall | ]; subst.
    destruct l as [|x l].
    + destruct fuel as [|fuel]; [cbn in Hfuel; lia | reflexivity].
    + assert (Hlen : (String.length (String.concat ", "
                         (map (encode false None (S level)) (x :: l))) + 2
                      <= fuel)%nat).
      { rewrite <- (append_empty (encode false None level (JList (x :: l)))) in Hfuel.
        rewrite encode_list_text in Hfuel. cbn [String.length] in Hfuel.
        rewrite length_append in Hfuel. cbn [String.length] in Hfuel. lia. }
      rewrite encode_list_text.
      destruct fuel as [|fuel]; [lia|].
      rewrite scan_once_bracket.
      destruct (elements_head (S level) x l (String "]" rest)) as (c & r & Htext & Hws & Hc).
      rewrite Htext. cbn [skip_ws]. rewrite Hws.
      rewrite (proj2 (Z.eqb_neq _ _) Hc). rewrite <- Htext.
      apply (scan_array_elements (S level) (x :: l) [] fuel rest); [discriminate| |lia].
      rewrite Forall_forall in *. intros y Hy. apply IH; [exact Hy | now apply Hall].
  - inversion Hwf as [ | | | | | ? Hdistinct Hall ]; subst.
    destruct d as [|[k v] d].
    + destruct fuel as [|fuel]; [cbn in Hfuel; lia | reflexivity].
    + assert (Hlen : (String.length (String.concat ", "
                         (map (render_item (S level)) ((k, v) :: d))) + 2
                      <= fuel)%nat).
      { rewrite <- (append_empty (encode false None level (JDict ((k, v) :: d)))) in Hfuel.
        rewrite encode_dict_text in Hfuel. cbn [String.length] in Hfuel.
        rewrite length_append in Hfuel. cbn [String.length] in Hfuel. lia. }
      rewrite encode_dict_text.
      destruct fuel as [|fuel]; [lia|].
      rewrite scan_once_brace.
      destruct (items_text (S level) k v d (String "}" rest)) as [tail Htail].
      rewrite Htail. cbn [skip_ws]. change (is_ws quote_char) with false. cbn iota.
      change (code quote_char =? 125) with false.
      change (code quote_char =? 34) with true. cbn iota.
      rewrite (scan_object_items (S level) ((k, v) :: d) [] fuel rest tail);
        [ | discriminate | | lia | exact Htail ].
      * cbn [rev app]. unfold dict_of_pairs.
        now rewrite (dict_of_pairs_distinct ((k, v) :: d) []).
      * rewrite Forall_forall in *. intros kv Hkv. apply IH; [exact Hkv | now apply Hall].
Qed.

Lemma json_loads_dumps (v : json) :
  well_formed v -> json_loads (json_dumps false None v) = Ok v.
Proof.
  intros Hwf. unfold json_loads, json_dumps.
  pose proof (encode_decodes_back v Hwf 0%nat
                (2 * String.length (encode false None 0 v) + 2)%nat ""
                ltac:(lia) ends_value_empty) as Hscan.
  pose proof (skip_ws_encode v 0 "") as Hskip.
  rewrite append_empty in Hscan, Hskip. rewrite Hskip, Hscan. reflexivity.
Qed.

(** ** Verifying what a call has stored *)

(** A call that returns a block over a database that can be reached has
    done one INSERT. *)
Lemma add_order_inserts fuel clock order_data chain_before d b st' :
  available d = true ->
  add_order_to_blockchain fuel clock order_data (mkState chain_before d)
    = Some (Some b, st') ->
  exists h oid,
    mine_block fuel (candidate clock order_data d) default_difficulty = Some (Ok h)
    /\ b = candidate clock order_data d ++ [("hash", JStr h)]
    /\ db st' = insert_row (sql_now clock) oid (tip_hash d) h
                  (json_dumps false None order_data) d.
Proof.
  intros Ha Hrun.
  destruct (add_order_returns _ _ _ _ _ _ Hrun) as (h & flag & Hmine & -> & Hstore & _).
  cbn [db] in *. unfold candidate in Hstore.
  destruct (store_block_available _ _ _ _ _ _ _ _ _ Ha Hstore) as (v & oid & _ & _ & _ & Hdb).
  exists h, oid. auto.
Qed.

Lemma recompute_hash_stored new_id oid prev h data time :
  well_formed data ->
  recompute_hash (mkRow new_id oid prev h (json_dumps false None data) time)
  = Ok (calculate_hash (JDict (make_block new_id time data prev))).
Proof.
  intros Hwf. unfold recompute_hash. cbn [block_data timestamp id previous_hash].
  now rewrite (json_loads_dumps data Hwf).
Qed.

Lemma check_block_issues prev block h :
  recompute_hash block = Ok h ->
  forall e, ~ In (BlockDataParsingError e) (issues (check_block prev block)).
Proof.
  intros Hre e. unfold check_block. rewrite Hre.
  destruct (negb (String.eqb (previous_hash block) prev));
    destruct (negb (String.eqb h (current_hash block)));
    cbn [issues app In]; intuition discriminate.
Qed.

(** X12. What [store_block_in_db] writes in block_data is read back by the
    check as the payload the call was given: the row of an appended order
    never gets a parsing error, and the hash recomputed for it is that of
    the block with the row's id, SQLite's timestamp, the payload, the hash
    of the tip and nonce 0. *)
Theorem stored_payload_decodes (fuel : nat) (clock : Clock) (order_data : json)
  (chain_before : list pydict) (d : Database) (b : pydict) (st' : State) :
  available d = true ->
  well_formed order_data ->
  add_order_to_blockchain fuel clock order_data (mkState chain_before d)
    = Some (Some b, st') ->
  exists row,
    table (db st') = table d ++ [row]
    /\ json_loads (block_data row) = Ok order_data
    /\ recompute_hash row
       = Ok (calculate_hash
               (JDict (make_block (id row) (sql_now clock) order_data (tip_hash d))))
    /\ forall prev e, ~ In (BlockDataParsingError e) (issues (check_block prev row)).
Proof.
  intros Ha Hwf Hrun.
  destruct (add_order_inserts _ _ _ _ _ _ _ Ha Hrun) as (h & oid & _ & _ & Hdb).
  rewrite Hdb. unfold insert_row. cbn [table].
  eexists. split; [reflexivity|]. cbn [block_data id].
  split; [now apply json_loads_dumps|].
  split; [now apply recompute_hash_stored|].
  intros prev e. eapply check_block_issues. now apply recompute_hash_stored.
Qed.

Lemma stored_payload_decodes_witness :
  exists row,
    table (db after_2) = [row]
    /\ json_loads (block_data row) = Ok order_2.
Proof.
  assert (Hrun : add_order_to_blockchain 4 lunchtime order_2 (mkState [] (mkDatabase true [] 0))
                 = Some (Some block_2, mkState [block_2] (db after_2)))
    by (vm_compute; reflexivity).
  assert (Hwf : well_formed order_2) by (unfold order_2; well_formed_value).
  destruct (stored_payload_decodes 4 lunchtime order_2 [] (mkDatabase true [] 0) block_2
              (mkState [block_2] (db after_2)) eq_refl Hwf Hrun)
    as (row & Htable & Hloads & _).
  exists row. split; [exact Htable | exact Hloads].
Defined.

Lemma intact_snoc : forall rows prev r,
  intact prev (rows ++ [r])
  <-> intact prev rows
      /\ previous_hash r = last_hash prev rows
      /\ recompute_hash r = Ok (current_hash r).
Proof.
  induction rows as [|a rows IH]; intros prev r; cbn [app intact].
  - unfold last_hash. cbn [rev]. tauto.
  - rewrite IH.
    assert (Hlast : last_hash prev (a :: rows) = last_hash (current_hash a) rows).
    { unfold last_hash. cbn [rev]. destruct (rev rows) as [|x l]; reflexivity. }
    rewrite Hlast. tauto.
Qed.

(** The counters of a table built by appends. *)
Lemma built_counters d :
  built d ->
  Z.max (sequence d) (max_id (table d)) + 1 = next_index d.
Proof.
  intros Hbuilt.
  destruct (built_invariant d Hbuilt) as (Ha & Hseq & Hids & Hsorted & _ & _).
  assert (Hbound : forall r, In r (table d) -> id r <= Z.of_nat (List.length (table d))).
  { intros r Hr. apply (in_map id) in Hr. rewrite Hids in Hr.
    apply in_map_iff in Hr as (n & <- & Hn). apply in_seq in Hn. lia. }
  pose proof (max_id_le (Z.of_nat (List.length (table d))) (table d) ltac:(lia) Hbound) as Hmax.
  destruct (tip_hash_sorted d Ha Hsorted) as [_ ->].
  assert (Hlast : match rev (table d) with [] => 1 | r :: _ => id r + 1 end
                  = Z.of_nat (List.length (table d)) + 1).
  { destruct (table d) as [|a l] eqn:Htable using rev_ind; [reflexivity|].
    rewrite rev_app_distr. cbn [rev app].
    rewrite map_app, length_app in Hids. cbn [map List.length] in Hids.
    replace (List.length l + 1)%nat with (S (List.length l)) in Hids by lia.
    rewrite seq_S, map_app in Hids. cbn [map] in Hids.
    apply app_inj_tail in Hids as [_ Hid]. rewrite length_app. cbn [List.length]. lia. }
  lia.
Qed.

(** X13. Over a verified table built by appends, the block a call appends
    passes the check exactly when the block rebuilt with SQLite's timestamp
    and nonce 0 hashes to the hash that was mined. It does when the two
    clocks print alike and the first nonce tried wins. *)
Theorem appended_block_verifies_iff (fuel : nat) (clock : Clock) (order_data : json)
  (chain_before : list pydict) (d : Database) (b : pydict) (st' : State) :
  built d ->
  well_formed order_data ->
  fst (verify_blockchain_integrity d) = true ->
  add_order_to_blockchain fuel clock order_data (mkState chain_before d)
    = Some (Some b, st') ->
  exists h,
    dict_get "hash" b = Some (JStr h)
    /\ (fst (verify_blockchain_integrity (db st')) = true
        <-> calculate_hash
              (JDict (make_block (next_index d) (sql_now clock) order_data (tip_hash d)))
            = h)
    /\ (py_now clock = sql_now clock ->
        nonce_wins (next_index d) (py_now clock) order_data (tip_hash d)
          default_difficulty 0 = true ->
        fst (verify_blockchain_integrity (db st')) = true).
Proof.
  intros Hbuilt Hwf Hverified Hrun.
  pose proof (built_append _ _ _ _ _ _ _ Hbuilt Hrun) as Hbuilt'.
  destruct (built_invariant d Hbuilt) as (Ha & _ & _ & Hsorted & _ & _).
  destruct (built_invariant (db st') Hbuilt') as (Ha' & _ & _ & Hsorted' & _ & _).
  destruct (add_order_inserts _ _ _ _ _ _ _ Ha Hrun) as (h & oid & Hmine & -> & Hdb).
  assert (Hiff : fst (verify_blockchain_integrity (db st')) = true
                 <-> calculate_hash
                       (JDict (make_block (next_index d) (sql_now clock) order_data
                                 (tip_hash d)))
                     = h).
  { rewrite (verify_true_when (db st') Ha'), Hsorted'.
    apply (verify_true_when d Ha) in Hverified. rewrite Hsorted in Hverified.
    rewrite Hdb. unfold insert_row. cbn [table].
    rewrite intact_snoc. cbn [previous_hash current_hash].
    rewrite (recompute_hash_stored _ _ _ _ _ _ Hwf), (built_counters d Hbuilt).
    destruct (tip_hash_sorted d Ha Hsorted) as [Htip _].
    split.
    - intros (_ & _ & Hhash). now injection Hhash.
    - intros Hhash. split; [exact Hverified|]. split; [exact Htip | now rewrite Hhash]. }
  exists h. split; [apply candidate_fields|]. split; [exact Hiff|].
  intros Hclocks Hwins. apply Hiff. rewrite <- Hclocks.
  unfold mine_block in Hmine. destruct fuel as [|fuel]; [discriminate|].
  rewrite mine_loop_unfold in Hmine.
  unfold nonce_wins in Hwins.
  change (block_at (next_index d) (py_now clock) order_data (tip_hash d) 0)
    with (candidate clock order_data d) in Hwins.
  rewrite Hwins in Hmine. injection Hmine as <-. reflexivity.
Qed.

Lemma appended_block_verifies_iff_witness :
  fst (verify_blockchain_integrity (db after_571)) = true.
Proof.
  assert (Hrun : add_order_to_blockchain 1 noon order_571
                   (mkState (chain started) (mkDatabase true [] 0))
                 = Some (Some block_571, after_571))
    by (vm_compute; reflexivity).
  assert (Hwf : well_formed order_571) by (unfold order_571; well_formed_value).
  assert (Hverified : fst (verify_blockchain_integrity (mkDatabase true [] 0)) = true)
    by reflexivity.
  destruct (appended_block_verifies_iff 1 noon order_571 (chain started)
              (mkDatabase true [] 0) block_571 after_571 built_empty Hwf Hverified Hrun)
    as (h & _ & _ & Hlucky).
  apply Hlucky; vm_compute; reflexivity.
Defined.

(** ** Rewriting the hash columns *)

Lemma recompute_hash_reads block block' :
  id block' = id block ->
  previous_hash block' = previous_hash block ->
  block_data block' = block_data block ->
  timestamp block' = timestamp block ->
  recompute_hash block' = recompute_hash block.
Proof. unfold recompute_hash. now intros -> -> -> ->. Qed.

Lemma reseal_keeps : forall blocks prev,
  map id (reseal prev blocks) = map id blocks
  /\ map order_id (reseal prev blocks) = map order_id blocks
  /\ map block_data (reseal prev blocks) = map block_data blocks
  /\ map timestamp (reseal prev blocks) = map timestamp blocks.
Proof.
  induction blocks as [|block rest IH]; intros prev; cbn [reseal map].
  - repeat split.
  - match goal with |- context [reseal ?h rest] => destruct (IH h) as (H1 & H2 & H3 & H4) end.
    cbn [id order_id block_data timestamp]. rewrite H1, H2, H3, H4. repeat split.
Qed.

Lemma reseal_intact : forall blocks prev,
  (forall r, In r blocks -> exists v, json_loads (block_data r) = Ok v) ->
  intact prev (reseal prev blocks).
Proof.
  induction blocks as [|block rest IH]; intros prev Hdecode; cbn [reseal intact]; [exact I|].
  destruct (Hdecode block ltac:(now left)) as [v Hv].
  set (relinked := mkRow (id block) (order_id block) prev (current_hash block)
                     (block_data block) (timestamp block)).
  assert (Hre : exists h, recompute_hash relinked = Ok h).
  { unfold recompute_hash, relinked. cbn [block_data]. rewrite Hv. eexists; reflexivity. }
  destruct Hre as [h Hre]. rewrite Hre. cbn [previous_hash current_hash].
  split; [reflexivity|]. split.
  - rewrite <- Hre. now apply recompute_hash_reads.
  - apply IH. intros r Hr. apply Hdecode. now right.
Qed.

Lemma sorted_order_by_id : forall rows,
  StronglySorted id_le rows -> order_by_id rows = rows.
Proof.
  induction rows as [|a rows IH]; intros Hs; [reflexivity|].
  inversion Hs as [|? ? Hs' Hall]; subst. cbn [order_by_id]. rewrite (IH Hs').
  destruct rows as [|b rows]; [reflexivity|]. cbn [insert_by_id].
  inversion Hall as [|? ? Hab _]; subst. unfold id_le in Hab.
  now rewrite (proj2 (Z.leb_le _ _) Hab).
Qed.

Lemma sorted_by_ids : forall rows rows',
  map id rows = map id rows' ->
  StronglySorted id_le rows -> StronglySorted id_le rows'.
Proof.
  induction rows as [|a rows IH]; intros [|a' rows'] Hids Hs; try discriminate;
    [constructor|].
  cbn [map] in Hids. injection Hids as Ha Hrest.
  inversion Hs as [|? ? Hs' Hall]; subst.
  constructor; [now apply IH|].
  rewrite Forall_forall in *. intros r' Hr'.
  apply (in_map id) in Hr'. rewrite <- Hrest in Hr'.
  apply in_map_iff in Hr' as (r & Hid & Hr). specialize (Hall r Hr).
  unfold id_le in *. lia.
Qed.

(** X14. The check compares stored values with each other only: no stored
    hash is tested for leading zeros and nothing outside the table anchors
    it. So whoever can write the table can make any rows pass: with the two
    hash columns rewritten in id order, every table whose payloads are JSON
    is verified, every id, order_id, payload and timestamp as it stood. *)
Theorem resealed_table_verifies (d : Database) :
  available d = true ->
  order_by_id (table d) = table d ->
  (forall r, In r (table d) -> exists v, json_loads (block_data r) = Ok v) ->
  fst (verify_blockchain_integrity (resealed d)) = true
  /\ map id (table (resealed d)) = map id (table d)
  /\ map order_id (table (resealed d)) = map order_id (table d)
  /\ map block_data (table (resealed d)) = map block_data (table d)
  /\ map timestamp (table (resealed d)) = map timestamp (table d).
Proof.
  intros Ha Hsorted Hdecode.
  split; [|apply reseal_keeps].
  apply verify_true_when; [exact Ha|]. unfold resealed. cbn [table].
  rewrite sorted_order_by_id; [now apply reseal_intact|].
  apply (sorted_by_ids (table d)); [symmetry; apply reseal_keeps|].
  rewrite <- Hsorted. apply order_by_id_sorted.
Qed.

Lemma resealed_table_verifies_witness :
  fst (verify_blockchain_integrity (db after_2)) = false
  /\ fst (verify_blockchain_integrity resealed_after_2) = true
  /\ Forall (fun r => String.prefix "00" (current_hash r) = false) (table resealed_after_2).
Proof.
  assert (Hdecode : forall r, In r (table (db after_2)) ->
                    exists v, json_loads (block_data r) = Ok v).
  { intros r [<- | []]. eexists. vm_compute. reflexivity. }
  destruct (resealed_table_verifies (db after_2) eq_refl eq_refl Hdecode) as (Hverdict & _).
  split; [vm_compute; reflexivity|]. split.
  - replace resealed_after_2 with (resealed (db after_2)) by (vm_compute; reflexivity).
    exact Hverdict.
  - repeat constructor.
Defined.

(** ** Appending after a deletion *)

(** X15. AUTOINCREMENT does not reuse an id, while the index of a new
    block is read off the tip. After the newest rows of a table built by
    appends are deleted, those with an id from [k] on, the next block gets
    index [k], but its row the id after the largest ever given: from then
    on the check, which takes the index from the id, rebuilds a block that
    was never mined. *)
Theorem index_drifts_after_delete (fuel : nat) (clock : Clock) (order_data : json)
  (chain_before : list pydict) (d : Database) (k : Z) (b : pydict) (st' : State) :
  built d ->
  1 <= k <= Z.of_nat (List.length (table d)) ->
  add_order_to_blockchain fuel clock order_data (mkState chain_before (delete_from k d))
    = Some (Some b, st') ->
  exists row,
    table (db st') = table (delete_from k d) ++ [row]
    /\ dict_get "index" b = Some (JInt k)
    /\ id row = Z.of_nat (List.length (table d)) + 1
    /\ dict_get "hash" b = Some (JStr (current_hash row)).
Proof.
  intros Hbuilt Hk Hrun.
  destruct (built_invariant d Hbuilt) as (Ha & Hseq & Hids & _ & _ & _).
  assert (Ha' : available (delete_from k d) = true) by exact Ha.
  destruct (add_order_inserts _ _ _ _ _ _ _ Ha' Hrun) as (h & oid & _ & -> & Hdb).
  rewrite Hdb. unfold insert_row. cbn [table].
  eexists. split; [reflexivity|]. cbn [id current_hash].
  assert (Hbound : forall r, In r (table d) -> 1 <= id r <= Z.of_nat (List.length (table d))).
  { intros r Hr. apply (in_map id) in Hr. rewrite Hids in Hr.
    apply in_map_iff in Hr as (n & <- & Hn). apply in_seq in Hn. lia. }
  assert (Hhas : forall i, 1 <= i <= Z.of_nat (List.length (table d)) ->
                 exists r, In r (table d) /\ id r = i).
  { intros i Hi.
    assert (Hin : In i (map id (table d))).
    { rewrite Hids. apply in_map_iff. exists (Z.to_nat i). split; [lia|].
      apply in_seq. lia. }
    apply in_map_iff in Hin as (r & Hid & Hr). now exists r. }
  split; [|split; [|reflexivity]].
  - change (Some (JInt (next_index (delete_from k d))) = Some (JInt k)).
    f_equal. f_equal. unfold next_index.
    destruct (get_latest_block (delete_from k d)) as [tip|] eqn:Htip.
    + destruct (get_latest_block_max _ _ Htip) as [Hin Hmax].
      cbn [delete_from table] in Hin, Hmax.
      apply filter_In in Hin as [Hin Hlt]. apply Z.ltb_lt in Hlt.
      pose proof (Hbound _ Hin) as Htipb.
      destruct (Hhas (k - 1) ltac:(lia)) as (r & Hr & Hid).
      assert (Hkeep : In r (filter (fun r => id r <? k) (table d))).
      { apply filter_In. split; [exact Hr|]. apply Z.ltb_lt. lia. }
      specialize (Hmax r Hkeep). lia.
    + destruct (Z.eq_dec k 1) as [->|Hk1]; [reflexivity|].
      destruct (Hhas (k - 1) ltac:(lia)) as (r & Hr & Hid).
      assert (Hkeep : In r (table (delete_from k d))).
      { cbn [delete_from table]. apply filter_In. split; [exact Hr|]. apply Z.ltb_lt. lia. }
      destruct (get_latest_block_nonempty (delete_from k d) Ha') as [tip Htip'].
      { intros Hempty. rewrite Hempty in Hkeep. contradiction. }
      congruence.
  - cbn [delete_from sequence table]. rewrite Hseq.
    assert (Hmax : max_id (filter (fun r => id r <? k) (table d))
                   <= Z.of_nat (List.length (table d))).
    { apply max_id_le; [lia|]. intros r Hr. apply filter_In in Hr as [Hr _].
      specialize (Hbound r Hr). lia. }
    lia.
Qed.

Lemma built_after_571 : built (db after_571).
Proof.
  apply (built_append 1 noon order_571 (chain started) (mkDatabase true [] 0)
           (Some block_571) after_571 built_empty).
  vm_compute. reflexivity.
Qed.

Lemma index_drifts_after_delete_witness :
  exists row,
    table (db after_again) = [row]
    /\ dict_get "index" block_again = Some (JInt 1)
    /\ id row = 2.
Proof.
  assert (Hrun : add_order_to_blockchain 1 noon order_571
                   (mkState [] (delete_from 1 (db after_571)))
                 = Some (Some block_again, after_again))
    by (vm_compute; reflexivity).
  destruct (index_drifts_after_delete 1 noon order_571 [] (db after_571) 1 block_again
              after_again built_after_571 ltac:(cbn; lia) Hrun)
    as (row & Htable & Hindex & Hid & _).
  exists row. split; [exact Htable|]. split; [exact Hindex | exact Hid].
Defined.

(** ** After a failed check *)

(** X16. Appending repairs nothing: once a table built by appends fails
    the check, it fails it after every further call of
    [add_order_to_blockchain], whatever is appended. *)
Theorem failed_verdict_is_permanent (fuel : nat) (clock : Clock) (order_data : json)
  (chain_before : list pydict) (d : Database) (result : option pydict) (st' : State) :
  built d ->
  fst (verify_blockchain_integrity d) = false ->
  add_order_to_blockchain fuel clock order_data (mkState chain_before d)
    = Some (result, st') ->
  fst (verify_blockchain_integrity (db st')) = false.
Proof.
  intros Hbuilt Hfailed Hrun.
  pose proof (built_append _ _ _ _ _ _ _ Hbuilt Hrun) as Hbuilt'.
  destruct (built_invariant d Hbuilt) as (Ha & _ & _ & Hsorted & _ & _).
  destruct (built_invariant (db st') Hbuilt') as (Ha' & _ & _ & Hsorted' & _ & _).
  destruct (add_order_database _ _ _ _ _ _ _ Ha Hrun) as [-> | (h & oid & _ & _ & Hdb)];
    [exact Hfailed|].
  destruct (fst (verify_blockchain_integrity (db st'))) eqn:Hverdict; [|reflexivity].
  apply (verify_true_when (db st') Ha') in Hverdict. rewrite Hsorted' in Hverdict.
  rewrite Hdb in Hverdict. unfold insert_row in Hverdict. cbn [table] in Hverdict.
  apply intact_prefix in Hverdict. rewrite <- Hsorted in Hverdict.
  apply (verify_true_when d Ha) in Hverdict. congruence.
Qed.

Lemma failed_verdict_is_permanent_witness :
  List.length (table (db after_61_after_2)) = 2%nat
  /\ fst (verify_blockchain_integrity (db after_61_after_2)) = false.
Proof.
  split; [reflexivity|].
  apply (failed_verdict_is_permanent 5 noon order_61 (chain after_2) (db after_2)
           (match run_61_after_2 with Some (b, _) => b | None => None end)
           after_61_after_2 built_after_2);
    vm_compute; reflexivity.
Defined.

(** ** Statements on their way to SQLite *)

Lemma contains_tail p c s : contains p (String c s) = false -> contains p s = false.
Proof. cbn [contains]. intros H. apply orb_false_iff in H. tauto. Qed.

Lemma contains_head p s : contains p s = false -> String.prefix p s = false.
Proof. destruct s; cbn [contains]; intros H; apply orb_false_iff in H; tauto. Qed.

Lemma contains_drop p : forall n s, contains p s = false -> contains p (drop n s) = false.
Proof.
  induction n as [|n IH]; intros [|c s] H; cbn [drop]; try exact H.
  apply IH. now apply contains_tail in H.
Qed.

Lemma length_drop : forall n s, (String.length (drop n s) <= String.length s - n)%nat.
Proof.
  induction n as [|n IH]; intros [|c s]; cbn [drop String.length]; try lia.
  specialize (IH s). lia.
Qed.

(** Nothing to replace, nothing changed. *)
Lemma replace_loop_absent old new : forall fuel s,
  contains old s = false -> replace_loop fuel old new s = s.
Proof.
  induction fuel as [|fuel IH]; intros [|c s] Habsent; cbn [replace_loop]; try reflexivity.
  rewrite (contains_head _ _ Habsent). f_equal. apply IH.
  now apply contains_tail in Habsent.
Qed.

Lemma py_replace_absent old new s : contains old s = false -> py_replace old new s = s.
Proof.
  intros Habsent. destruct old as [|c old].
  - destruct s; discriminate Habsent.
  - apply replace_loop_absent. exact Habsent.
Qed.

(** X17. A statement in which none of the five MySQL spellings occurs
    reaches SQLite as it was written. *)
Theorem plain_statement_unchanged (query : string) :
  contains "%s" query = false ->
  contains "TRUE" query = false ->
  contains "FALSE" query = false ->
  contains "NOW()" query = false ->
  contains "CURDATE()" query = false ->
  _normalize_query query = query.
Proof.
  intros Hs Ht Hf Hn Hc. unfold _normalize_query.
  now rewrite (py_replace_absent "%s" "?" query Hs), (py_replace_absent "TRUE" "1" query Ht),
    (py_replace_absent "FALSE" "0" query Hf),
    (py_replace_absent "NOW()" "CURRENT_TIMESTAMP" query Hn),
    (py_replace_absent "CURDATE()" "DATE('now')" query Hc).
Qed.

Lemma plain_statement_unchanged_witness :
  _normalize_query select_latest = select_latest
  /\ _normalize_query select_all = select_all
  /\ _normalize_query insert_block = insert_block.
Proof.
  split; [|split].
  - apply (plain_statement_unchanged select_latest); vm_compute; reflexivity.
  - apply (plain_statement_unchanged select_all); vm_compute; reflexivity.
  - apply (plain_statement_unchanged insert_block); vm_compute; reflexivity.
Defined.

Lemma prefix_cons a p b s :
  String.prefix (String a p) (String b s) = true <-> a = b /\ String.prefix p s = true.
Proof.
  cbn [String.prefix]. destruct (ascii_dec a b) as [->|Hne]; [tauto|].
  split; [discriminate | intros [H _]; now contradiction Hne].
Qed.

Lemma prefix_empty s : String.prefix "" s = true.
Proof. now destruct s. Qed.

(** The text put in place of an occurrence brings in no placeholder. *)
Lemma contains_placeholder_append : forall new s,
  contains "%" new = false ->
  contains "%s" s = false ->
  contains "%s" (new ++ s) = false.
Proof.
  induction new as [|a new IH]; intros s Hnew Hs; cbn [append]; [exact Hs|].
  cbn [contains]. apply orb_false_iff. split.
  - apply contains_head in Hnew.
    destruct (String.prefix "%s" (String a (new ++ s))) eqn:Hp; [|reflexivity].
    apply prefix_cons in Hp as [<- _].
    rewrite (proj2 (prefix_cons "%" "" "%" new) (conj eq_refl (prefix_empty new))) in Hnew.
    discriminate Hnew.
  - apply IH; [now apply contains_tail in Hnew | exact Hs].
Qed.

(** Replacing the placeholders leaves none. *)
Lemma replace_placeholders : forall fuel s,
  (String.length s <= fuel)%nat ->
  contains "%s" (replace_loop fuel "%s" "?" s) = false
  /\ (String.prefix "s" (replace_loop fuel "%s" "?" s) = true -> String.prefix "s" s = true).
Proof.
  induction fuel as [|fuel IH]; intros [|c s] Hfuel; cbn [replace_loop String.length] in *;
    try lia; try (split; [reflexivity | discriminate]).
  destruct (String.prefix "%s" (String c s)) eqn:Hmatch.
  - pose proof (length_drop 2 (String c s)) as Hdrop. cbn [String.length] in Hdrop.
    destruct (IH (drop 2 (String c s)) ltac:(cbn [String.length]; lia)) as [Hnone _].
    split; [|discriminate].
    cbn [append contains]. apply orb_false_iff. split; [reflexivity | exact Hnone].
  - destruct (IH s ltac:(lia)) as [Hnone Hhead]. split.
    + cbn [contains]. apply orb_false_iff. split; [|exact Hnone].
      destruct (String.prefix "%s" (String c (replace_loop fuel "%s" "?" s))) eqn:Hp;
        [|reflexivity].
      apply prefix_cons in Hp as [<- Hp]. apply Hhead in Hp.
      rewrite (proj2 (prefix_cons "%" "s" "%" s) (conj eq_refl Hp)) in Hmatch.
      discriminate Hmatch.
    + intros Hp. apply prefix_cons in Hp as [<- _].
      apply prefix_cons. split; [reflexivity | apply prefix_empty].
Qed.

(** A later replacement brings none back. *)
Lemma replace_keeps_placeholders_out (old new : string) :
  (0 < String.length old)%nat ->
  contains "%" new = false ->
  String.prefix "s" new = false ->
  new <> "" ->
  forall fuel s,
    (String.length s <= fuel)%nat ->
    contains "%s" s = false ->
    contains "%s" (replace_loop fuel old new s) = false
    /\ (String.prefix "s" (replace_loop fuel old new s) = true -> String.prefix "s" s = true).
Proof.
  intros Hold Hnew Hfirst Hnonempty.
  induction fuel as [|fuel IH]; intros [|c s] Hfuel Habsent;
    cbn [replace_loop String.length] in *;
    try lia; try (split; [reflexivity | discriminate]).
  destruct (String.prefix old (String c s)) eqn:Hmatch.
  - pose proof (length_drop (String.length old) (String c s)) as Hdrop.
    cbn [String.length] in Hdrop.
    destruct (IH (drop (String.length old) (String c s)) ltac:(lia)
                (contains_drop _ _ _ Habsent)) as [Hnone _].
    split; [now apply contains_placeholder_append|].
    destruct new as [|a new]; [now contradiction Hnonempty|].
    cbn [append]. intros Hp. apply prefix_cons in Hp as [<- _].
    rewrite (proj2 (prefix_cons "s" "" "s" new) (conj eq_refl (prefix_empty new))) in Hfirst.
    discriminate Hfirst.
  - destruct (IH s ltac:(lia) (contains_tail _ _ _ Habsent)) as [Hnone Hhead]. split.
    + cbn [contains]. apply orb_false_iff. split; [|exact Hnone].
      destruct (String.prefix "%s" (String c (replace_loop fuel old new s))) eqn:Hp;
        [|reflexivity].
      apply prefix_cons in Hp as [<- Hp]. apply Hhead in Hp.
      apply contains_head in Habsent.
      rewrite (proj2 (prefix_cons "%" "s" "%" s) (conj eq_refl Hp)) in Habsent.
      discriminate Habsent.
    + intros Hp. apply prefix_cons in Hp as [<- _].
      apply prefix_cons. split; [reflexivity | apply prefix_empty].
Qed.

(** X18. Whatever the statement, what SQLite is given holds no [%s]
    placeholder: each one has become a question mark, and none of the later
    replacements makes a new one. *)
Theorem no_placeholder_left (query : string) :
  contains "%s" (_normalize_query query) = false.
Proof.
  unfold _normalize_query, py_replace.
  pose proof (replace_placeholders (String.length query) query (le_n _)) as [H1 _].
  set (q1 := replace_loop (String.length query) "%s" "?" query) in *.
  pose proof (replace_keeps_placeholders_out "TRUE" "1" ltac:(cbn; lia) eq_refl eq_refl
                ltac:(discriminate) (String.length q1) q1 (le_n _) H1) as [H2 _].
  set (q2 := replace_loop (String.length q1) "TRUE" "1" q1) in *.
  pose proof (replace_keeps_placeholders_out "FALSE" "0" ltac:(cbn; lia) eq_refl eq_refl
                ltac:(discriminate) (String.length q2) q2 (le_n _) H2) as [H3 _].
  set (q3 := replace_loop (String.length q2) "FALSE" "0" q2) in *.
  pose proof (replace_keeps_placeholders_out "NOW()" "CURRENT_TIMESTAMP" ltac:(cbn; lia)
                eq_refl eq_refl ltac:(discriminate) (String.length q3) q3 (le_n _) H3)
    as [H4 _].
  set (q4 := replace_loop (String.length q3) "NOW()" "CURRENT_TIMESTAMP" q3) in *.
  exact (proj1 (replace_keeps_placeholders_out "CURDATE()" "DATE('now')" ltac:(cbn; lia)
                  eq_refl eq_refl ltac:(discriminate) (String.length q4) q4 (le_n _) H4)).
Qed.
